(** * steam_wishlist.py: a shallow embedding and its specification

    The program is a linear pipeline: resolve the command line, load or
    fetch the wishlist, optionally fetch prices, optionally save a
    snapshot, filter, project and print.  Every stage below is a Rocq
    function written after the corresponding lines of
    [src/steam_wishlist.py]; the Python built-ins it calls ([int], [str],
    [str.isalpha], [json.dump], ...) are modelled in the modules [Py],
    [Json], [JsonPretty] and [Repr].

    The file has two parts: the model (Python values and built-ins, the
    world, the program), then the facts proved about it, in the order of
    the pipeline.

    Conventions of the model
    - a Python [str] is a Rocq [string]; the character with code [n] stands
      for the code point U+00nn, so the model covers the Latin-1 range; the
      tag filter, which depends on the characters of its input, is
      embedded a second time on sequences of code points (module [PyStr]);
    - a Python [int] is a [Z]; floats are not part of the model;
    - a Python [dict] with string keys is an association list in insertion
      order, written and read through [dict_set] and [dict_get];
    - an exception is a value of [exn]; a computation that may raise
      returns a [result]. *)

From Stdlib Require Import List String Ascii ZArith NArith Bool Lia Arith.
From Stdlib Require Import Decimal DecimalFacts DecimalN DecimalString.
From Stdlib Require Import Permutation Sorted.
Import ListNotations.

Local Open Scope string_scope.
Local Open Scope Z_scope.

(** ** Exceptions and results *)

Inductive exn : Type :=
| KeyError (key : string)
| IndexError
| TypeError
| ValueError
| AttributeError
| JSONDecodeError
| FileNotFoundError
| HTTPError (code : Z)
| URLError
| SystemExit (code : Z).

Inductive result (A : Type) : Type :=
| Ret (a : A)
| Raise (e : exn).

Arguments Ret {A} a.
Arguments Raise {A} e.

Definition bind {A B} (m : result A) (k : A -> result B) : result B :=
  match m with
  | Ret a => k a
  | Raise e => Raise e
  end.

Declare Scope exc_scope.
Delimit Scope exc_scope with exc.
Notation "x <- m ;; k" := (bind m (fun x => k))
  (at level 61, m at next level, right associativity) : exc_scope.

Definition raises {A} (m : result A) : Prop := exists e, m = Raise e.
Definition returns {A} (m : result A) : Prop := exists a, m = Ret a.

(** ** Python built-ins on characters, strings and integers *)

Module Py.

Definition code (c : ascii) : N := N_of_ascii c.

Definition between (lo hi : N) (c : ascii) : bool :=
  ((lo <=? code c) && (code c <=? hi))%N.

(** [str.isalpha] on one character: the letters of Latin-1. *)
Definition isalpha (c : ascii) : bool :=
  between 65 90 c || between 97 122 c
  || (code c =? 170)%N || (code c =? 181)%N || (code c =? 186)%N
  || between 192 214 c || between 216 246 c || between 248 255 c.

(** [str.lower] on one character. *)
Definition lower (c : ascii) : ascii :=
  if between 65 90 c || between 192 214 c || between 216 222 c
  then ascii_of_N (code c + 32)
  else c.

(** [str.isdigit] on one character: 0-9 and the superscripts 1, 2, 3. *)
Definition isdigit (c : ascii) : bool :=
  between 48 57 c || (code c =? 178)%N || (code c =? 179)%N || (code c =? 185)%N.

(** The decimal digits [int] accepts. *)
Definition is_decimal (c : ascii) : bool := between 48 57 c.

Definition digit_value (c : ascii) : Z := Z.of_N (code c) - 48.

(** The white space [int] strips. *)
Definition is_int_space (c : ascii) : bool :=
  between 9 13 c || (code c =? 32)%N || (code c =? 133)%N || (code c =? 160)%N.

Fixpoint str_all (p : ascii -> bool) (s : string) : bool :=
  match s with
  | EmptyString => true
  | String c s' => p c && str_all p s'
  end.

Fixpoint str_map (f : ascii -> ascii) (s : string) : string :=
  match s with
  | EmptyString => EmptyString
  | String c s' => String (f c) (str_map f s')
  end.

Fixpoint str_filter (p : ascii -> bool) (s : string) : string :=
  match s with
  | EmptyString => EmptyString
  | String c s' => if p c then String c (str_filter p s') else str_filter p s'
  end.

Definition nonempty (s : string) : bool :=
  match s with EmptyString => false | _ => true end.

(** [s.isalpha()], [s.isdigit()], [s.lower()] on a whole string. *)
Definition str_isalpha (s : string) : bool := nonempty s && str_all isalpha s.
Definition str_isdigit (s : string) : bool := nonempty s && str_all isdigit s.
Definition str_lower (s : string) : string := str_map lower s.

Fixpoint lstrip (s : string) : string :=
  match s with
  | String c s' => if is_int_space c then lstrip s' else s
  | EmptyString => EmptyString
  end.

(** The body of an integer literal: digits, single underscores between
    digits, trailing white space.  [need] says that a digit must come
    next. *)
Fixpoint int_body (acc : Z) (need : bool) (s : string) : option Z :=
  match s with
  | EmptyString => if need then None else Some acc
  | String c s' =>
      if is_decimal c then int_body (acc * 10 + digit_value c) false s'
      else if need then None
      else if Ascii.eqb c "_" then int_body acc true s'
      else if is_int_space c then
             if str_all is_int_space s' then Some acc else None
      else None
  end.

(** [int(s)] for a string [s], base 10; [None] is [ValueError]. *)
Definition int_of_str (s : string) : option Z :=
  match lstrip s with
  | String "+" r => int_body 0 true r
  | String "-" r => option_map Z.opp (int_body 0 true r)
  | r => int_body 0 true r
  end.

(** [str.split(sep)] for a one-character separator. *)
Fixpoint split_on (sep : ascii) (cur : string) (s : string) : list string :=
  match s with
  | EmptyString => [cur]
  | String c s' =>
      if Ascii.eqb c sep then cur :: split_on sep EmptyString s'
      else split_on sep (cur ++ String c EmptyString) s'
  end.

Definition split (sep : ascii) (s : string) : list string :=
  split_on sep EmptyString s.

(** [sep.join(parts)]. *)
Fixpoint join (sep : string) (parts : list string) : string :=
  match parts with
  | [] => EmptyString
  | [p] => p
  | p :: rest => p ++ sep ++ join sep rest
  end.

(** [x in xs] for a list of strings. *)
Definition str_in (x : string) (xs : list string) : bool :=
  existsb (String.eqb x) xs.

(** [str(n)] for an integer. *)
Definition str_of_N (n : N) : string := NilZero.string_of_uint (N.to_uint n).

Definition str_of_int (z : Z) : string :=
  match z with
  | Zneg p => String "-" (str_of_N (Npos p))
  | _ => str_of_N (Z.to_N z)
  end.

End Py.

(** ** Python values *)

(** The values the program handles: what [json.loads] builds (floats
    apart).  A [VDict] lists its items in insertion order. *)
#[local] Set Warnings "-register-all".

Inductive value : Type :=
| VNone
| VBool (b : bool)
| VInt (z : Z)
| VStr (s : string)
| VList (xs : list value)
| VDict (items : list (string * value)).

Definition dict : Type := list (string * value).

(** Induction on values that reaches inside lists and dicts. *)
Section ValueInduction.
Variable P : value -> Prop.
Hypothesis HNone : P VNone.
Hypothesis HBool : forall b, P (VBool b).
Hypothesis HInt : forall z, P (VInt z).
Hypothesis HStr : forall s, P (VStr s).
Hypothesis HList : forall xs, Forall P xs -> P (VList xs).
Hypothesis HDict : forall items, Forall (fun kv => P (snd kv)) items -> P (VDict items).

Fixpoint value_deep_ind (v : value) : P v :=
  match v with
  | VNone => HNone
  | VBool b => HBool b
  | VInt z => HInt z
  | VStr s => HStr s
  | VList xs =>
      HList xs
        ((fix go (l : list value) : Forall P l :=
            match l with
            | [] => Forall_nil P
            | x :: l' => Forall_cons x (value_deep_ind x) (go l')
            end) xs)
  | VDict items =>
      HDict items
        ((fix go (l : list (string * value)) : Forall (fun kv => P (snd kv)) l :=
            match l with
            | [] => Forall_nil _
            | kv :: l' => Forall_cons kv (value_deep_ind (snd kv)) (go l')
            end) items)
  end.
End ValueInduction.

(** *** Dictionaries *)

Fixpoint dict_get (d : dict) (k : string) : option value :=
  match d with
  | [] => None
  | (k', v) :: d' => if String.eqb k k' then Some v else dict_get d' k
  end.

(** [d[k] = v]: an existing key keeps its place, a new key goes last. *)
Fixpoint dict_set (d : dict) (k : string) (v : value) : dict :=
  match d with
  | [] => [(k, v)]
  | (k', v') :: d' =>
      if String.eqb k k' then (k', v) :: d' else (k', v') :: dict_set d' k v
  end.

Definition dict_keys (d : dict) : list string := map fst d.
Definition dict_values (d : dict) : list value := map snd d.
Definition dict_has (d : dict) (k : string) : bool :=
  match dict_get d k with Some _ => true | None => false end.

(** [dict(pairs)] and [d.update(pairs)]. *)
Definition dict_update (d : dict) (pairs : list (string * value)) : dict :=
  fold_left (fun acc kv => dict_set acc (fst kv) (snd kv)) pairs d.

(** [d.get(k, default)]. *)
Definition dict_get_default (d : dict) (k : string) (default : value) : value :=
  match dict_get d k with Some v => v | None => default end.

Fixpoint All {A : Type} (P : A -> Prop) (l : list A) : Prop :=
  match l with
  | [] => True
  | x :: l' => P x /\ All P l'
  end.

(** A value is well formed when every dict in it has distinct keys, as
    every Python dict has. *)
Fixpoint wf_value (v : value) : Prop :=
  match v with
  | VList xs => All wf_value xs
  | VDict items =>
      NoDup (map fst items) /\ All (fun kv => wf_value (snd kv)) items
  | _ => True
  end.

Definition wf_dict (d : dict) : Prop := wf_value (VDict d).

(** *** Truth value, [int()] and iteration *)

Definition truthy (v : value) : bool :=
  match v with
  | VNone => false
  | VBool b => b
  | VInt z => negb (z =? 0)
  | VStr s => Py.nonempty s
  | VList xs => match xs with [] => false | _ => true end
  | VDict items => match items with [] => false | _ => true end
  end.

(** [int(v)]. *)
Definition py_int (v : value) : result Z :=
  match v with
  | VInt z => Ret z
  | VBool b => Ret (if b then 1 else 0)
  | VStr s =>
      match Py.int_of_str s with
      | Some z => Ret z
      | None => Raise ValueError
      end
  | _ => Raise TypeError
  end.

Fixpoint chars (s : string) : list string :=
  match s with
  | EmptyString => []
  | String c s' => String c EmptyString :: chars s'
  end.

(** [for x in v]: the items a [for] loop visits. *)
Definition py_iter (v : value) : result (list value) :=
  match v with
  | VStr s => Ret (map VStr (chars s))
  | VList xs => Ret xs
  | VDict items => Ret (map VStr (dict_keys items))
  | _ => Raise TypeError
  end.

(** [v.get(k, default)]: only a dict has [get]. *)
Definition py_get (v : value) (k : string) (default : value) : result value :=
  match v with
  | VDict items => Ret (dict_get_default items k default)
  | _ => Raise AttributeError
  end.

(** [v[k]] for a string [k]. *)
Definition py_getitem (v : value) (k : string) : result value :=
  match v with
  | VDict items =>
      match dict_get items k with
      | Some x => Ret x
      | None => Raise (KeyError k)
      end
  | _ => Raise TypeError
  end.

(** ** The [json] module: [dumps] and [loads] *)

Module Json.

Import Py.

Definition quote : ascii := "034"%char.
Definition backslash : ascii := "092"%char.

Definition str1 (c : ascii) : string := String c EmptyString.

(** A hexadecimal digit, lower case, as [json.dumps] writes it. *)
Definition hex_digit (n : N) : ascii :=
  if (n <? 10)%N then ascii_of_N (48 + n) else ascii_of_N (87 + n).

Definition escape_u (c : ascii) : string :=
  String backslash
    (String "u" (String "0" (String "0"
       (String (hex_digit (code c / 16)) (str1 (hex_digit (code c mod 16))))))).

Definition escape2 (c : ascii) : string := String backslash (str1 c).

(** One character of a string literal.  With [ensure_ascii] everything
    outside the printable ASCII range is escaped, without it only the
    control characters, the quote and the backslash are. *)
Definition escape_char (ensure_ascii : bool) (c : ascii) : string :=
  let n := code c in
  if (n =? 34)%N then escape2 quote
  else if (n =? 92)%N then escape2 backslash
  else if (n =? 10)%N then escape2 "n"
  else if (n =? 13)%N then escape2 "r"
  else if (n =? 9)%N then escape2 "t"
  else if (n =? 8)%N then escape2 "b"
  else if (n =? 12)%N then escape2 "f"
  else if (n <? 32)%N then escape_u c
  else if ensure_ascii && (126 <? n)%N then escape_u c
  else str1 c.

Fixpoint escape_body (ensure_ascii : bool) (s : string) : string :=
  match s with
  | EmptyString => EmptyString
  | String c s' => escape_char ensure_ascii c ++ escape_body ensure_ascii s'
  end.

Definition encode_str (ensure_ascii : bool) (s : string) : string :=
  String quote (escape_body ensure_ascii s ++ str1 quote).

(** The elements after the first one, up to the closing bracket. *)
Definition list_tail (f : value -> string) : list value -> string :=
  fix tail (l : list value) : string :=
    match l with
    | [] => "]"
    | y :: l' => ", " ++ f y ++ tail l'
    end.

Definition dict_tail (f : value -> string) : list (string * value) -> string :=
  fix tail (l : list (string * value)) : string :=
    match l with
    | [] => "}"
    | kv :: l' => ", " ++ encode_str true (fst kv) ++ ": " ++ f (snd kv) ++ tail l'
    end.

(** [json.dumps(v)] with the default separators: what [json.dump] writes
    to a snapshot. *)
Fixpoint dumps (v : value) : string :=
  match v with
  | VNone => "null"
  | VBool true => "true"
  | VBool false => "false"
  | VInt z => str_of_int z
  | VStr s => encode_str true s
  | VList xs =>
      match xs with
      | [] => "[]"
      | x :: xs' => "[" ++ dumps x ++ list_tail dumps xs'
      end
  | VDict items =>
      match items with
      | [] => "{}"
      | kv :: items' =>
          "{" ++ encode_str true (fst kv) ++ ": " ++ dumps (snd kv)
          ++ dict_tail dumps items'
      end
  end.

(** *** Reading *)

Definition is_ws (c : ascii) : bool :=
  (code c =? 32)%N || (code c =? 9)%N || (code c =? 10)%N || (code c =? 13)%N.

Fixpoint skip_ws (s : string) : string :=
  match s with
  | String c s' => if is_ws c then skip_ws s' else s
  | EmptyString => EmptyString
  end.

Definition hex_value (c : ascii) : option N :=
  if between 48 57 c then Some (code c - 48)%N
  else if between 97 102 c then Some (code c - 87)%N
  else if between 65 70 c then Some (code c - 55)%N
  else None.

(** The code point of a [\uXXXX] escape, when it lies in the range the
    model covers. *)
Definition unescape_u (h1 h2 h3 h4 : ascii) : option ascii :=
  match hex_value h1, hex_value h2, hex_value h3, hex_value h4 with
  | Some a, Some b, Some c, Some d =>
      if ((a =? 0) && (b =? 0))%N then Some (ascii_of_N (c * 16 + d)) else None
  | _, _, _, _ => None
  end.

Definition unescape2 (c : ascii) : option ascii :=
  let n := code c in
  if (n =? 34)%N then Some quote
  else if (n =? 92)%N then Some backslash
  else if (n =? 47)%N then Some "/"%char
  else if (n =? 98)%N then Some "008"%char
  else if (n =? 102)%N then Some "012"%char
  else if (n =? 110)%N then Some "010"%char
  else if (n =? 114)%N then Some "013"%char
  else if (n =? 116)%N then Some "009"%char
  else None.

(** The characters of a string literal after its opening quote, and what
    follows the closing quote. *)
Fixpoint scanstring (s : string) : option (string * string) :=
  match s with
  | EmptyString => None
  | String c r =>
      if (code c =? 34)%N then Some (EmptyString, r)
      else if (code c =? 92)%N then
        match r with
        | EmptyString => None
        | String e r1 =>
            if (code e =? 117)%N then
              match r1 with
              | String h1 (String h2 (String h3 (String h4 r2))) =>
                  match unescape_u h1 h2 h3 h4 with
                  | Some x =>
                      match scanstring r2 with
                      | Some (body, rest) => Some (String x body, rest)
                      | None => None
                      end
                  | None => None
                  end
              | _ => None
              end
            else
              match unescape2 e with
              | Some x =>
                  match scanstring r1 with
                  | Some (body, rest) => Some (String x body, rest)
                  | None => None
                  end
              | None => None
              end
        end
      else if (code c <? 32)%N then None
      else
        match scanstring r with
        | Some (body, rest) => Some (String c body, rest)
        | None => None
        end
  end.

Fixpoint span_digits (s : string) : string * string :=
  match s with
  | EmptyString => (EmptyString, EmptyString)
  | String c r =>
      if is_decimal c
      then let (ds, rest) := span_digits r in (String c ds, rest)
      else (EmptyString, s)
  end.

(** What may follow an integer literal: anything but a character that
    would continue the number (the model has no floats). *)
Definition ends_number (s : string) : bool :=
  match s with
  | EmptyString => true
  | String c _ =>
      negb (is_decimal c || (code c =? 46)%N || (code c =? 101)%N || (code c =? 69)%N)
  end.

Definition scan_nat (s : string) : option (N * string) :=
  let (ds, rest) := span_digits s in
  match ds with
  | EmptyString => None
  | String "0" (String _ _) => None
  | _ =>
      if ends_number rest then
        match NilZero.uint_of_string ds with
        | Some u => Some (N.of_uint u, rest)
        | None => None
        end
      else None
  end.

Fixpoint expect (word : string) (s : string) : option string :=
  match word, s with
  | EmptyString, _ => Some s
  | String a w, String b r => if Ascii.eqb a b then expect w r else None
  | _, EmptyString => None
  end.

(** [scan_once] reads one value at the head of the text; [scan_array] and
    [scan_object] read the elements after an opening bracket or brace.
    [fuel] bounds the nesting and the number of elements. *)
Fixpoint scan_once (fuel : nat) (s : string) {struct fuel} : option (value * string) :=
  match fuel with
  | O => None
  | S fuel' =>
      match s with
      | EmptyString => None
      | String c r =>
          if (code c =? 34)%N then
            match scanstring r with
            | Some (body, rest) => Some (VStr body, rest)
            | None => None
            end
          else if (code c =? 123)%N then
            match skip_ws r with
            | EmptyString => None
            | String c1 rest =>
                if (code c1 =? 125)%N then Some (VDict [], rest)
                else
                  match scan_object fuel' (String c1 rest) with
                  | Some (pairs, rest') => Some (VDict (dict_update [] pairs), rest')
                  | None => None
                  end
            end
          else if (code c =? 91)%N then
            match skip_ws r with
            | EmptyString => None
            | String c1 rest =>
                if (code c1 =? 93)%N then Some (VList [], rest)
                else
                  match scan_array fuel' (String c1 rest) with
                  | Some (xs, rest') => Some (VList xs, rest')
                  | None => None
                  end
            end
          else if (code c =? 110)%N then
            option_map (fun rest => (VNone, rest)) (expect "ull" r)
          else if (code c =? 116)%N then
            option_map (fun rest => (VBool true, rest)) (expect "rue" r)
          else if (code c =? 102)%N then
            option_map (fun rest => (VBool false, rest)) (expect "alse" r)
          else if (code c =? 45)%N then
            match scan_nat r with
            | Some (n, rest) => Some (VInt (- Z.of_N n), rest)
            | None => None
            end
          else
            match scan_nat s with
            | Some (n, rest) => Some (VInt (Z.of_N n), rest)
            | None => None
            end
      end
  end

with scan_array (fuel : nat) (s : string) {struct fuel} : option (list value * string) :=
  match fuel with
  | O => None
  | S fuel' =>
      match scan_once fuel' s with
      | Some (x, rest) =>
          match skip_ws rest with
          | EmptyString => None
          | String c rest' =>
              if (code c =? 93)%N then Some ([x], rest')
              else if (code c =? 44)%N then
                match scan_array fuel' (skip_ws rest') with
                | Some (xs, rest'') => Some (x :: xs, rest'')
                | None => None
                end
              else None
          end
      | None => None
      end
  end

with scan_object (fuel : nat) (s : string) {struct fuel}
  : option (list (string * value) * string) :=
  match fuel with
  | O => None
  | S fuel' =>
      match s with
      | EmptyString => None
      | String c r =>
          if (code c =? 34)%N then
            match scanstring r with
            | Some (k, rest) =>
                match skip_ws rest with
                | EmptyString => None
                | String c1 rest1 =>
                    if (code c1 =? 58)%N then
                      match scan_once fuel' (skip_ws rest1) with
                      | Some (x, rest2) =>
                          match skip_ws rest2 with
                          | EmptyString => None
                          | String c2 rest3 =>
                              if (code c2 =? 125)%N then Some ([(k, x)], rest3)
                              else if (code c2 =? 44)%N then
                                match scan_object fuel' (skip_ws rest3) with
                                | Some (pairs, rest4) => Some ((k, x) :: pairs, rest4)
                                | None => None
                                end
                              else None
                          end
                      | None => None
                      end
                    else None
                end
            | None => None
            end
          else None
      end
  end.

(** [json.loads(text)]: one value, white space around it, nothing else.
    [None] is [JSONDecodeError] (or a text outside the model). *)
Definition loads (text : string) : option value :=
  match scan_once (S (String.length text)) (skip_ws text) with
  | Some (v, rest) =>
      match skip_ws rest with
      | EmptyString => Some v
      | _ => None
      end
  | None => None
  end.

End Json.

(** [json.dumps(v, indent=4, ensure_ascii=False)]: what the program prints
    in JSON mode. *)
Module JsonPretty.

Import Py Json.

Fixpoint spaces (n : nat) : string :=
  match n with
  | O => EmptyString
  | S n' => String " " (spaces n')
  end.

Definition newline_indent (level : nat) : string :=
  String "010"%char (spaces (4 * level)).

Definition list_tail (f : value -> string) (level : nat) : list value -> string :=
  fix tail (l : list value) : string :=
    match l with
    | [] => newline_indent level ++ "]"
    | y :: l' => "," ++ newline_indent (S level) ++ f y ++ tail l'
    end.

Definition dict_tail (f : value -> string) (level : nat)
  : list (string * value) -> string :=
  fix tail (l : list (string * value)) : string :=
    match l with
    | [] => newline_indent level ++ "}"
    | kv :: l' =>
        "," ++ newline_indent (S level) ++ encode_str false (fst kv) ++ ": "
        ++ f (snd kv) ++ tail l'
    end.

Fixpoint dumps_at (level : nat) (v : value) : string :=
  match v with
  | VNone => "null"
  | VBool true => "true"
  | VBool false => "false"
  | VInt z => str_of_int z
  | VStr s => encode_str false s
  | VList xs =>
      match xs with
      | [] => "[]"
      | x :: xs' =>
          "[" ++ newline_indent (S level) ++ dumps_at (S level) x
          ++ list_tail (dumps_at (S level)) level xs'
      end
  | VDict items =>
      match items with
      | [] => "{}"
      | kv :: items' =>
          "{" ++ newline_indent (S level) ++ encode_str false (fst kv) ++ ": "
          ++ dumps_at (S level) (snd kv)
          ++ dict_tail (dumps_at (S level)) level items'
      end
  end.

Definition dumps (v : value) : string := dumps_at 0 v.

End JsonPretty.

(** ** The world the program runs in *)

(** The files, by path, and the two output streams. *)
Record world : Type := {
  files : list (string * string);
  stdout : string;
  stderr : string
}.

Definition io (A : Type) : Type := world -> result A * world.

Definition io_ret {A} (a : A) : io A := fun w => (Ret a, w).
Definition io_raise {A} (e : exn) : io A := fun w => (Raise e, w).
Definition io_lift {A} (m : result A) : io A := fun w => (m, w).

Definition io_bind {A B} (m : io A) (k : A -> io B) : io B :=
  fun w =>
    match m w with
    | (Ret a, w') => k a w'
    | (Raise e, w') => (Raise e, w')
    end.

Declare Scope io_scope.
Delimit Scope io_scope with io.
Notation "x <- m ;; k" := (io_bind m (fun x => k))
  (at level 61, m at next level, right associativity) : io_scope.
Notation "m ;;; k" := (io_bind m (fun _ => k))
  (at level 61, right associativity) : io_scope.

Definition nl : string := String "010"%char EmptyString.

Definition write_stdout (msg : string) : io unit :=
  fun w => (Ret tt, {| files := files w; stdout := stdout w ++ msg; stderr := stderr w |}).

(** [print(text)]. *)
Definition print (text : string) : io unit := write_stdout (text ++ nl).

Fixpoint file_lookup (fs : list (string * string)) (path : string) : option string :=
  match fs with
  | [] => None
  | (p, content) :: fs' => if String.eqb path p then Some content else file_lookup fs' path
  end.

Fixpoint file_store (fs : list (string * string)) (path content : string)
  : list (string * string) :=
  match fs with
  | [] => [(path, content)]
  | (p, c) :: fs' =>
      if String.eqb path p then (p, content) :: fs' else (p, c) :: file_store fs' path content
  end.

(** [open(path).read()] and [open(path, "w").write(content)]. *)
Definition read_file (path : string) : io string :=
  fun w =>
    match file_lookup (files w) path with
    | Some content => (Ret content, w)
    | None => (Raise FileNotFoundError, w)
    end.

Definition write_file (path content : string) : io unit :=
  fun w =>
    (Ret tt, {| files := file_store (files w) path content;
                stdout := stdout w; stderr := stderr w |}).

(** The exit status of a run: [sys.exit(n)] gives [n], any other uncaught
    exception gives 1. *)
Definition exit_code {A} (r : result A) : Z :=
  match r with
  | Ret _ => 0
  | Raise (SystemExit n) => n
  | Raise _ => 1
  end.

(** *** The network *)

Record Request : Type := {
  req_url : string;
  req_headers : list (string * string)
}.

(** What a request meets: a body, an HTTP error status, or no connection. *)
Inductive Response : Type :=
| HttpBody (body : string)
| HttpFail (code : Z)
| UrlFail.

Definition network : Type := Request -> Response.

Definition add_header (req : Request) (name val : string) : Request :=
  {| req_url := req_url req; req_headers := req_headers req ++ [(name, val)] |}.

(** [urllib.request.urlopen(req)] followed by [response.read()]. *)
Definition urlopen (net : network) (req : Request) : io string :=
  match net req with
  | HttpBody body => io_ret body
  | HttpFail code => io_raise (HTTPError code)
  | UrlFail => io_raise URLError
  end.

(** ** The command line *)

Module args.

Record t : Type := {
  userid : option string;
  cookie : option string;
  quiet : bool;
  json : bool;
  csv : bool;
  fields : option string;
  separator : string;
  quote : string;
  sort : option string;
  num : bool;
  reverse : bool;
  save : option string;
  load : option string;
  platform : option (list string);
  free : bool;
  no_free : bool;
  demo : bool;
  achievements : bool;
  cards : bool;
  released : bool;
  no_released : bool;
  early : bool;
  no_early : bool;
  type : option (list string);
  tag : option (list string);
  deck : option string;
  cc : option string;
  refresh : bool;
  discount : option string;
  price : option string
}.

(** The namespace [parse_args] builds from an empty command line. *)
Definition default : t := {|
  userid := None; cookie := None; quiet := false; json := false; csv := false;
  fields := None; separator := String "009"%char EmptyString; quote := "never";
  sort := None; num := false; reverse := false; save := None; load := None;
  platform := None; free := false; no_free := false; demo := false;
  achievements := false; cards := false; released := false;
  no_released := false; early := false; no_early := false; type := None;
  tag := None; deck := None; cc := None; refresh := false; discount := None;
  price := None
|}.

(** Setting one option, as one more flag on the command line does. *)
Definition set_userid (x : option string) (a : t) : t :=
  {| userid := x; cookie := cookie a; quiet := quiet a; json := json a;
     csv := csv a; fields := fields a; separator := separator a; quote := quote a;
     sort := sort a; num := num a; reverse := reverse a; save := save a;
     load := load a; platform := platform a; free := free a; no_free := no_free a;
     demo := demo a; achievements := achievements a; cards := cards a;
     released := released a; no_released := no_released a; early := early a;
     no_early := no_early a; type := type a; tag := tag a; deck := deck a;
     cc := cc a; refresh := refresh a; discount := discount a; price := price a |}.

Definition set_csv (x : bool) (a : t) : t :=
  {| userid := userid a; cookie := cookie a; quiet := quiet a; json := json a;
     csv := x; fields := fields a; separator := separator a; quote := quote a;
     sort := sort a; num := num a; reverse := reverse a; save := save a;
     load := load a; platform := platform a; free := free a; no_free := no_free a;
     demo := demo a; achievements := achievements a; cards := cards a;
     released := released a; no_released := no_released a; early := early a;
     no_early := no_early a; type := type a; tag := tag a; deck := deck a;
     cc := cc a; refresh := refresh a; discount := discount a; price := price a |}.

Definition set_fields (x : option string) (a : t) : t :=
  {| userid := userid a; cookie := cookie a; quiet := quiet a; json := json a;
     csv := csv a; fields := x; separator := separator a; quote := quote a;
     sort := sort a; num := num a; reverse := reverse a; save := save a;
     load := load a; platform := platform a; free := free a; no_free := no_free a;
     demo := demo a; achievements := achievements a; cards := cards a;
     released := released a; no_released := no_released a; early := early a;
     no_early := no_early a; type := type a; tag := tag a; deck := deck a;
     cc := cc a; refresh := refresh a; discount := discount a; price := price a |}.

Definition set_num (x : bool) (a : t) : t :=
  {| userid := userid a; cookie := cookie a; quiet := quiet a; json := json a;
     csv := csv a; fields := fields a; separator := separator a; quote := quote a;
     sort := sort a; num := x; reverse := reverse a; save := save a;
     load := load a; platform := platform a; free := free a; no_free := no_free a;
     demo := demo a; achievements := achievements a; cards := cards a;
     released := released a; no_released := no_released a; early := early a;
     no_early := no_early a; type := type a; tag := tag a; deck := deck a;
     cc := cc a; refresh := refresh a; discount := discount a; price := price a |}.

Definition set_save (x : option string) (a : t) : t :=
  {| userid := userid a; cookie := cookie a; quiet := quiet a; json := json a;
     csv := csv a; fields := fields a; separator := separator a; quote := quote a;
     sort := sort a; num := num a; reverse := reverse a; save := x;
     load := load a; platform := platform a; free := free a; no_free := no_free a;
     demo := demo a; achievements := achievements a; cards := cards a;
     released := released a; no_released := no_released a; early := early a;
     no_early := no_early a; type := type a; tag := tag a; deck := deck a;
     cc := cc a; refresh := refresh a; discount := discount a; price := price a |}.

Definition set_load (x : option string) (a : t) : t :=
  {| userid := userid a; cookie := cookie a; quiet := quiet a; json := json a;
     csv := csv a; fields := fields a; separator := separator a; quote := quote a;
     sort := sort a; num := num a; reverse := reverse a; save := save a;
     load := x; platform := platform a; free := free a; no_free := no_free a;
     demo := demo a; achievements := achievements a; cards := cards a;
     released := released a; no_released := no_released a; early := early a;
     no_early := no_early a; type := type a; tag := tag a; deck := deck a;
     cc := cc a; refresh := refresh a; discount := discount a; price := price a |}.

Definition set_type (x : option (list string)) (a : t) : t :=
  {| userid := userid a; cookie := cookie a; quiet := quiet a; json := json a;
     csv := csv a; fields := fields a; separator := separator a; quote := quote a;
     sort := sort a; num := num a; reverse := reverse a; save := save a;
     load := load a; platform := platform a; free := free a; no_free := no_free a;
     demo := demo a; achievements := achievements a; cards := cards a;
     released := released a; no_released := no_released a; early := early a;
     no_early := no_early a; type := x; tag := tag a; deck := deck a; cc := cc a;
     refresh := refresh a; discount := discount a; price := price a |}.

Definition set_tag (x : option (list string)) (a : t) : t :=
  {| userid := userid a; cookie := cookie a; quiet := quiet a; json := json a;
     csv := csv a; fields := fields a; separator := separator a; quote := quote a;
     sort := sort a; num := num a; reverse := reverse a; save := save a;
     load := load a; platform := platform a; free := free a; no_free := no_free a;
     demo := demo a; achievements := achievements a; cards := cards a;
     released := released a; no_released := no_released a; early := early a;
     no_early := no_early a; type := type a; tag := x; deck := deck a; cc := cc a;
     refresh := refresh a; discount := discount a; price := price a |}.

Definition set_cc (x : option string) (a : t) : t :=
  {| userid := userid a; cookie := cookie a; quiet := quiet a; json := json a;
     csv := csv a; fields := fields a; separator := separator a; quote := quote a;
     sort := sort a; num := num a; reverse := reverse a; save := save a;
     load := load a; platform := platform a; free := free a; no_free := no_free a;
     demo := demo a; achievements := achievements a; cards := cards a;
     released := released a; no_released := no_released a; early := early a;
     no_early := no_early a; type := type a; tag := tag a; deck := deck a;
     cc := x; refresh := refresh a; discount := discount a; price := price a |}.

Definition set_discount (x : option string) (a : t) : t :=
  {| userid := userid a; cookie := cookie a; quiet := quiet a; json := json a;
     csv := csv a; fields := fields a; separator := separator a; quote := quote a;
     sort := sort a; num := num a; reverse := reverse a; save := save a;
     load := load a; platform := platform a; free := free a; no_free := no_free a;
     demo := demo a; achievements := achievements a; cards := cards a;
     released := released a; no_released := no_released a; early := early a;
     no_early := no_early a; type := type a; tag := tag a; deck := deck a;
     cc := cc a; refresh := refresh a; discount := x; price := price a |}.

Definition set_price (x : option string) (a : t) : t :=
  {| userid := userid a; cookie := cookie a; quiet := quiet a; json := json a;
     csv := csv a; fields := fields a; separator := separator a; quote := quote a;
     sort := sort a; num := num a; reverse := reverse a; save := save a;
     load := load a; platform := platform a; free := free a; no_free := no_free a;
     demo := demo a; achievements := achievements a; cards := cards a;
     released := released a; no_released := no_released a; early := early a;
     no_early := no_early a; type := type a; tag := tag a; deck := deck a;
     cc := cc a; refresh := refresh a; discount := discount a; price := x |}.

Definition set_quiet (x : bool) (a : t) : t :=
  {| userid := userid a; cookie := cookie a; quiet := x; json := json a; csv := csv a;
     fields := fields a; separator := separator a; quote := quote a; sort := sort a;
     num := num a; reverse := reverse a; save := save a; load := load a;
     platform := platform a; free := free a; no_free := no_free a; demo := demo a;
     achievements := achievements a; cards := cards a; released := released a;
     no_released := no_released a; early := early a; no_early := no_early a;
     type := type a; tag := tag a; deck := deck a; cc := cc a; refresh := refresh a;
     discount := discount a; price := price a |}.

Definition set_reverse (x : bool) (a : t) : t :=
  {| userid := userid a; cookie := cookie a; quiet := quiet a; json := json a;
     csv := csv a; fields := fields a; separator := separator a; quote := quote a;
     sort := sort a; num := num a; reverse := x; save := save a; load := load a;
     platform := platform a; free := free a; no_free := no_free a; demo := demo a;
     achievements := achievements a; cards := cards a; released := released a;
     no_released := no_released a; early := early a; no_early := no_early a;
     type := type a; tag := tag a; deck := deck a; cc := cc a; refresh := refresh a;
     discount := discount a; price := price a |}.

Definition set_free (x : bool) (a : t) : t :=
  {| userid := userid a; cookie := cookie a; quiet := quiet a; json := json a;
     csv := csv a; fields := fields a; separator := separator a; quote := quote a;
     sort := sort a; num := num a; reverse := reverse a; save := save a;
     load := load a; platform := platform a; free := x; no_free := no_free a;
     demo := demo a; achievements := achievements a; cards := cards a;
     released := released a; no_released := no_released a; early := early a;
     no_early := no_early a; type := type a; tag := tag a; deck := deck a; cc := cc a;
     refresh := refresh a; discount := discount a; price := price a |}.

Definition set_no_free (x : bool) (a : t) : t :=
  {| userid := userid a; cookie := cookie a; quiet := quiet a; json := json a;
     csv := csv a; fields := fields a; separator := separator a; quote := quote a;
     sort := sort a; num := num a; reverse := reverse a; save := save a;
     load := load a; platform := platform a; free := free a; no_free := x;
     demo := demo a; achievements := achievements a; cards := cards a;
     released := released a; no_released := no_released a; early := early a;
     no_early := no_early a; type := type a; tag := tag a; deck := deck a; cc := cc a;
     refresh := refresh a; discount := discount a; price := price a |}.

End args.

(** The truth value of an option of the command line. *)
Definition given (o : option string) : bool :=
  match o with
  | Some s => Py.nonempty s
  | None => false
  end.

Definition given_list (o : option (list string)) : bool :=
  match o with
  | Some (_ :: _) => true
  | _ => false
  end.

Definition the_list (o : option (list string)) : list string :=
  match o with
  | Some l => l
  | None => []
  end.

Definition the_str (o : option string) : string :=
  match o with
  | Some s => s
  | None => "None"
  end.

(** ** [repr] and [str] *)

Module Repr.

Import Py.

Definition printable (c : ascii) : bool :=
  negb ((code c <? 32)%N || between 127 160 c || (code c =? 173)%N).

Definition repr_char (q : ascii) (c : ascii) : string :=
  if Ascii.eqb c q || (code c =? 92)%N then String Json.backslash (Json.str1 c)
  else if (code c =? 9)%N then String Json.backslash "t"
  else if (code c =? 10)%N then String Json.backslash "n"
  else if (code c =? 13)%N then String Json.backslash "r"
  else if printable c then Json.str1 c
  else String Json.backslash
         (String "x" (String (Json.hex_digit (code c / 16))
                        (Json.str1 (Json.hex_digit (code c mod 16))))).

Fixpoint repr_body (q : ascii) (s : string) : string :=
  match s with
  | EmptyString => EmptyString
  | String c s' => repr_char q c ++ repr_body q s'
  end.

Fixpoint has_char (c : ascii) (s : string) : bool :=
  match s with
  | EmptyString => false
  | String c' s' => Ascii.eqb c c' || has_char c s'
  end.

Definition repr_str (s : string) : string :=
  let q := if has_char "'" s && negb (has_char Json.quote s)
           then Json.quote else "'"%char in
  String q (repr_body q s ++ Json.str1 q).

Definition repr_items {A} (f : A -> string) : list A -> string :=
  fix items (l : list A) : string :=
    match l with
    | [] => EmptyString
    | [x] => f x
    | x :: l' => f x ++ ", " ++ items l'
    end.

Fixpoint repr (v : value) : string :=
  match v with
  | VNone => "None"
  | VBool true => "True"
  | VBool false => "False"
  | VInt z => str_of_int z
  | VStr s => repr_str s
  | VList xs => "[" ++ repr_items repr xs ++ "]"
  | VDict items =>
      "{" ++ repr_items (fun kv => repr_str (fst kv) ++ ": " ++ repr (snd kv)) items
      ++ "}"
  end.

End Repr.

(** [str(v)]. *)
Definition py_str (v : value) : string :=
  match v with
  | VStr s => s
  | _ => Repr.repr v
  end.

(** [v.items()], [v.keys()], [v.values()]: only a dict has them. *)
Definition py_items (v : value) : result dict :=
  match v with
  | VDict items => Ret items
  | _ => Raise AttributeError
  end.

Fixpoint contains (needle hay : string) : bool :=
  String.prefix needle hay
  || match hay with
     | EmptyString => false
     | String _ hay' => contains needle hay'
     end.

(** [k in v] for a string [k]. *)
Definition py_in (k : string) (v : value) : result bool :=
  match v with
  | VDict items => Ret (dict_has items k)
  | VList xs =>
      Ret (existsb (fun x => match x with VStr s => String.eqb k s | _ => false end) xs)
  | VStr s => Ret (contains k s)
  | _ => Raise TypeError
  end.

(** [v.lower()]: only a string has it. *)
Definition py_lower (v : value) : result string :=
  match v with
  | VStr s => Ret (Py.str_lower s)
  | _ => Raise AttributeError
  end.

Fixpoint mapM {A B} (f : A -> result B) (l : list A) : result (list B) :=
  match l with
  | [] => Ret []
  | x :: l' =>
      match f x with
      | Ret y =>
          match mapM f l' with
          | Ret ys => Ret (y :: ys)
          | Raise e => Raise e
          end
      | Raise e => Raise e
      end
  end.

Definition app_url : string := "https://store.steampowered.com/app/".

(** ** The program *)

Section Program.

(** The remote servers, the text of [parser.print_help] and the row
    formatter of the [csv] module are given from outside. *)
Variable net : network.
Variable help_text : string.
Variable csv_writerow : string -> string -> list value -> result string.

Variable a : args.t.

(** *** Helpers (lines 15-46) *)

Definition pe (msg : string) : io unit :=
  fun w => (Ret tt, {| files := files w; stdout := stdout w; stderr := stderr w ++ msg |}).

Definition progress (msg : string) : io unit :=
  if negb (args.quiet a) then pe msg else io_ret tt.

Definition user_agent : string :=
  "Mozilla/5.0 (X11; Linux x86_64) AppleWebKit/537.36 (KHTML, like Gecko) Chrome/118.0.0.0 Safari/537.36".

Definition request (url : string) : Request :=
  add_header {| req_url := url; req_headers := [] |} "User-Agent" user_agent.

Definition max_given (max : option Z) : bool :=
  match max with
  | Some m => negb (m =? 0)
  | None => false
  end.

Definition integer_err (name : string) (max : option Z) : string :=
  let err := name ++ " must be an integer" in
  match max with
  | Some m =>
      if max_given max
      then err ++ " between 0 and " ++ Py.str_of_int m ++ ", inclusive."
      else err
  | None => err
  end.

Definition integer (val : option string) (name : string) (max : option Z) : io Z :=
  match val with
  | None => io_ret 0
  | Some s =>
      let fail := (pe (integer_err name max ++ nl) ;;; io_raise (SystemExit 1))%io in
      match Py.int_of_str s with
      | Some v =>
          if negb (max_given max) || (v <=? match max with Some m => m | None => 0 end)
          then io_ret v
          else fail
      | None => fail
      end
  end.

(** *** The numeric options (lines 197-199) *)

Definition wanted_discount : io Z := integer (args.discount a) "Discount" (Some 100).
Definition wanted_price : io Z := integer (args.price a) "Price" None.
Definition wanted_deck_rating : io Z := integer (args.deck a) "Steam Deck rating" (Some 3).

Definition resolve_numbers : io (Z * Z * Z) :=
  (wd <- wanted_discount ;;
   wp <- wanted_price ;;
   wk <- wanted_deck_rating ;;
   io_ret (wd, wp, wk))%io.

(** *** Fetching the wishlist (lines 204-244) *)

Definition wishlist_url : string :=
  "https://store.steampowered.com/wishlist/profiles/" ++ the_str (args.userid a)
  ++ "/wishlistdata/?p=".

Definition page_request (page : Z) : Request :=
  let req := request (wishlist_url ++ Py.str_of_int page) in
  if given (args.cookie a)
  then add_header req "Cookie" ("steamLoginSecure=" ++ the_str (args.cookie a))
  else req.

Definition fetch_failed : io unit :=
  (pe "Could not get wishlist. " ;;;
   if given (args.cookie a)
   then pe ("Is the provided cookie invalid or expired?" ++ nl ++ nl)
   else pe ("Is the wishlist private?" ++ nl ++ nl))%io.

(** The [while True] loop.  [page] is the counter before its increment and
    [wishlist] what has been merged so far; [None] means that [fuel] pages
    did not reach the end. *)
Fixpoint fetch_loop (fuel : nat) (page : Z) (wishlist : dict) (w : world)
  : option (result dict * world) :=
  match fuel with
  | O => None
  | S fuel' =>
      let page := page + 1 in
      let w1 := snd (progress ("Fetching wishlist page " ++ Py.str_of_int (page + 1) ++ nl) w) in
      match net (page_request page) with
      | HttpBody body =>
          match Json.loads body with
          | Some (VDict (kv :: items)) =>
              fetch_loop fuel' page (dict_update wishlist (kv :: items)) w1
          | Some _ => Some (Ret wishlist, w1)
          | None => Some (Raise JSONDecodeError, w1)
          end
      | HttpFail code =>
          Some (Raise (HTTPError code), snd (fetch_failed w1))
      | UrlFail => Some (Raise URLError, w1)
      end
  end.

Definition load_snapshot (path : string) : io value :=
  (text <- read_file path ;;
   match Json.loads text with
   | Some v => io_ret v
   | None => io_raise JSONDecodeError
   end)%io.

Definition get_wishlist (fuel : nat) (w : world) : option (result value * world) :=
  if given (args.load a) then Some (load_snapshot (the_str (args.load a)) w)
  else if negb (given (args.userid a)) then
    Some ((pe ("Missing <userid> or --load" ++ nl ++ nl) ;;;
           pe help_text ;;;
           io_raise (SystemExit 1))%io w)
  else
    match fetch_loop fuel (-1) [] w with
    | Some (Ret d, w') => Some (Ret (VDict d), w')
    | Some (Raise e, w') => Some (Raise e, w')
    | None => None
    end.

(** *** Price information (lines 250-269) *)

(** The condition of line 250. *)
Definition price_guard (wishlist : value) : result bool :=
  if negb (given (args.cc a)) then Ret false
  else if negb (given (args.load a)) then Ret true
  else
    (items <- py_items wishlist ;;
     match dict_values items with
     | [] => Raise IndexError
     | first :: _ =>
         has_price <- py_in "_price" first ;;
         if negb has_price then Ret true else Ret (args.refresh a)
     end)%exc.

Definition BATCH_SIZE : nat := 100.

Fixpoint batches (fuel : nat) (gameids : list string) : list (list string) :=
  match fuel, gameids with
  | S fuel', _ :: _ => firstn BATCH_SIZE gameids :: batches fuel' (skipn BATCH_SIZE gameids)
  | _, _ => []
  end.

Definition price_url (batch : list string) : string :=
  "https://store.steampowered.com/api/appdetails/?filters=price_overview&cc="
  ++ the_str (args.cc a) ++ "&appids=" ++ Py.join "," batch.

(** Lines 266-269 for one [gameid, obj] of the response. *)
Definition price_update (wishlist : dict) (gameid : string) (obj : value) : result dict :=
  match dict_get wishlist gameid with
  | None => Raise (KeyError gameid)
  | Some (VDict entry) =>
      let entry1 := dict_set entry "_price" (VStr "fetched") in
      (has_data <- py_in "data" obj ;;
       if has_data then
         data <- py_getitem obj "data" ;;
         has_overview <- py_in "price_overview" data ;;
         if has_overview then
           overview <- py_getitem data "price_overview" ;;
           pairs <- py_items overview ;;
           Ret (dict_set wishlist gameid (VDict (dict_update entry1 pairs)))
         else Ret (dict_set wishlist gameid (VDict entry1))
       else Ret (dict_set wishlist gameid (VDict entry1)))%exc
  | Some _ => Raise TypeError
  end.

Fixpoint price_updates (wishlist : dict) (response : dict) : result dict :=
  match response with
  | [] => Ret wishlist
  | (gameid, obj) :: response' =>
      match price_update wishlist gameid obj with
      | Ret wishlist' => price_updates wishlist' response'
      | Raise e => Raise e
      end
  end.

Fixpoint fetch_prices (count : Z) (todo : list (list string)) (wishlist : dict) : io dict :=
  match todo with
  | [] => io_ret wishlist
  | batch :: todo' =>
      (progress ("Fetching price information, batch " ++ Py.str_of_int count ++ nl) ;;;
       body <- urlopen net (request (price_url batch)) ;;
       match Json.loads body with
       | None => io_raise JSONDecodeError
       | Some json_obj =>
           response <- io_lift (py_items json_obj) ;;
           wishlist' <- io_lift (price_updates wishlist response) ;;
           fetch_prices (count + 1) todo' wishlist'
       end)%io
  end.

Definition get_prices (wishlist : value) : io value :=
  (fetch <- io_lift (price_guard wishlist) ;;
   if fetch : bool then
     items <- io_lift (py_items wishlist) ;;
     let gameids := dict_keys items in
     items' <- fetch_prices 1 (batches (List.length gameids) gameids) items ;;
     io_ret (VDict items')
   else io_ret wishlist)%io.

(** *** Saving the snapshot (lines 272-274) *)

Definition save_snapshot (wishlist : value) : io unit :=
  if given (args.save a)
  then write_file (the_str (args.save a)) (Json.dumps wishlist)
  else io_ret tt.

(** *** Filters (lines 280-353) *)

(** [clean_str(s)]: the alphabetic items of [s], lower-cased and joined.
    For a string the items are its characters. *)
Definition clean_str (s : value) : result string :=
  (items <- py_iter s ;;
   parts <- mapM (fun c =>
                   match c with
                   | VStr x => Ret (if Py.str_isalpha x then Py.str_lower x else EmptyString)
                   | _ => Raise AttributeError
                   end) items ;;
   Ret (String.concat EmptyString parts))%exc.

Definition to_load : list string :=
  (if args.demo a then ["demos"] else [])
  ++ (if args.cards a then ["cards"] else [])
  ++ (if args.achievements a then ["achievements"] else []).

Fixpoint load_filter_lists (names : list string) : io (list (list string)) :=
  match names with
  | [] => io_ret []
  | tl :: names' =>
      (progress ("Loading " ++ tl ++ nl) ;;;
       body <- urlopen net
                 (request ("https://raw.githubusercontent.com/BlueBoxWare/steamdb/main/lists/" ++ tl)) ;;
       rest <- load_filter_lists names' ;;
       io_ret (Py.split "010"%char body :: rest))%io
  end.

Section Filters.

Variables wanted_discount_v wanted_price_v wanted_deck_rating_v : Z.
Variable filter_lists : list (list string).

(** Lines 304-308. *)
Definition platform_filter (fields : value) : result bool :=
  if given_list (args.platform a) then
    fold_left
      (fun acc platform =>
         add_game <- acc ;;
         v <- py_get fields platform VNone ;;
         Ret (if truthy v && Py.str_in platform (the_list (args.platform a))
              then true else add_game))%exc
      ["linux"; "win"; "mac"] (Ret false)
  else Ret true.

(** Lines 310-311. *)
Definition type_filter (fields : value) (add_game : bool) : result bool :=
  if given_list (args.type a) then
    if add_game then
      (ty <- py_get fields "type" (VStr EmptyString) ;;
       lowered <- py_lower ty ;;
       Ret (Py.str_in lowered (the_list (args.type a))))%exc
    else Ret false
  else Ret add_game.

(** One [if args.flag and [not] fields.get(key, False): add_game = False]
    of lines 313-329; [want] is the truth value the field must have. *)
Definition flag_filter (flag : bool) (key : string) (want : bool)
    (fields : value) (add_game : bool) : result bool :=
  if flag then
    (v <- py_get fields key (VBool false) ;;
     Ret (if Bool.eqb (truthy v) want then add_game else false))%exc
  else Ret add_game.

(** Lines 302-329: everything before the tag filter. *)
Definition boolean_filters (fields : value) : result bool :=
  (g <- platform_filter fields ;;
   g <- type_filter fields g ;;
   g <- flag_filter (args.free a) "is_free_game" true fields g ;;
   g <- flag_filter (args.no_free a) "is_free_game" false fields g ;;
   g <- flag_filter (args.released a) "prerelease" false fields g ;;
   g <- flag_filter (args.no_released a) "prerelease" true fields g ;;
   g <- flag_filter (args.early a) "early_access" true fields g ;;
   flag_filter (args.no_early a) "early_access" false fields g)%exc.

(** Lines 331-336. *)
Definition tag_filter (fields : value) (add_game : bool) : result bool :=
  if add_game && given_list (args.tag a) then
    (stored <- py_getitem fields "tags" ;;
     stored_items <- py_iter stored ;;
     tags <- mapM clean_str stored_items ;;
     wanted <- mapM (fun wanted_tag => clean_str (VStr wanted_tag)) (the_list (args.tag a)) ;;
     Ret (existsb (fun w => Py.str_in w tags) wanted))%exc
  else Ret add_game.

(** One of lines 338-345: [ge] chooses between [>=] and [<=]. *)
Definition number_filter (flag : option string) (key : string) (ge : bool)
    (wanted : Z) (fields : value) (add_game : bool) : result bool :=
  if add_game && given flag then
    (v <- py_get fields key (VInt 0) ;;
     n <- py_int v ;;
     Ret (if ge then wanted <=? n else n <=? wanted))%exc
  else Ret add_game.

(** Lines 347-348. *)
Definition list_filter (gameid : string) (add_game : bool) : bool :=
  fold_left (fun acc filter_list => acc && Py.str_in gameid filter_list)
    filter_lists add_game.

(** The body of the loop of line 301: does the game stay? *)
Definition filter_game (gameid : string) (fields : value) : result bool :=
  (g <- boolean_filters fields ;;
   g <- tag_filter fields g ;;
   g <- number_filter (args.discount a) "discount_percent" true wanted_discount_v fields g ;;
   g <- number_filter (args.price a) "final" false wanted_price_v fields g ;;
   g <- number_filter (args.deck a) "deck_compat" true wanted_deck_rating_v fields g ;;
   Ret (list_filter gameid g))%exc.

Fixpoint filter_loop (todo : dict) (filtered : dict) : result dict :=
  match todo with
  | [] => Ret filtered
  | (gameid, fields) :: todo' =>
      match filter_game gameid fields with
      | Ret add_game =>
          filter_loop todo' (if add_game then dict_set filtered gameid fields else filtered)
      | Raise e => Raise e
      end
  end.

(** Lines 280-353 on a wishlist. *)
Definition filter_wishlist (wishlist : dict) : result dict :=
  filter_loop wishlist [].

End Filters.

(** *** Output (lines 358-421) *)

Definition wanted_fields : option (list string) :=
  if given (args.fields a) then Some (Py.split "," (the_str (args.fields a))) else None.

Definition store_link (gameid : string) : value := VStr (app_url ++ gameid).

(** Lines 367-374: the fields of one game in JSON mode. *)
Definition json_fields (gameid : string) (fields : value) : result dict :=
  (items <- py_items fields ;;
   let output_fields :=
     fold_left
       (fun out kv =>
          if negb (given_list wanted_fields) || Py.str_in (fst kv) (the_list wanted_fields)
          then dict_set out (fst kv) (snd kv) else out)
       items [] in
   Ret (if given_list wanted_fields && Py.str_in "link" (the_list wanted_fields)
        then dict_set output_fields "link" (store_link gameid)
        else output_fields))%exc.

Fixpoint json_loop (todo : dict) (output : dict) : result dict :=
  match todo with
  | [] => Ret output
  | (gameid, fields) :: todo' =>
      match json_fields gameid fields with
      | Ret output_fields => json_loop todo' (dict_set output gameid (VDict output_fields))
      | Raise e => Raise e
      end
  end.

Definition json_output (wishlist : dict) : result dict := json_loop wishlist [].

(** The keys [sorter] returns: an [int] or a [str]. *)
Inductive sort_key : Type :=
| KInt (z : Z)
| KStr (s : string).

(** The value [sorter] picks for an item (lines 395-400). *)
Definition sort_value (item : string * value) : result value :=
  (added <- py_get (snd item) "added" VNone ;;
   if given (args.sort a) then
     if Py.str_in (the_str (args.sort a)) ["id"; "gameid"] then Ret (VStr (fst item))
     else py_get (snd item) (the_str (args.sort a))
            (if args.num a then VInt 0 else VStr EmptyString)
   else Ret added)%exc.

Definition sorter (item : string * value) : result sort_key :=
  (v <- sort_value item ;;
   if args.num a || Py.str_isdigit (py_str v)
   then z <- py_int v ;; Ret (KInt z)
   else Ret (KStr (py_str v)))%exc.

Definition is_int_key (k : sort_key) : bool :=
  match k with KInt _ => true | KStr _ => false end.

(** [k1 < k2] for two keys of one kind. *)
Definition key_lt (k1 k2 : sort_key) : bool :=
  match k1, k2 with
  | KInt x, KInt y => x <? y
  | KStr x, KStr y => String.ltb x y
  | _, _ => false
  end.

Fixpoint insert_sorted {A} (x : sort_key * A) (l : list (sort_key * A)) : list (sort_key * A) :=
  match l with
  | [] => [x]
  | y :: l' => if key_lt (fst y) (fst x) then y :: insert_sorted x l' else x :: y :: l'
  end.

Definition stable_sort {A} (l : list (sort_key * A)) : list (sort_key * A) :=
  fold_right insert_sorted [] l.

(** [sorted(items, key=sorter, reverse=...)]: the keys are computed first;
    keys of both kinds cannot be compared. *)
Definition sorted (items : dict) : result dict :=
  (keys <- mapM sorter items ;;
   if forallb is_int_key keys || forallb (fun k => negb (is_int_key k)) keys then
     let keyed := combine keys items in
     Ret (map snd (if args.reverse a then List.rev (stable_sort (List.rev keyed)) else stable_sort keyed))
   else Raise TypeError)%exc.

(** Lines 407-420: one cell of a CSV row. *)
Definition csv_field (gameid : string) (fields : value) (field : string) : result value :=
  if String.eqb field "id" || String.eqb field "gameid" then Ret (VStr gameid)
  else if String.eqb field "released" then
    (v <- py_get fields "prerelease" (VBool false) ;;
     Ret (VStr (if truthy v then EmptyString else "1")))%exc
  else if String.eqb field "link" || String.eqb field "url" then Ret (store_link gameid)
  else
    (v <- py_get fields field (VStr EmptyString) ;;
     match v with
     | VList xs =>
         parts <- mapM (fun x => match x with VStr s => Ret s | _ => Raise TypeError end) xs ;;
         Ret (VStr (Py.join ":" parts))
     | _ => Ret v
     end)%exc.

Definition csv_fields : list string :=
  if given_list wanted_fields then the_list wanted_fields else ["id"].

Fixpoint csv_rows (todo : dict) : io unit :=
  match todo with
  | [] => io_ret tt
  | (gameid, fields) :: todo' =>
      (row <- io_lift (mapM (csv_field gameid fields) csv_fields) ;;
       line <- io_lift (csv_writerow (args.separator a) (args.quote a) row) ;;
       write_stdout line ;;;
       csv_rows todo')%io
  end.

Definition write_output (wishlist : dict) : io unit :=
  if negb (args.csv a) then
    (output <- io_lift (json_output wishlist) ;;
     print (JsonPretty.dumps (VDict output)))%io
  else
    (items <- io_lift (sorted wishlist) ;;
     csv_rows items)%io.

(** *** The whole run *)

(** Everything after the wishlist has been loaded or fetched. *)
Definition process (numbers : Z * Z * Z) (wishlist : value) : io unit :=
  let '(wd, wp, wk) := numbers in
  (wishlist <- get_prices wishlist ;;
   save_snapshot wishlist ;;;
   filter_lists <- load_filter_lists to_load ;;
   items <- io_lift (py_items wishlist) ;;
   filtered <- io_lift (filter_wishlist wd wp wk filter_lists items) ;;
   write_output filtered)%io.

Definition main (fuel : nat) (w : world) : option (result unit * world) :=
  match resolve_numbers w with
  | (Raise e, w1) => Some (Raise e, w1)
  | (Ret numbers, w1) =>
      match get_wishlist fuel w1 with
      | None => None
      | Some (Raise e, w2) => Some (Raise e, w2)
      | Some (Ret wishlist, w2) => Some (process numbers wishlist w2)
      end
  end.

End Program.

(** ** Notions used in the statements *)

(** *** The fetch loop *)

(** Page [i] of the wishlist endpoint answers with the non-empty mapping
    [items]. *)
Definition serves (net : network) (a : args.t) (i : nat) (items : dict) : Prop :=
  items <> [] /\
  exists body, net (page_request a (Z.of_nat i)) = HttpBody body
               /\ Json.loads body = Some (VDict items).

(** Pages [from], [from + 1], ... answer with the mappings of [pages]. *)
Fixpoint serves_from (net : network) (a : args.t) (from : nat) (pages : list dict) : Prop :=
  match pages with
  | [] => True
  | items :: pages' => serves net a from items /\ serves_from net a (S from) pages'
  end.

(** The wishlist merged from the pages, later keys overwriting. *)
Definition merge_pages (acc : dict) (pages : list dict) : dict :=
  fold_left dict_update pages acc.

(** What [progress] writes for pages [from], ..., [from + count - 1]. *)
Fixpoint fetch_log (a : args.t) (from : nat) (count : nat) : string :=
  match count with
  | O => EmptyString
  | S count' =>
      (if args.quiet a then EmptyString
       else "Fetching wishlist page " ++ Py.str_of_int (Z.of_nat from + 1) ++ nl)
      ++ fetch_log a (S from) count'
  end.

(** What [fetch_failed] writes. *)
Definition fetch_hint (a : args.t) : string :=
  "Could not get wishlist. "
  ++ (if given (args.cookie a)
      then "Is the provided cookie invalid or expired?" ++ nl ++ nl
      else "Is the wishlist private?" ++ nl ++ nl).

(** The world after [msg] went to the error stream. *)
Definition with_stderr (w : world) (msg : string) : world :=
  {| files := files w; stdout := stdout w; stderr := stderr w ++ msg |}.

(** A response that ends the pagination: anything but a non-empty mapping. *)
Definition ends_pages (v : value) : Prop :=
  match v with
  | VDict (_ :: _) => False
  | _ => True
  end.

(** A world with no files and nothing printed yet. *)
Definition empty_world : world :=
  {| files := []; stdout := EmptyString; stderr := EmptyString |}.

(** A wishlist of one page: page 0 answers with [first_page], every other
    request is refused. *)
Definition fetch_args : args.t := args.set_userid (Some "76561198000000001") args.default.
Definition first_page : dict := [("10", VDict [("name", VStr "Foo")])].
Definition one_page_net : network :=
  fun req =>
    if String.eqb (req_url req) (wishlist_url fetch_args ++ "0")
    then HttpBody (Json.dumps (VDict first_page))
    else HttpFail 403.

(** *** The numeric options *)

(** A value [integer] turns down: not an integer literal, or above [max]. *)
Definition rejected (max : option Z) (val : option string) : Prop :=
  match val with
  | None => False
  | Some s =>
      match Py.int_of_str s, max with
      | None, _ => True
      | Some v, Some m => m < v
      | Some _, None => False
      end
  end.

(** The command lines [--discount 101] and [--price -1]. *)
Definition discount_101_args : args.t := args.set_discount (Some "101") args.default.
Definition negative_price_args : args.t := args.set_price (Some "-1") args.default.

(** *** Snapshots and prices *)

Definition save_args : args.t := args.set_save (Some "wishlist.json") fetch_args.
Definition load_args : args.t := args.set_load (Some "wishlist.json") args.default.

(** [--load empty.json --prices us] where the snapshot is the empty
    mapping. *)
Definition load_prices_args : args.t :=
  args.set_cc (Some "us") (args.set_load (Some "empty.json") args.default).
Definition empty_snapshot_world : world :=
  {| files := [("empty.json", "{}")]; stdout := EmptyString; stderr := EmptyString |}.

(** *** Filters *)

(** [clean_str] on a string, as the comprehension of line 284 reads:
    keep the alphabetic characters, lower-case each. *)
Definition clean (s : string) : string :=
  Py.str_map Py.lower (Py.str_filter Py.isalpha s).

(** The normalisation in the words of the specification: lower-case the
    string, then drop every non-alphabetic character. *)
Definition normalize (s : string) : string :=
  Py.str_filter Py.isalpha (Py.str_lower s).

(** Does the loop keep the entry? *)
Definition kept (a : args.t) (wd wp wk : Z) (lists : list (list string))
    (kv : string * value) : bool :=
  match filter_game a wd wp wk lists (fst kv) (snd kv) with
  | Ret true => true
  | _ => false
  end.

(** [--tag "Role Playing"] and an entry tagged [role-playing]. *)
Definition role_playing_args : args.t := args.set_tag (Some ["Role Playing"]) args.default.
Definition role_playing_entry : dict :=
  [("name", VStr "Foo"); ("tags", VList [VStr "role-playing"])].

(** [--tag rpg], a tagged entry and an entry without [tags]. *)
Definition rpg_args : args.t := args.set_tag (Some ["rpg"]) args.default.
Definition tagged_wishlist : dict := [("10", VDict [("tags", VList [VStr "RPG"])])].
Definition untagged_entry : dict := [("name", VStr "Bar")].

(** [--type game --price 1500] on a wishlist of a game and a free DLC. *)
Definition game_price_args : args.t :=
  args.set_price (Some "1500") (args.set_type (Some ["game"]) args.default).
Definition two_games : dict :=
  [("10", VDict [("type", VStr "game"); ("is_free_game", VBool false); ("final", VInt 999)]);
   ("20", VDict [("type", VStr "dlc"); ("is_free_game", VBool true); ("final", VInt 0)])].
Definition one_game : dict :=
  [("10", VDict [("type", VStr "game"); ("is_free_game", VBool false); ("final", VInt 999)])].

(** *** Output *)

(** [--load wishlist.json --fields name,link] on the wishlist with the one
    entry 30 named Foo. *)
Definition name_link_args : args.t :=
  args.set_fields (Some "name,link") (args.set_load (Some "wishlist.json") args.default).
Definition foo_wishlist : dict := [("30", VDict [("name", VStr "Foo")])].
Definition foo_output : dict :=
  [("30", VDict [("name", VStr "Foo");
                 ("link", VStr "https://store.steampowered.com/app/30")])].
Definition foo_world : world :=
  {| files := [("wishlist.json", Json.dumps (VDict foo_wishlist))];
     stdout := EmptyString; stderr := EmptyString |}.

(** The sort value of an item is one [int] accepts. *)
Definition int_sort_value (a : args.t) (item : string * value) : Prop :=
  exists v z, sort_value a item = Ret v /\ py_int v = Ret z.

(** A value that is an integer or a string of digits only. *)
Definition int_or_digits (v : value) : bool :=
  match v with
  | VInt _ => true
  | VStr s => Py.str_isdigit s
  | _ => false
  end.

(** [--csv --num] and [--csv], a wishlist with one sort value that is not
    numeric, and one whose sort value is a signed literal. *)
Definition csv_num_args : args.t := args.set_num true (args.set_csv true args.default).
Definition csv_args : args.t := args.set_csv true args.default.
Definition added_wishlist : dict :=
  [("10", VDict [("added", VInt 1700000000)]); ("20", VDict [("added", VStr "abc")])].
Definition signed_wishlist : dict := [("10", VDict [("added", VStr "-5")])].

(** *** Runs and their worlds *)

(** A computation relates the world it starts in to the world it ends in
    by [R], whatever it returns or raises. *)
Definition always {A} (R : world -> world -> Prop) (m : io A) : Prop :=
  forall w, R w (snd (m w)).

(** The same, for the runs that return. *)
Definition on_return {A} (R : world -> world -> Prop) (m : io A) : Prop :=
  forall w x w', m w = (Ret x, w') -> R w w'.

Definition same_stdout (w w' : world) : Prop := stdout w' = stdout w.
Definition same_files (w w' : world) : Prop := files w' = files w.
Definition same_stderr (w w' : world) : Prop := stderr w' = stderr w.

(** The files other than [path] are as they were. *)
Definition other_files (path : string) (w w' : world) : Prop :=
  forall p, p <> path -> file_lookup (files w') p = file_lookup (files w) p.

(** *** Options, entries and keys *)

(** No filter was asked for on the command line. *)
Definition no_filter_options (a : args.t) : bool :=
  negb (given_list (args.platform a)) && negb (given_list (args.type a))
  && negb (args.free a) && negb (args.no_free a)
  && negb (args.released a) && negb (args.no_released a)
  && negb (args.early a) && negb (args.no_early a)
  && negb (given_list (args.tag a))
  && negb (given (args.discount a)) && negb (given (args.price a))
  && negb (given (args.deck a))
  && negb (args.demo a) && negb (args.cards a) && negb (args.achievements a).

(** Two flags that ask for opposite things are both set. *)
Definition opposite_flags (a : args.t) : bool :=
  (args.free a && args.no_free a)
  || (args.released a && args.no_released a)
  || (args.early a && args.no_early a).

(** An entry with the fields of [e], in their places, and possibly more
    after them. *)
Definition extends (e e' : dict) : Prop :=
  exists extra, dict_keys e' = (dict_keys e ++ extra)%list.

(** No key is smaller than the key before it. *)
Definition ascending {A} (p q : sort_key * A) : Prop := key_lt (fst q) (fst p) = false.

(** *** Whole runs *)

(** Page 0 answers with [first_page], every later page with the empty
    mapping, which ends the pagination. *)
Definition ended_net : network :=
  fun req =>
    if String.eqb (req_url req) (wishlist_url fetch_args ++ "0")
    then HttpBody (Json.dumps (VDict first_page))
    else HttpBody "{}".

(** Every page answers with [first_page]. *)
Definition endless_net : network :=
  fun _ => HttpBody (Json.dumps (VDict first_page)).

(** A network that is never reached, and a CSV writer that is never
    called. *)
Definition no_net : network := fun _ => UrlFail.
Definition no_writer (separator quote : string) (row : list value) : result string :=
  Ret EmptyString.

(** The command line of [fetch_args] with [--quiet]. *)
Definition quiet_args : args.t := args.set_quiet true fetch_args.

(** The worlds after the runs of [save_args], [quiet_args] and
    [fetch_args] on [ended_net]. *)
Definition saved_world : world :=
  {| files := [("wishlist.json", Json.dumps (VDict first_page))];
     stdout := JsonPretty.dumps (VDict first_page) ++ nl;
     stderr := fetch_log save_args 0 2 |}.
Definition quiet_world : world :=
  {| files := []; stdout := JsonPretty.dumps (VDict first_page) ++ nl;
     stderr := EmptyString |}.
Definition fetched_world : world :=
  {| files := []; stdout := EmptyString; stderr := fetch_log fetch_args 0 2 |}.

(** [--discount 50 --price 1999]. *)
Definition discount_price_args : args.t :=
  args.set_discount (Some "50") (args.set_price (Some "1999") args.default).

(** *** Filters, prices and order *)

(** [--free --no-free]. *)
Definition free_no_free_args : args.t :=
  args.set_no_free true (args.set_free true args.default).

(** A price response for game 10 of [two_games], the wishlist after its
    updates, and a response for a game that is not there. *)
Definition price_response : dict :=
  [("10", VDict [("success", VBool true);
                 ("data", VDict [("price_overview",
                                  VDict [("currency", VStr "USD"); ("final", VInt 499)])])])].
Definition priced_games : dict :=
  [("10", VDict [("type", VStr "game"); ("is_free_game", VBool false); ("final", VInt 499);
                 ("_price", VStr "fetched"); ("currency", VStr "USD")]);
   ("20", VDict [("type", VStr "dlc"); ("is_free_game", VBool true); ("final", VInt 0)])].
Definition unknown_response : dict := [("99", VDict [("success", VBool false)])].

(** Three games out of order of their [added] stamps, and in order. *)
Definition unsorted_wishlist : dict :=
  [("10", VDict [("added", VInt 30)]); ("20", VDict [("added", VInt 10)]);
   ("30", VDict [("added", VInt 20)])].
Definition sorted_wishlist : dict :=
  [("20", VDict [("added", VInt 10)]); ("30", VDict [("added", VInt 20)]);
   ("10", VDict [("added", VInt 30)])].

(** ** Tags as Unicode text *)

(** The strings of the model above stop at code point 255.  What the tag
    filter does depends on the characters of the tags, so lines 283-284 and
    332-336 are embedded a second time, for tags that are Python [str]
    values in full: sequences of code points, with [str.isalpha] and
    [str.lower] on one character as CPython 3.11 has them (Unicode
    14.0.0). *)

Module PyStr.

(** A Python [str]: its code points. *)
Definition t : Type := list N.

(** The [str] of a string of the model above. *)
Definition of_string (s : string) : t := map Py.code (list_ascii_of_string s).

Fixpoint eqb (x y : t) : bool :=
  match x, y with
  | [], [] => true
  | c :: x', d :: y' => (c =? d)%N && eqb x' y'
  | _, _ => false
  end.

Definition in_range (c : N) (r : N * N) : bool :=
  ((fst r <=? c) && (c <=? snd r))%N.

(** The code points [c] with [chr(c).isalpha()], as ranges [(first, last)]. *)
Definition alpha_ranges : list (N * N) :=
  [
   (65, 90); (97, 122); (170, 170); (181, 181); (186, 186); (192, 214); (216, 246);
   (248, 705); (710, 721); (736, 740); (748, 748); (750, 750); (880, 884); (886, 887);
   (890, 893); (895, 895); (902, 902); (904, 906); (908, 908); (910, 929); (931, 1013);
   (1015, 1153); (1162, 1327); (1329, 1366); (1369, 1369); (1376, 1416); (1488, 1514);
   (1519, 1522); (1568, 1610); (1646, 1647); (1649, 1747); (1749, 1749); (1765, 1766);
   (1774, 1775); (1786, 1788); (1791, 1791); (1808, 1808); (1810, 1839); (1869, 1957);
   (1969, 1969); (1994, 2026); (2036, 2037); (2042, 2042); (2048, 2069); (2074, 2074);
   (2084, 2084); (2088, 2088); (2112, 2136); (2144, 2154); (2160, 2183); (2185, 2190);
   (2208, 2249); (2308, 2361); (2365, 2365); (2384, 2384); (2392, 2401); (2417, 2432);
   (2437, 2444); (2447, 2448); (2451, 2472); (2474, 2480); (2482, 2482); (2486, 2489);
   (2493, 2493); (2510, 2510); (2524, 2525); (2527, 2529); (2544, 2545); (2556, 2556);
   (2565, 2570); (2575, 2576); (2579, 2600); (2602, 2608); (2610, 2611); (2613, 2614);
   (2616, 2617); (2649, 2652); (2654, 2654); (2674, 2676); (2693, 2701); (2703, 2705);
   (2707, 2728); (2730, 2736); (2738, 2739); (2741, 2745); (2749, 2749); (2768, 2768);
   (2784, 2785); (2809, 2809); (2821, 2828); (2831, 2832); (2835, 2856); (2858, 2864);
   (2866, 2867); (2869, 2873); (2877, 2877); (2908, 2909); (2911, 2913); (2929, 2929);
   (2947, 2947); (2949, 2954); (2958, 2960); (2962, 2965); (2969, 2970); (2972, 2972);
   (2974, 2975); (2979, 2980); (2984, 2986); (2990, 3001); (3024, 3024); (3077, 3084);
   (3086, 3088); (3090, 3112); (3114, 3129); (3133, 3133); (3160, 3162); (3165, 3165);
   (3168, 3169); (3200, 3200); (3205, 3212); (3214, 3216); (3218, 3240); (3242, 3251);
   (3253, 3257); (3261, 3261); (3293, 3294); (3296, 3297); (3313, 3314); (3332, 3340);
   (3342, 3344); (3346, 3386); (3389, 3389); (3406, 3406); (3412, 3414); (3423, 3425);
   (3450, 3455); (3461, 3478); (3482, 3505); (3507, 3515); (3517, 3517); (3520, 3526);
   (3585, 3632); (3634, 3635); (3648, 3654); (3713, 3714); (3716, 3716); (3718, 3722);
   (3724, 3747); (3749, 3749); (3751, 3760); (3762, 3763); (3773, 3773); (3776, 3780);
   (3782, 3782); (3804, 3807); (3840, 3840); (3904, 3911); (3913, 3948); (3976, 3980);
   (4096, 4138); (4159, 4159); (4176, 4181); (4186, 4189); (4193, 4193); (4197, 4198);
   (4206, 4208); (4213, 4225); (4238, 4238); (4256, 4293); (4295, 4295); (4301, 4301);
   (4304, 4346); (4348, 4680); (4682, 4685); (4688, 4694); (4696, 4696); (4698, 4701);
   (4704, 4744); (4746, 4749); (4752, 4784); (4786, 4789); (4792, 4798); (4800, 4800);
   (4802, 4805); (4808, 4822); (4824, 4880); (4882, 4885); (4888, 4954); (4992, 5007);
   (5024, 5109); (5112, 5117); (5121, 5740); (5743, 5759); (5761, 5786); (5792, 5866);
   (5873, 5880); (5888, 5905); (5919, 5937); (5952, 5969); (5984, 5996); (5998, 6000);
   (6016, 6067); (6103, 6103); (6108, 6108); (6176, 6264); (6272, 6276); (6279, 6312);
   (6314, 6314); (6320, 6389); (6400, 6430); (6480, 6509); (6512, 6516); (6528, 6571);
   (6576, 6601); (6656, 6678); (6688, 6740); (6823, 6823); (6917, 6963); (6981, 6988);
   (7043, 7072); (7086, 7087); (7098, 7141); (7168, 7203); (7245, 7247); (7258, 7293);
   (7296, 7304); (7312, 7354); (7357, 7359); (7401, 7404); (7406, 7411); (7413, 7414);
   (7418, 7418); (7424, 7615); (7680, 7957); (7960, 7965); (7968, 8005); (8008, 8013);
   (8016, 8023); (8025, 8025); (8027, 8027); (8029, 8029); (8031, 8061); (8064, 8116);
   (8118, 8124); (8126, 8126); (8130, 8132); (8134, 8140); (8144, 8147); (8150, 8155);
   (8160, 8172); (8178, 8180); (8182, 8188); (8305, 8305); (8319, 8319); (8336, 8348);
   (8450, 8450); (8455, 8455); (8458, 8467); (8469, 8469); (8473, 8477); (8484, 8484);
   (8486, 8486); (8488, 8488); (8490, 8493); (8495, 8505); (8508, 8511); (8517, 8521);
   (8526, 8526); (8579, 8580); (11264, 11492); (11499, 11502); (11506, 11507);
   (11520, 11557); (11559, 11559); (11565, 11565); (11568, 11623); (11631, 11631);
   (11648, 11670); (11680, 11686); (11688, 11694); (11696, 11702); (11704, 11710);
   (11712, 11718); (11720, 11726); (11728, 11734); (11736, 11742); (11823, 11823);
   (12293, 12294); (12337, 12341); (12347, 12348); (12353, 12438); (12445, 12447);
   (12449, 12538); (12540, 12543); (12549, 12591); (12593, 12686); (12704, 12735);
   (12784, 12799); (13312, 19903); (19968, 42124); (42192, 42237); (42240, 42508);
   (42512, 42527); (42538, 42539); (42560, 42606); (42623, 42653); (42656, 42725);
   (42775, 42783); (42786, 42888); (42891, 42954); (42960, 42961); (42963, 42963);
   (42965, 42969); (42994, 43009); (43011, 43013); (43015, 43018); (43020, 43042);
   (43072, 43123); (43138, 43187); (43250, 43255); (43259, 43259); (43261, 43262);
   (43274, 43301); (43312, 43334); (43360, 43388); (43396, 43442); (43471, 43471);
   (43488, 43492); (43494, 43503); (43514, 43518); (43520, 43560); (43584, 43586);
   (43588, 43595); (43616, 43638); (43642, 43642); (43646, 43695); (43697, 43697);
   (43701, 43702); (43705, 43709); (43712, 43712); (43714, 43714); (43739, 43741);
   (43744, 43754); (43762, 43764); (43777, 43782); (43785, 43790); (43793, 43798);
   (43808, 43814); (43816, 43822); (43824, 43866); (43868, 43881); (43888, 44002);
   (44032, 55203); (55216, 55238); (55243, 55291); (63744, 64109); (64112, 64217);
   (64256, 64262); (64275, 64279); (64285, 64285); (64287, 64296); (64298, 64310);
   (64312, 64316); (64318, 64318); (64320, 64321); (64323, 64324); (64326, 64433);
   (64467, 64829); (64848, 64911); (64914, 64967); (65008, 65019); (65136, 65140);
   (65142, 65276); (65313, 65338); (65345, 65370); (65382, 65470); (65474, 65479);
   (65482, 65487); (65490, 65495); (65498, 65500); (65536, 65547); (65549, 65574);
   (65576, 65594); (65596, 65597); (65599, 65613); (65616, 65629); (65664, 65786);
   (66176, 66204); (66208, 66256); (66304, 66335); (66349, 66368); (66370, 66377);
   (66384, 66421); (66432, 66461); (66464, 66499); (66504, 66511); (66560, 66717);
   (66736, 66771); (66776, 66811); (66816, 66855); (66864, 66915); (66928, 66938);
   (66940, 66954); (66956, 66962); (66964, 66965); (66967, 66977); (66979, 66993);
   (66995, 67001); (67003, 67004); (67072, 67382); (67392, 67413); (67424, 67431);
   (67456, 67461); (67463, 67504); (67506, 67514); (67584, 67589); (67592, 67592);
   (67594, 67637); (67639, 67640); (67644, 67644); (67647, 67669); (67680, 67702);
   (67712, 67742); (67808, 67826); (67828, 67829); (67840, 67861); (67872, 67897);
   (67968, 68023); (68030, 68031); (68096, 68096); (68112, 68115); (68117, 68119);
   (68121, 68149); (68192, 68220); (68224, 68252); (68288, 68295); (68297, 68324);
   (68352, 68405); (68416, 68437); (68448, 68466); (68480, 68497); (68608, 68680);
   (68736, 68786); (68800, 68850); (68864, 68899); (69248, 69289); (69296, 69297);
   (69376, 69404); (69415, 69415); (69424, 69445); (69488, 69505); (69552, 69572);
   (69600, 69622); (69635, 69687); (69745, 69746); (69749, 69749); (69763, 69807);
   (69840, 69864); (69891, 69926); (69956, 69956); (69959, 69959); (69968, 70002);
   (70006, 70006); (70019, 70066); (70081, 70084); (70106, 70106); (70108, 70108);
   (70144, 70161); (70163, 70187); (70272, 70278); (70280, 70280); (70282, 70285);
   (70287, 70301); (70303, 70312); (70320, 70366); (70405, 70412); (70415, 70416);
   (70419, 70440); (70442, 70448); (70450, 70451); (70453, 70457); (70461, 70461);
   (70480, 70480); (70493, 70497); (70656, 70708); (70727, 70730); (70751, 70753);
   (70784, 70831); (70852, 70853); (70855, 70855); (71040, 71086); (71128, 71131);
   (71168, 71215); (71236, 71236); (71296, 71338); (71352, 71352); (71424, 71450);
   (71488, 71494); (71680, 71723); (71840, 71903); (71935, 71942); (71945, 71945);
   (71948, 71955); (71957, 71958); (71960, 71983); (71999, 71999); (72001, 72001);
   (72096, 72103); (72106, 72144); (72161, 72161); (72163, 72163); (72192, 72192);
   (72203, 72242); (72250, 72250); (72272, 72272); (72284, 72329); (72349, 72349);
   (72368, 72440); (72704, 72712); (72714, 72750); (72768, 72768); (72818, 72847);
   (72960, 72966); (72968, 72969); (72971, 73008); (73030, 73030); (73056, 73061);
   (73063, 73064); (73066, 73097); (73112, 73112); (73440, 73458); (73648, 73648);
   (73728, 74649); (74880, 75075); (77712, 77808); (77824, 78894); (82944, 83526);
   (92160, 92728); (92736, 92766); (92784, 92862); (92880, 92909); (92928, 92975);
   (92992, 92995); (93027, 93047); (93053, 93071); (93760, 93823); (93952, 94026);
   (94032, 94032); (94099, 94111); (94176, 94177); (94179, 94179); (94208, 100343);
   (100352, 101589); (101632, 101640); (110576, 110579); (110581, 110587);
   (110589, 110590); (110592, 110882); (110928, 110930); (110948, 110951);
   (110960, 111355); (113664, 113770); (113776, 113788); (113792, 113800);
   (113808, 113817); (119808, 119892); (119894, 119964); (119966, 119967);
   (119970, 119970); (119973, 119974); (119977, 119980); (119982, 119993);
   (119995, 119995); (119997, 120003); (120005, 120069); (120071, 120074);
   (120077, 120084); (120086, 120092); (120094, 120121); (120123, 120126);
   (120128, 120132); (120134, 120134); (120138, 120144); (120146, 120485);
   (120488, 120512); (120514, 120538); (120540, 120570); (120572, 120596);
   (120598, 120628); (120630, 120654); (120656, 120686); (120688, 120712);
   (120714, 120744); (120746, 120770); (120772, 120779); (122624, 122654);
   (123136, 123180); (123191, 123197); (123214, 123214); (123536, 123565);
   (123584, 123627); (124896, 124902); (124904, 124907); (124909, 124910);
   (124912, 124926); (124928, 125124); (125184, 125251); (125259, 125259);
   (126464, 126467); (126469, 126495); (126497, 126498); (126500, 126500);
   (126503, 126503); (126505, 126514); (126516, 126519); (126521, 126521);
   (126523, 126523); (126530, 126530); (126535, 126535); (126537, 126537);
   (126539, 126539); (126541, 126543); (126545, 126546); (126548, 126548);
   (126551, 126551); (126553, 126553); (126555, 126555); (126557, 126557);
   (126559, 126559); (126561, 126562); (126564, 126564); (126567, 126570);
   (126572, 126578); (126580, 126583); (126585, 126588); (126590, 126590);
   (126592, 126601); (126603, 126619); (126625, 126627); (126629, 126633);
   (126635, 126651); (131072, 173791); (173824, 177976); (177984, 178205);
   (178208, 183969); (183984, 191456); (194560, 195101); (196608, 201546)
  ]%N.

(** [chr(c).isalpha()]. *)
Definition isalpha (c : N) : bool := existsb (in_range c) alpha_ranges.

(** The code points [c] whose [chr(c).lower()] is another single code
    point, as runs [(first, image of first, length, step)]: the code point
    [first + i * step] lower-cases to [image + i * step] for [i < length]. *)
Definition lower_runs : list (N * N * N * N) :=
  [
   (65, 97, 26, 1); (192, 224, 23, 1); (216, 248, 7, 1); (256, 257, 24, 2);
   (306, 307, 3, 2); (313, 314, 8, 2); (330, 331, 23, 2); (376, 255, 1, 1);
   (377, 378, 3, 2); (385, 595, 1, 1); (386, 387, 2, 2); (390, 596, 1, 1);
   (391, 392, 1, 1); (393, 598, 2, 1); (395, 396, 1, 1); (398, 477, 1, 1);
   (399, 601, 1, 1); (400, 603, 1, 1); (401, 402, 1, 1); (403, 608, 1, 1);
   (404, 611, 1, 1); (406, 617, 1, 1); (407, 616, 1, 1); (408, 409, 1, 1);
   (412, 623, 1, 1); (413, 626, 1, 1); (415, 629, 1, 1); (416, 417, 3, 2);
   (422, 640, 1, 1); (423, 424, 1, 1); (425, 643, 1, 1); (428, 429, 1, 1);
   (430, 648, 1, 1); (431, 432, 1, 1); (433, 650, 2, 1); (435, 436, 2, 2);
   (439, 658, 1, 1); (440, 441, 1, 1); (444, 445, 1, 1); (452, 454, 1, 1);
   (453, 454, 1, 1); (455, 457, 1, 1); (456, 457, 1, 1); (458, 460, 1, 1);
   (459, 460, 9, 2); (478, 479, 9, 2); (497, 499, 1, 1); (498, 499, 2, 2);
   (502, 405, 1, 1); (503, 447, 1, 1); (504, 505, 20, 2); (544, 414, 1, 1);
   (546, 547, 9, 2); (570, 11365, 1, 1); (571, 572, 1, 1); (573, 410, 1, 1);
   (574, 11366, 1, 1); (577, 578, 1, 1); (579, 384, 1, 1); (580, 649, 1, 1);
   (581, 652, 1, 1); (582, 583, 5, 2); (880, 881, 2, 2); (886, 887, 1, 1);
   (895, 1011, 1, 1); (902, 940, 1, 1); (904, 941, 3, 1); (908, 972, 1, 1);
   (910, 973, 2, 1); (913, 945, 17, 1); (931, 963, 9, 1); (975, 983, 1, 1);
   (984, 985, 12, 2); (1012, 952, 1, 1); (1015, 1016, 1, 1); (1017, 1010, 1, 1);
   (1018, 1019, 1, 1); (1021, 891, 3, 1); (1024, 1104, 16, 1); (1040, 1072, 32, 1);
   (1120, 1121, 17, 2); (1162, 1163, 27, 2); (1216, 1231, 1, 1); (1217, 1218, 7, 2);
   (1232, 1233, 48, 2); (1329, 1377, 38, 1); (4256, 11520, 38, 1); (4295, 11559, 1, 1);
   (4301, 11565, 1, 1); (5024, 43888, 80, 1); (5104, 5112, 6, 1); (7312, 4304, 43, 1);
   (7357, 4349, 3, 1); (7680, 7681, 75, 2); (7838, 223, 1, 1); (7840, 7841, 48, 2);
   (7944, 7936, 8, 1); (7960, 7952, 6, 1); (7976, 7968, 8, 1); (7992, 7984, 8, 1);
   (8008, 8000, 6, 1); (8025, 8017, 4, 2); (8040, 8032, 8, 1); (8072, 8064, 8, 1);
   (8088, 8080, 8, 1); (8104, 8096, 8, 1); (8120, 8112, 2, 1); (8122, 8048, 2, 1);
   (8124, 8115, 1, 1); (8136, 8050, 4, 1); (8140, 8131, 1, 1); (8152, 8144, 2, 1);
   (8154, 8054, 2, 1); (8168, 8160, 2, 1); (8170, 8058, 2, 1); (8172, 8165, 1, 1);
   (8184, 8056, 2, 1); (8186, 8060, 2, 1); (8188, 8179, 1, 1); (8486, 969, 1, 1);
   (8490, 107, 1, 1); (8491, 229, 1, 1); (8498, 8526, 1, 1); (8544, 8560, 16, 1);
   (8579, 8580, 1, 1); (9398, 9424, 26, 1); (11264, 11312, 48, 1);
   (11360, 11361, 1, 1); (11362, 619, 1, 1); (11363, 7549, 1, 1); (11364, 637, 1, 1);
   (11367, 11368, 3, 2); (11373, 593, 1, 1); (11374, 625, 1, 1); (11375, 592, 1, 1);
   (11376, 594, 1, 1); (11378, 11379, 1, 1); (11381, 11382, 1, 1); (11390, 575, 2, 1);
   (11392, 11393, 50, 2); (11499, 11500, 2, 2); (11506, 11507, 1, 1);
   (42560, 42561, 23, 2); (42624, 42625, 14, 2); (42786, 42787, 7, 2);
   (42802, 42803, 31, 2); (42873, 42874, 2, 2); (42877, 7545, 1, 1);
   (42878, 42879, 5, 2); (42891, 42892, 1, 1); (42893, 613, 1, 1);
   (42896, 42897, 2, 2); (42902, 42903, 10, 2); (42922, 614, 1, 1); (42923, 604, 1, 1);
   (42924, 609, 1, 1); (42925, 620, 1, 1); (42926, 618, 1, 1); (42928, 670, 1, 1);
   (42929, 647, 1, 1); (42930, 669, 1, 1); (42931, 43859, 1, 1); (42932, 42933, 8, 2);
   (42948, 42900, 1, 1); (42949, 642, 1, 1); (42950, 7566, 1, 1); (42951, 42952, 2, 2);
   (42960, 42961, 1, 1); (42966, 42967, 2, 2); (42997, 42998, 1, 1);
   (65313, 65345, 26, 1); (66560, 66600, 40, 1); (66736, 66776, 36, 1);
   (66928, 66967, 11, 1); (66940, 66979, 15, 1); (66956, 66995, 7, 1);
   (66964, 67003, 2, 1); (68736, 68800, 51, 1); (71840, 71872, 32, 1);
   (93760, 93792, 32, 1); (125184, 125218, 34, 1)
  ]%N.

Definition run_pairs (r : N * N * N * N) : list (N * N) :=
  let '(first, image, count, step) := r in
  map (fun i => (first + N.of_nat i * step, image + N.of_nat i * step)%N)
      (seq 0 (N.to_nat count)).

Definition lower_pairs : list (N * N) := flat_map run_pairs lower_runs.

Fixpoint assoc (c : N) (pairs : list (N * N)) : option N :=
  match pairs with
  | [] => None
  | (x, y) :: pairs' => if (c =? x)%N then Some y else assoc c pairs'
  end.

(** [chr(c).lower()]: U+0130 lower-cases to two code points, [i] and the
    combining dot above. *)
Definition lower (c : N) : t :=
  if (c =? 304)%N then [105; 775]%N
  else match assoc c lower_pairs with
       | Some c' => [c']
       | None => [c]
       end.

(** Line 284: [c.lower()] for every alphabetic [c] of [s], joined. *)
Definition clean_str (s : t) : t :=
  flat_map (fun c => if isalpha c then lower c else []) s.

(** Lines 332-336 for an entry whose [tags] are strings: [wanted] is
    [args.tag], [stored] is [fields["tags"]]. *)
Definition tag_filter (wanted stored : list t) : bool :=
  let tags := map clean_str stored in
  existsb (fun wanted_tag => existsb (eqb (clean_str wanted_tag)) tags) wanted.

(** The normalisation in the words of the specification: lower-case the
    text, then drop every non-alphabetic character. *)
Definition normalize (s : t) : t := filter isalpha (flat_map lower s).

End PyStr.

(** * Facts *)

(** ** Strings *)

Lemma str_app_nil_r (s : string) : s ++ EmptyString = s.
Proof. induction s as [|c s IH]; simpl; [reflexivity | now rewrite IH]. Qed.

Lemma str_app_assoc (s1 s2 s3 : string) : (s1 ++ s2) ++ s3 = s1 ++ (s2 ++ s3).
Proof. induction s1 as [|c s1 IH]; simpl; [reflexivity | now rewrite IH]. Qed.

Lemma str_length_app (s1 s2 : string) :
  String.length (s1 ++ s2) = (String.length s1 + String.length s2)%nat.
Proof. induction s1 as [|c s1 IH]; simpl; [reflexivity | now rewrite IH]. Qed.

Module JsonFacts.

Import Py Json.

(** ** Dictionaries built from pairs *)

Lemma dict_set_fresh (d : dict) (k : string) (v : value) :
  ~ In k (map fst d) -> dict_set d k v = (d ++ [(k, v)])%list.
Proof.
  induction d as [|[k' v'] d IH]; simpl; intros Hk; [reflexivity|].
  destruct (String.eqb_spec k k') as [->|Hne].
  - exfalso. apply Hk. now left.
  - rewrite IH; [reflexivity|]. intros Hin. apply Hk. now right.
Qed.

Lemma dict_update_fresh (pairs d : dict) :
  NoDup (map fst (d ++ pairs)%list) -> dict_update d pairs = (d ++ pairs)%list.
Proof.
  unfold dict_update. revert d.
  induction pairs as [|[k v] pairs IH]; intros d Hnd; simpl.
  - now rewrite List.app_nil_r.
  - rewrite dict_set_fresh.
    + rewrite IH; rewrite <- List.app_assoc; [reflexivity | exact Hnd].
    + rewrite map_app in Hnd. simpl in Hnd.
      apply NoDup_remove_2 in Hnd. intros Hin. apply Hnd.
      apply in_or_app. now left.
Qed.

Lemma dict_of_pairs (items : dict) :
  NoDup (map fst items) -> dict_update [] items = items.
Proof. intros H. now rewrite dict_update_fresh. Qed.

End JsonFacts.

(** ** The error stream *)

Lemma with_stderr_nil (w : world) : with_stderr w EmptyString = w.
Proof. destruct w. unfold with_stderr. simpl. now rewrite str_app_nil_r. Qed.

Lemma with_stderr_app (w : world) (m1 m2 : string) :
  with_stderr (with_stderr w m1) m2 = with_stderr w (m1 ++ m2).
Proof. unfold with_stderr. simpl. now rewrite str_app_assoc. Qed.

Lemma pe_spec (msg : string) (w : world) : pe msg w = (Ret tt, with_stderr w msg).
Proof. reflexivity. Qed.

Lemma progress_spec (a : args.t) (msg : string) (w : world) :
  progress a msg w
  = (Ret tt, with_stderr w (if args.quiet a then EmptyString else msg)).
Proof.
  unfold progress. destruct (args.quiet a); simpl.
  - unfold io_ret. now rewrite with_stderr_nil.
  - reflexivity.
Qed.

Lemma fetch_failed_spec (a : args.t) (w : world) :
  fetch_failed a w = (Ret tt, with_stderr w (fetch_hint a)).
Proof.
  unfold fetch_failed, fetch_hint, io_bind. rewrite pe_spec.
  destruct (given (args.cookie a)); rewrite pe_spec, with_stderr_app; reflexivity.
Qed.

(** ** The fetch loop *)

Section Fetch.

Variable net : network.
Variable a : args.t.

Lemma fetch_loop_pages (pages : list dict) :
  forall (from : nat) (acc : dict) (w : world) (fuel : nat),
    serves_from net a from pages ->
    (List.length pages < fuel)%nat ->
    fetch_loop net a fuel (Z.of_nat from - 1) acc w
    = fetch_loop net a (fuel - List.length pages)
        (Z.of_nat (from + List.length pages) - 1) (merge_pages acc pages)
        (with_stderr w (fetch_log a from (List.length pages))).
Proof.
  induction pages as [|items pages IH]; intros from acc w fuel Hserves Hfuel.
  - simpl. rewrite Nat.sub_0_r, Nat.add_0_r, with_stderr_nil. reflexivity.
  - destruct Hserves as [[Hne (body & Hnet & Hloads)] Hrest].
    destruct fuel as [|fuel]; [simpl in Hfuel; lia|].
    cbn [fetch_loop]. replace (Z.of_nat from - 1 + 1) with (Z.of_nat from) by lia.
    rewrite Hnet, Hloads, progress_spec. cbn [snd].
    destruct items as [|kv items]; [now elim Hne|].
    replace (fetch_loop net a fuel (Z.of_nat from))
      with (fetch_loop net a fuel (Z.of_nat (S from) - 1)) by (f_equal; lia).
    rewrite IH; [|assumption|simpl in Hfuel; lia].
    cbn [List.length fetch_log merge_pages fold_left].
    rewrite with_stderr_app.
    replace (S from + List.length pages)%nat with (from + S (List.length pages))%nat by lia.
    reflexivity.
Qed.

End Fetch.

Lemma fetch_log_snoc (a : args.t) (count from : nat) :
  fetch_log a from (S count)
  = fetch_log a from count
    ++ (if args.quiet a then EmptyString
        else "Fetching wishlist page " ++ Py.str_of_int (Z.of_nat (from + count) + 1) ++ nl).
Proof.
  revert from. induction count as [|count IH]; intros from.
  - simpl. rewrite Nat.add_0_r, str_app_nil_r. reflexivity.
  - change (fetch_log a from (S (S count)))
      with ((if args.quiet a then EmptyString
             else "Fetching wishlist page " ++ Py.str_of_int (Z.of_nat from + 1) ++ nl)
            ++ fetch_log a (S from) (S count)).
    rewrite IH. cbn [fetch_log]. rewrite str_app_assoc.
    replace (S from + count)%nat with (from + S count)%nat by lia. reflexivity.
Qed.

(** C1 (amended): a failed request on any page, the first or a later one,
    is fatal: when pages 0..p-1 answer with non-empty mappings and page p
    fails, the loop raises the error (for an HTTP error status, after the
    diagnostic on the error stream) and returns no wishlist.  Pagination
    ends normally only on a response that is not a non-empty mapping, and
    then the wishlist is the merge of pages 0..p-1. *)
Theorem fetch_http_failure_is_fatal
    (net : network) (a : args.t) (pages : list dict) (fuel : nat) (w : world) :
  serves_from net a 0 pages ->
  (List.length pages < fuel)%nat ->
  (forall code,
      net (page_request a (Z.of_nat (List.length pages))) = HttpFail code ->
      fetch_loop net a fuel (-1) [] w
      = Some (Raise (HTTPError code),
              with_stderr w (fetch_log a 0 (S (List.length pages)) ++ fetch_hint a)))
  /\ (net (page_request a (Z.of_nat (List.length pages))) = UrlFail ->
      fetch_loop net a fuel (-1) [] w
      = Some (Raise URLError, with_stderr w (fetch_log a 0 (S (List.length pages)))))
  /\ (forall body v,
      net (page_request a (Z.of_nat (List.length pages))) = HttpBody body ->
      Json.loads body = Some v -> ends_pages v ->
      fetch_loop net a fuel (-1) [] w
      = Some (Ret (merge_pages [] pages),
              with_stderr w (fetch_log a 0 (S (List.length pages))))).
Proof.
  intros Hserves Hfuel.
  pose proof (fetch_loop_pages net a pages 0 [] w fuel Hserves Hfuel) as Hloop.
  change (Z.of_nat 0 - 1) with (-1) in Hloop. rewrite Hloop. clear Hloop.
  destruct (fuel - List.length pages)%nat as [|fuel'] eqn:E; [lia|].
  cbn [fetch_loop]. cbn [Nat.add].
  replace (Z.of_nat (List.length pages) - 1 + 1) with (Z.of_nat (List.length pages)) by lia.
  rewrite progress_spec. cbn [snd]. rewrite with_stderr_app, <- fetch_log_snoc.
  split; [|split].
  - intros code Hnet. rewrite Hnet, fetch_failed_spec. cbn [snd].
    now rewrite with_stderr_app.
  - intros Hnet. now rewrite Hnet.
  - intros body v Hnet Hloads Hends. rewrite Hnet, Hloads.
    destruct v as [| | | | |[|kv items]]; try reflexivity. contradiction.
Qed.

Lemma fetch_http_failure_is_fatal_witness :
  fetch_loop one_page_net fetch_args 2 (-1) [] empty_world
  = Some (Raise (HTTPError 403),
          with_stderr empty_world (fetch_log fetch_args 0 2 ++ fetch_hint fetch_args)).
Proof.
  refine (proj1 (fetch_http_failure_is_fatal one_page_net fetch_args [first_page] 2 empty_world _ _) 403 _).
  - split; [split; [discriminate|]|exact I].
    exists (Json.dumps (VDict first_page)). split; reflexivity.
  - simpl. lia.
  - reflexivity.
Defined.

(** C1 as stated fails: page 0 answers with a wishlist entry and page 1
    fails; the loop raises the error instead of returning page 0. *)
Lemma fetch_failure_on_second_page_raises :
  serves_from one_page_net fetch_args 0 [first_page]
  /\ one_page_net (page_request fetch_args 1) = HttpFail 403
  /\ option_map fst (fetch_loop one_page_net fetch_args 10 (-1) [] empty_world)
     = Some (Raise (HTTPError 403))
  /\ option_map fst (fetch_loop one_page_net fetch_args 10 (-1) [] empty_world)
     <> Some (Ret (merge_pages [] [first_page])).
Proof.
  split; [|split; [reflexivity|split; [reflexivity|discriminate]]].
  split; [split; [discriminate|]|exact I].
  exists (Json.dumps (VDict first_page)). split; reflexivity.
Qed.

(** ** The numeric options *)

Lemma append_nl_nonempty (s : string) : s ++ nl <> EmptyString.
Proof. destruct s; discriminate. Qed.

Lemma integer_returns_or_exits (val : option string) (name : string) (max : option Z) (w : world) :
  (exists v, integer val name max w = (Ret v, w))
  \/ integer val name max w
     = (Raise (SystemExit 1), with_stderr w (integer_err name max ++ nl)).
Proof.
  unfold integer. destruct val as [s|]; [|left; eexists; reflexivity].
  destruct (Py.int_of_str s) as [v|].
  - destruct (negb (max_given max) || _); [left; eexists; reflexivity | right; reflexivity].
  - right; reflexivity.
Qed.

Lemma integer_rejects (val : option string) (name : string) (m : Z) (w : world) :
  m <> 0 -> rejected (Some m) val ->
  integer val name (Some m) w
  = (Raise (SystemExit 1), with_stderr w (integer_err name (Some m) ++ nl)).
Proof.
  intros Hm Hrej. unfold integer, rejected in *. destruct val as [s|]; [|contradiction].
  destruct (Py.int_of_str s) as [v|]; [|reflexivity].
  unfold max_given. destruct (Z.eqb_spec m 0) as [|_]; [contradiction|].
  cbn [negb orb]. destruct (Z.leb_spec v m); [lia | reflexivity].
Qed.

Lemma integer_rejects_unbounded (val : option string) (name : string) (w : world) :
  rejected None val ->
  integer val name None w
  = (Raise (SystemExit 1), with_stderr w (integer_err name None ++ nl)).
Proof.
  intros Hrej. unfold integer, rejected in *. destruct val as [s|]; [|contradiction].
  destruct (Py.int_of_str s) as [v|]; [contradiction | reflexivity].
Qed.

(** C2 (amended): a [--discount] value that is not an integer or is above
    100, a [--deck] value that is not an integer or is above 3, and a
    [--price] value that is not an integer make the run exit with status
    1 after an error message on the error stream; standard output and the
    files are untouched. *)
Theorem invalid_number_exits
    (net : network) (help_text : string)
    (csv_writerow : string -> string -> list value -> result string)
    (a : args.t) (fuel : nat) (w : world) :
  rejected (Some 100) (args.discount a)
  \/ rejected None (args.price a)
  \/ rejected (Some 3) (args.deck a) ->
  exists msg,
    msg <> EmptyString
    /\ main net help_text csv_writerow a fuel w
       = Some (Raise (SystemExit 1), with_stderr w msg)
    /\ stdout (with_stderr w msg) = stdout w
    /\ exit_code (@Raise unit (SystemExit 1)) = 1.
Proof.
  intros Hbad. unfold main, resolve_numbers, io_bind.
  unfold wanted_discount, wanted_price, wanted_deck_rating.
  destruct (integer_returns_or_exits (args.discount a) "Discount" (Some 100) w)
    as [[wd Hd]|Hd].
  2:{ rewrite Hd. eexists. repeat split. apply append_nl_nonempty. }
  destruct (integer_returns_or_exits (args.price a) "Price" None w) as [[wp Hp]|Hp].
  2:{ rewrite Hd, Hp. eexists. repeat split. apply append_nl_nonempty. }
  destruct (integer_returns_or_exits (args.deck a) "Steam Deck rating" (Some 3) w)
    as [[wk Hk]|Hk].
  2:{ rewrite Hd, Hp, Hk. eexists. repeat split. apply append_nl_nonempty. }
  exfalso. destruct Hbad as [H|[H|H]].
  - rewrite integer_rejects in Hd by (lia || assumption). discriminate.
  - rewrite integer_rejects_unbounded in Hp by assumption. discriminate.
  - rewrite integer_rejects in Hk by (lia || assumption). discriminate.
Qed.

Lemma invalid_number_exits_witness :
  exists msg,
    msg <> EmptyString
    /\ main one_page_net EmptyString (fun _ _ _ => Ret EmptyString) discount_101_args 1 empty_world
       = Some (Raise (SystemExit 1), with_stderr empty_world msg)
    /\ stdout (with_stderr empty_world msg) = stdout empty_world
    /\ exit_code (@Raise unit (SystemExit 1)) = 1.
Proof.
  apply (invalid_number_exits one_page_net EmptyString (fun _ _ _ => Ret EmptyString)
           discount_101_args 1 empty_world).
  left. vm_compute. reflexivity.
Defined.

(** C2 as stated fails: [--price -1] is accepted. *)
Lemma negative_price_is_accepted :
  Py.int_of_str "-1" = Some (-1)
  /\ resolve_numbers negative_price_args empty_world = (Ret (0, -1, 0), empty_world).
Proof. split; reflexivity. Qed.

(** ** Snapshots *)


(** C9: with [--load] and [--prices] the guard of line 250 looks at the
    first entry of the loaded wishlist.  On the empty mapping it raises
    [IndexError], and so does the whole run once the numeric options are
    resolved, whatever [--refresh] says; on a wishlist whose first entry
    is a mapping it is decided by that entry. *)
Theorem price_guard_needs_an_entry
    (net : network) (help_text : string)
    (csv_writerow : string -> string -> list value -> result string)
    (a : args.t) (path text : string) (numbers : Z * Z * Z) (fuel : nat) (w : world) :
  args.load a = Some path -> Py.nonempty path = true ->
  given (args.cc a) = true ->
  resolve_numbers a w = (Ret numbers, w) ->
  file_lookup (files w) path = Some text ->
  Json.loads text = Some (VDict []) ->
  price_guard a (VDict []) = Raise IndexError
  /\ main net help_text csv_writerow a fuel w = Some (Raise IndexError, w)
  /\ forall gameid fields rest,
       price_guard a (VDict ((gameid, VDict fields) :: rest))
       = Ret (negb (dict_has fields "_price") || args.refresh a).
Proof.
  intros Hload Hpath Hcc Hnumbers Hfile Htext.
  assert (Hguard : forall wl, price_guard a wl =
            (items <- py_items wl ;;
             match dict_values items with
             | [] => Raise IndexError
             | first :: _ =>
                 has_price <- py_in "_price" first ;;
                 if negb has_price then Ret true else Ret (args.refresh a)
             end)%exc).
  { intros wl. unfold price_guard, given in *. rewrite Hload, Hpath in *.
    now rewrite Hcc. }
  split; [|split].
  - now rewrite Hguard.
  - unfold main. rewrite Hnumbers.
    unfold get_wishlist, given. rewrite Hload, Hpath. cbn [the_str].
    unfold load_snapshot, io_bind, read_file. rewrite Hfile, Htext.
    unfold io_ret, process. destruct numbers as [[wd wp] wk].
    unfold get_prices, io_bind, io_lift. now rewrite Hguard.
  - intros gameid fields rest. rewrite Hguard. cbn.
    now destruct (dict_has fields "_price").
Qed.

Lemma price_guard_needs_an_entry_witness :
  price_guard load_prices_args (VDict []) = Raise IndexError
  /\ main one_page_net EmptyString (fun _ _ _ => Ret EmptyString) load_prices_args 0 empty_snapshot_world
     = Some (Raise IndexError, empty_snapshot_world)
  /\ forall gameid fields rest,
       price_guard load_prices_args (VDict ((gameid, VDict fields) :: rest))
       = Ret (negb (dict_has fields "_price") || args.refresh load_prices_args).
Proof.
  apply (price_guard_needs_an_entry one_page_net EmptyString (fun _ _ _ => Ret EmptyString)
           load_prices_args "empty.json" "{}" (0, 0, 0) 0 empty_snapshot_world);
    reflexivity.
Defined.

(** ** Filters *)

Lemma isalpha_lower (c : ascii) : Py.isalpha (Py.lower c) = Py.isalpha c.
Proof. destruct c as [[] [] [] [] [] [] [] []]; reflexivity. Qed.

Lemma clean_normalize (s : string) : clean s = normalize s.
Proof.
  unfold clean, normalize, Py.str_lower.
  induction s as [|c s IH]; simpl; [reflexivity|].
  rewrite isalpha_lower. destruct (Py.isalpha c); simpl; now rewrite IH.
Qed.

Lemma mapM_map_ret {A B C} (f : B -> result C) (h : A -> B) (g : A -> C) (l : list A) :
  (forall x, f (h x) = Ret (g x)) -> mapM f (map h l) = Ret (map g l).
Proof.
  intros H. induction l as [|x l IH]; simpl; [reflexivity|]. now rewrite H, IH.
Qed.

Lemma mapM_ret {A B} (f : A -> result B) (g : A -> B) (l : list A) :
  (forall x, f x = Ret (g x)) -> mapM f l = Ret (map g l).
Proof.
  intros H. rewrite <- (map_id l) at 1. now apply mapM_map_ret.
Qed.

Lemma mapM_chars (s : string) :
  mapM (fun c =>
          match c with
          | VStr x => Ret (if Py.str_isalpha x then Py.str_lower x else EmptyString)
          | _ => Raise AttributeError
          end) (map VStr (chars s))
  = Ret (map (fun x => if Py.str_isalpha x then Py.str_lower x else EmptyString) (chars s)).
Proof. induction s as [|c s IH]; simpl; [reflexivity|]. now rewrite IH. Qed.

Lemma concat_chars (s : string) :
  String.concat EmptyString
    (map (fun x => if Py.str_isalpha x then Py.str_lower x else EmptyString) (chars s))
  = clean s.
Proof.
  unfold clean. induction s as [|c s IH]; [reflexivity|].
  cbn [chars map Py.str_filter]. unfold Py.str_isalpha at 1. cbn [Py.nonempty Py.str_all andb].
  rewrite andb_true_r.
  destruct s as [|c' s].
  - simpl. destruct (Py.isalpha c); reflexivity.
  - cbn [chars map String.concat] in *. rewrite IH.
    destruct (Py.isalpha c); reflexivity.
Qed.

Lemma clean_str_str (s : string) : clean_str (VStr s) = Ret (clean s).
Proof.
  unfold clean_str. cbn [py_iter bind]. rewrite mapM_chars. cbn [bind].
  now rewrite concat_chars.
Qed.

Lemma str_in_In (x : string) (xs : list string) : Py.str_in x xs = true <-> In x xs.
Proof.
  unfold Py.str_in. rewrite existsb_exists. split.
  - intros (y & Hy & E). apply String.eqb_eq in E. now subst.
  - intros H. exists x. split; [assumption | apply String.eqb_refl].
Qed.

Section Filter.

Variable a : args.t.
Variables wd wp wk : Z.
Variable lists : list (list string).

Lemma tag_filter_strings (fields : dict) (stored wanted : list string) :
  args.tag a = Some wanted -> wanted <> [] ->
  dict_get fields "tags" = Some (VList (map VStr stored)) ->
  tag_filter a (VDict fields) true
  = Ret (existsb (fun w => Py.str_in w (map clean stored)) (map clean wanted)).
Proof.
  intros Htag Hne Hget. unfold tag_filter, given_list. rewrite Htag.
  destruct wanted as [|w0 wanted']; [now elim Hne|]. cbn [andb the_list].
  unfold py_getitem. rewrite Hget. cbn [bind py_iter].
  rewrite (mapM_map_ret clean_str VStr clean) by apply clean_str_str.
  cbn [bind].
  rewrite (mapM_ret (fun wanted_tag => clean_str (VStr wanted_tag)) clean)
    by apply clean_str_str.
  reflexivity.
Qed.

Lemma tag_filter_missing (fields : dict) :
  given_list (args.tag a) = true -> dict_get fields "tags" = None ->
  tag_filter a (VDict fields) true = Raise (KeyError "tags").
Proof.
  intros Htag Hget. unfold tag_filter. rewrite Htag. cbn [andb].
  unfold py_getitem. now rewrite Hget.
Qed.

Lemma filter_game_missing_tags (gameid : string) (fields : dict) :
  given_list (args.tag a) = true -> dict_get fields "tags" = None ->
  boolean_filters a (VDict fields) = Ret true ->
  filter_game a wd wp wk lists gameid (VDict fields) = Raise (KeyError "tags").
Proof.
  intros Htag Hget Hbool. unfold filter_game. rewrite Hbool. cbn [bind].
  now rewrite tag_filter_missing.
Qed.

Lemma filter_loop_raises (before after : dict) (gameid : string) (fields : value) (e : exn) :
  filter_game a wd wp wk lists gameid fields = Raise e ->
  forall filtered,
    raises (filter_loop a wd wp wk lists (before ++ (gameid, fields) :: after)%list filtered).
Proof.
  intros Hraise. induction before as [|[g f] before IH]; intros filtered; simpl.
  - rewrite Hraise. now exists e.
  - destruct (filter_game a wd wp wk lists g f) as [b|e']; [apply IH | now exists e'].
Qed.

Lemma filter_loop_first_raise (before after : dict) (gameid : string) (fields : value) (e : exn) :
  Forall (fun kv => returns (filter_game a wd wp wk lists (fst kv) (snd kv))) before ->
  filter_game a wd wp wk lists gameid fields = Raise e ->
  forall filtered,
    filter_loop a wd wp wk lists (before ++ (gameid, fields) :: after)%list filtered = Raise e.
Proof.
  intros Hbefore Hraise.
  induction Hbefore as [|[g f] before [b Hb] _ IH]; intros filtered; simpl.
  - now rewrite Hraise.
  - cbn [fst snd] in Hb. rewrite Hb. apply IH.
Qed.

Lemma filter_loop_ret (todo : dict) :
  forall filtered out,
    NoDup (map fst (filtered ++ todo)%list) ->
    filter_loop a wd wp wk lists todo filtered = Ret out ->
    out = (filtered ++ filter (kept a wd wp wk lists) todo)%list.
Proof.
  induction todo as [|[g f] todo IH]; intros filtered out Hnd Hloop; simpl in *.
  - injection Hloop as <-. now rewrite List.app_nil_r.
  - unfold kept at 1. cbn [fst snd].
    destruct (filter_game a wd wp wk lists g f) as [[|]|e]; [| |discriminate].
    + rewrite JsonFacts.dict_set_fresh in Hloop.
      * apply IH in Hloop; [|now rewrite <- List.app_assoc].
        now rewrite <- List.app_assoc in Hloop.
      * rewrite map_app in Hnd. apply NoDup_remove_2 in Hnd.
        intros Hin. apply Hnd, in_or_app. now left.
    + apply IH in Hloop; [assumption|].
      rewrite map_app in *. now apply NoDup_remove_1 in Hnd.
Qed.

Lemma filter_loop_all_kept (todo : dict) :
  forall filtered,
    NoDup (map fst (filtered ++ todo)%list) ->
    Forall (fun kv => kept a wd wp wk lists kv = true) todo ->
    filter_loop a wd wp wk lists todo filtered = Ret (filtered ++ todo)%list.
Proof.
  induction todo as [|[g f] todo IH]; intros filtered Hnd Hall; simpl.
  - now rewrite List.app_nil_r.
  - inversion Hall as [|? ? Hk Hrest]; subst. unfold kept in Hk. cbn [fst snd] in Hk.
    destruct (filter_game a wd wp wk lists g f) as [[|]|e]; try discriminate.
    rewrite JsonFacts.dict_set_fresh.
    + rewrite IH; [now rewrite <- List.app_assoc | now rewrite <- List.app_assoc | assumption].
    + rewrite map_app in Hnd. apply NoDup_remove_2 in Hnd.
      intros Hin. apply Hnd, in_or_app. now left.
Qed.

End Filter.

Lemma in_keys_filter (p : string * value -> bool) (d : dict) (k : string) :
  In k (map fst (filter p d)) -> In k (map fst d).
Proof.
  rewrite !in_map_iff. intros (kv & E & Hin). apply filter_In in Hin.
  exists kv. tauto.
Qed.

Lemma NoDup_keys_filter (p : string * value -> bool) (d : dict) :
  NoDup (map fst d) -> NoDup (map fst (filter p d)).
Proof.
  induction d as [|kv d IH]; simpl; intros Hnd; [constructor|].
  inversion Hnd as [|? ? Hnot Hrest]; subst.
  destruct (p kv); simpl; auto.
  constructor; auto. intros Hin. apply Hnot. eapply in_keys_filter; eauto.
Qed.

Lemma dict_get_in_keys (d : dict) (k : string) (v : value) :
  dict_get d k = Some v -> In k (map fst d).
Proof.
  induction d as [|[k' v'] d IH]; simpl; [discriminate|].
  destruct (String.eqb_spec k k') as [->|_]; auto.
Qed.

Lemma dict_get_filter (p : string * value -> bool) (d : dict) (k : string) (v : value) :
  NoDup (map fst d) -> dict_get (filter p d) k = Some v -> dict_get d k = Some v.
Proof.
  induction d as [|[k' v'] d IH]; simpl; intros Hnd Hget; [discriminate|].
  inversion Hnd as [|? ? Hnot Hrest]; subst.
  destruct (p (k', v')); simpl in Hget.
  - destruct (String.eqb_spec k k'); auto.
  - destruct (String.eqb_spec k k') as [->|_]; auto.
    exfalso. apply Hnot. eapply in_keys_filter, dict_get_in_keys, Hget.
Qed.

(** ** Tags as Unicode text *)

Module PyStrFacts.

Lemma eqb_eq (x y : PyStr.t) : PyStr.eqb x y = true <-> x = y.
Proof.
  revert y. induction x as [|c x IH]; intros [|d y]; simpl; split; try discriminate; auto.
  - intros H. apply andb_true_iff in H as [Hc Hx]. apply N.eqb_eq in Hc.
    apply IH in Hx. now subst.
  - intros [= -> ->]. rewrite N.eqb_refl. now apply IH.
Qed.

Lemma assoc_In (c c' : N) (pairs : list (N * N)) :
  PyStr.assoc c pairs = Some c' -> In (c, c') pairs.
Proof.
  induction pairs as [|[x y] pairs IH]; simpl; [discriminate|].
  destruct (N.eqb_spec c x) as [->|_].
  - intros [= ->]. now left.
  - intros H. right. now apply IH.
Qed.

(** Lower-casing a code point other than U+0130 gives one code point,
    alphabetic exactly when the code point is. *)
Lemma lower_pairs_alpha :
  forallb (fun p => Bool.eqb (PyStr.isalpha (snd p)) (PyStr.isalpha (fst p)))
          PyStr.lower_pairs = true.
Proof. vm_compute. reflexivity. Qed.

Lemma lower_single (c : N) :
  c <> 304%N -> exists c', PyStr.lower c = [c'] /\ PyStr.isalpha c' = PyStr.isalpha c.
Proof.
  intros Hc. unfold PyStr.lower. destruct (N.eqb_spec c 304); [contradiction|].
  destruct (PyStr.assoc c PyStr.lower_pairs) as [c'|] eqn:E.
  - exists c'. split; [reflexivity|]. apply assoc_In in E.
    pose proof lower_pairs_alpha as H. rewrite forallb_forall in H.
    specialize (H _ E). now apply Bool.eqb_prop in H.
  - now exists c.
Qed.

Lemma clean_str_normalize (s : PyStr.t) :
  ~ In 304%N s -> PyStr.clean_str s = PyStr.normalize s.
Proof.
  unfold PyStr.clean_str, PyStr.normalize.
  induction s as [|c s IH]; intros Hs; [reflexivity|].
  cbn [flat_map]. rewrite filter_app, <- IH by (intros H; apply Hs; now right).
  f_equal. destruct (lower_single c) as (c' & -> & Hc'); [intros ->; apply Hs; now left|].
  cbn [filter]. rewrite Hc'. now destruct (PyStr.isalpha c).
Qed.

Lemma tag_filter_spec (wanted stored : list PyStr.t) :
  PyStr.tag_filter wanted stored = true
  <-> exists t w, In t stored /\ In w wanted /\ PyStr.clean_str t = PyStr.clean_str w.
Proof.
  unfold PyStr.tag_filter. rewrite existsb_exists. split.
  - intros (w & Hw & H). apply existsb_exists in H as (ct & Hct & E).
    apply in_map_iff in Hct as (t & <- & Ht). apply eqb_eq in E. now exists t, w.
  - intros (t & w & Ht & Hw & E). exists w. split; [assumption|].
    apply existsb_exists. exists (PyStr.clean_str t). split; [now apply in_map|].
    now apply eqb_eq.
Qed.

(** On the strings of the model the two embeddings agree. *)
Lemma isalpha_code (c : ascii) : PyStr.isalpha (Py.code c) = Py.isalpha c.
Proof. destruct c as [[] [] [] [] [] [] [] []]; vm_compute; reflexivity. Qed.

Lemma lower_code (c : ascii) : PyStr.lower (Py.code c) = [Py.code (Py.lower c)].
Proof. destruct c as [[] [] [] [] [] [] [] []]; vm_compute; reflexivity. Qed.

Lemma of_string_clean (s : string) :
  PyStr.clean_str (PyStr.of_string s) = PyStr.of_string (clean s).
Proof.
  unfold PyStr.clean_str, PyStr.of_string, clean.
  induction s as [|c s IH]; [reflexivity|].
  cbn [list_ascii_of_string map flat_map Py.str_filter].
  rewrite IH, isalpha_code, lower_code.
  now destruct (Py.isalpha c).
Qed.

Lemma of_string_inj (s1 s2 : string) :
  PyStr.of_string s1 = PyStr.of_string s2 -> s1 = s2.
Proof.
  unfold PyStr.of_string. revert s2.
  induction s1 as [|c1 s1 IH]; intros [|c2 s2]; simpl; try discriminate; auto.
  intros [= Hc Hs]. apply (f_equal ascii_of_N) in Hc. unfold Py.code in Hc.
  rewrite !ascii_N_embedding in Hc. subst. f_equal. now apply IH.
Qed.

Lemma eqb_of_string (s1 s2 : string) :
  PyStr.eqb (PyStr.of_string s1) (PyStr.of_string s2) = String.eqb s1 s2.
Proof.
  destruct (String.eqb_spec s1 s2) as [->|Hne].
  - now apply eqb_eq.
  - destruct (PyStr.eqb _ _) eqn:E; [|reflexivity].
    apply eqb_eq, of_string_inj in E. contradiction.
Qed.

Lemma existsb_map {A B} (f : B -> bool) (g : A -> B) (l : list A) :
  existsb f (map g l) = existsb (fun x => f (g x)) l.
Proof. induction l as [|x l IH]; simpl; [reflexivity | now rewrite IH]. Qed.

Lemma existsb_eq {A} (f g : A -> bool) (l : list A) :
  (forall x, f x = g x) -> existsb f l = existsb g l.
Proof. intros H. induction l as [|x l IH]; simpl; [reflexivity | now rewrite H, IH]. Qed.

Lemma tag_filter_of_string (wanted stored : list string) :
  PyStr.tag_filter (map PyStr.of_string wanted) (map PyStr.of_string stored)
  = existsb (fun w => Py.str_in w (map clean stored)) (map clean wanted).
Proof.
  unfold PyStr.tag_filter, Py.str_in. rewrite !existsb_map.
  apply existsb_eq. intros w. rewrite !existsb_map. apply existsb_eq. intros t.
  now rewrite !of_string_clean, eqb_of_string.
Qed.

End PyStrFacts.

(** C3 (amended): tags are compared after [clean_str], which keeps the
    alphabetic characters of a tag and lower-cases each of them by itself.
    For tags that are Python [str] values in full, the tag filter lets an
    entry through exactly when some stored tag and some requested tag have
    the same [clean_str], and on a tag without U+0130 [clean_str] is
    lower-casing and dropping every non-alphabetic character.  On an entry
    of the program whose [tags] is a list of strings the tag filter
    returns, it is that filter, and it lets the entry through exactly when
    some stored tag and some requested tag agree after lower-casing and
    dropping every non-alphabetic character.  Requesting [Role Playing]
    matches the stored tag [role-playing]. *)
Theorem tag_matching_compares_cleaned_tags
    (a : args.t) (fields : dict) (stored wanted : list string)
    (ustored uwanted : list PyStr.t) :
  args.tag a = Some wanted -> wanted <> [] ->
  dict_get fields "tags" = Some (VList (map VStr stored)) ->
  (PyStr.tag_filter uwanted ustored = true
   <-> exists t w, In t ustored /\ In w uwanted /\ PyStr.clean_str t = PyStr.clean_str w)
  /\ (forall s, ~ In 304%N s -> PyStr.clean_str s = PyStr.normalize s)
  /\ tag_filter a (VDict fields) true
     = Ret (PyStr.tag_filter (map PyStr.of_string wanted) (map PyStr.of_string stored))
  /\ (tag_filter a (VDict fields) true = Ret true
      <-> exists t w, In t stored /\ In w wanted /\ normalize t = normalize w)
  /\ tag_filter role_playing_args (VDict role_playing_entry) true = Ret true.
Proof.
  intros Htag Hne Hget.
  split; [apply PyStrFacts.tag_filter_spec|].
  split; [apply PyStrFacts.clean_str_normalize|].
  rewrite (tag_filter_strings a fields stored wanted Htag Hne Hget).
  split; [now rewrite PyStrFacts.tag_filter_of_string|].
  split; [|reflexivity].
  split.
  - intros H. injection H as H. apply existsb_exists in H as (cw & Hcw & Hin).
    apply in_map_iff in Hcw as (w & <- & Hw).
    apply str_in_In, in_map_iff in Hin as (t & E & Ht).
    exists t, w. rewrite <- !clean_normalize. auto.
  - intros (t & w & Ht & Hw & E). f_equal. apply existsb_exists.
    exists (clean w). split; [now apply in_map|].
    apply str_in_In. rewrite clean_normalize, <- E, <- clean_normalize. now apply in_map.
Qed.

Lemma tag_matching_compares_cleaned_tags_witness :
  (PyStr.tag_filter [[304%N]] [[105%N; 775%N]] = true
   <-> exists t w, In t [[105%N; 775%N]] /\ In w [[304%N]]
                   /\ PyStr.clean_str t = PyStr.clean_str w)
  /\ (forall s, ~ In 304%N s -> PyStr.clean_str s = PyStr.normalize s)
  /\ tag_filter role_playing_args (VDict role_playing_entry) true
     = Ret (PyStr.tag_filter (map PyStr.of_string ["Role Playing"])
              (map PyStr.of_string ["role-playing"]))
  /\ (tag_filter role_playing_args (VDict role_playing_entry) true = Ret true
      <-> exists t w, In t ["role-playing"] /\ In w ["Role Playing"]
                      /\ normalize t = normalize w)
  /\ tag_filter role_playing_args (VDict role_playing_entry) true = Ret true.
Proof.
  apply (tag_matching_compares_cleaned_tags role_playing_args role_playing_entry
           ["role-playing"] ["Role Playing"] [[105%N; 775%N]] [[304%N]]).
  - reflexivity.
  - discriminate.
  - reflexivity.
Defined.

(** C3 as stated fails: the requested tag U+0130 (capital I with dot above)
    and the stored tag [i] agree after lower-casing and dropping every
    non-alphabetic character, yet the tag filter turns the entry down:
    [clean_str] keeps the combining dot that lower-casing U+0130 leaves. *)
Lemma dotted_capital_i_is_not_matched :
  PyStr.normalize [304%N] = PyStr.normalize [105%N]
  /\ PyStr.clean_str [304%N] = [105%N; 775%N]
  /\ PyStr.clean_str [105%N] = [105%N]
  /\ PyStr.tag_filter [[304%N]] [[105%N]] = false.
Proof. vm_compute. repeat split. Qed.

(** C4: with tags requested, an entry that passes the filters before the
    tag filter and has no [tags] field makes the loop body raise
    [KeyError] for [tags]; the filter stage then produces no wishlist, and
    what it raises is that [KeyError] whenever the entries before this one
    were processed without an error of their own. *)
Theorem missing_tags_is_fatal
    (a : args.t) (wd wp wk : Z) (lists : list (list string))
    (before after : dict) (gameid : string) (fields : dict) :
  given_list (args.tag a) = true ->
  dict_get fields "tags" = None ->
  boolean_filters a (VDict fields) = Ret true ->
  filter_game a wd wp wk lists gameid (VDict fields) = Raise (KeyError "tags")
  /\ raises (filter_wishlist a wd wp wk lists
               (before ++ (gameid, VDict fields) :: after)%list)
  /\ (Forall (fun kv => returns (filter_game a wd wp wk lists (fst kv) (snd kv))) before ->
      filter_wishlist a wd wp wk lists (before ++ (gameid, VDict fields) :: after)%list
      = Raise (KeyError "tags")).
Proof.
  intros Htag Hget Hbool.
  pose proof (filter_game_missing_tags a wd wp wk lists gameid fields Htag Hget Hbool) as H.
  split; [exact H|]. split.
  - eapply filter_loop_raises, H.
  - intros Hbefore. now apply filter_loop_first_raise.
Qed.

Lemma missing_tags_is_fatal_witness :
  filter_game rpg_args 0 0 0 [] "20" (VDict untagged_entry) = Raise (KeyError "tags")
  /\ raises (filter_wishlist rpg_args 0 0 0 []
               (tagged_wishlist ++ [("20", VDict untagged_entry)])%list)
  /\ (Forall (fun kv => returns (filter_game rpg_args 0 0 0 [] (fst kv) (snd kv))) tagged_wishlist ->
      filter_wishlist rpg_args 0 0 0 [] (tagged_wishlist ++ [("20", VDict untagged_entry)])%list
      = Raise (KeyError "tags")).
Proof.
  apply (missing_tags_is_fatal rpg_args 0 0 0 [] tagged_wishlist [] "20" untagged_entry);
    reflexivity.
Defined.

Lemma filter_wishlist_ret
    (a : args.t) (wd wp wk : Z) (lists : list (list string)) (wishlist out : dict) :
  NoDup (dict_keys wishlist) ->
  filter_wishlist a wd wp wk lists wishlist = Ret out ->
  out = filter (kept a wd wp wk lists) wishlist.
Proof.
  intros Hnd H. now apply filter_loop_ret in H.
Qed.

(** C6: filtering is idempotent.  When the filter stage succeeds on a
    wishlist, running it again on its result, with the same options and
    the same curated lists, succeeds and returns that result. *)
Theorem filter_idempotent
    (a : args.t) (wd wp wk : Z) (lists : list (list string)) (wishlist out : dict) :
  NoDup (dict_keys wishlist) ->
  filter_wishlist a wd wp wk lists wishlist = Ret out ->
  filter_wishlist a wd wp wk lists out = Ret out.
Proof.
  intros Hnd H. apply filter_wishlist_ret in H; [|assumption]. subst out.
  unfold filter_wishlist. rewrite filter_loop_all_kept; [reflexivity| |].
  - now apply NoDup_keys_filter.
  - apply Forall_forall. intros kv Hin. now apply filter_In in Hin.
Qed.

Lemma two_games_keys : NoDup (dict_keys two_games).
Proof. repeat constructor; simpl; intuition discriminate. Qed.

Lemma filter_idempotent_witness :
  filter_wishlist game_price_args 0 1500 0 [] one_game = Ret one_game.
Proof.
  apply (filter_idempotent game_price_args 0 1500 0 [] two_games one_game).
  - exact two_games_keys.
  - reflexivity.
Defined.

(** C8: when the filter stage succeeds, its result is a part of its
    input: every key of the result is a key of the input, with the same
    entry, and the result has at most as many entries. *)
Theorem filter_is_submapping
    (a : args.t) (wd wp wk : Z) (lists : list (list string)) (wishlist out : dict) :
  NoDup (dict_keys wishlist) ->
  filter_wishlist a wd wp wk lists wishlist = Ret out ->
  (forall k, In k (dict_keys out) -> In k (dict_keys wishlist))
  /\ (forall k v, dict_get out k = Some v -> dict_get wishlist k = Some v)
  /\ (List.length out <= List.length wishlist)%nat.
Proof.
  intros Hnd H. apply filter_wishlist_ret in H; [|assumption]. subst out.
  split; [|split].
  - intros k. apply in_keys_filter.
  - intros k v. now apply dict_get_filter.
  - apply filter_length_le.
Qed.

Lemma filter_is_submapping_witness :
  (forall k, In k (dict_keys one_game) -> In k (dict_keys two_games))
  /\ (forall k v, dict_get one_game k = Some v -> dict_get two_games k = Some v)
  /\ (List.length one_game <= List.length two_games)%nat.
Proof.
  apply (filter_is_submapping game_price_args 0 1500 0 [] two_games one_game).
  - exact two_games_keys.
  - reflexivity.
Defined.

(** ** Output *)

Lemma dict_get_set (d : dict) (k k' : string) (v : value) :
  dict_get (dict_set d k v) k' = if String.eqb k' k then Some v else dict_get d k'.
Proof.
  induction d as [|[k0 v0] d IH]; simpl.
  - reflexivity.
  - destruct (String.eqb_spec k k0) as [->|Hne]; simpl.
    + destruct (String.eqb_spec k' k0); reflexivity.
    + rewrite IH. destruct (String.eqb_spec k' k0) as [->|_]; [|reflexivity].
      destruct (String.eqb_spec k0 k); [congruence | reflexivity].
Qed.




Lemma fold_left_dict_set_filter (p : string -> bool) (items : dict) :
  forall acc,
    NoDup (map fst (acc ++ items)%list) ->
    fold_left (fun out kv => if p (fst kv) then dict_set out (fst kv) (snd kv) else out)
      items acc
    = (acc ++ filter (fun kv => p (fst kv)) items)%list.
Proof.
  induction items as [|[k v] items IH]; intros acc Hnd; simpl.
  - now rewrite List.app_nil_r.
  - destruct (p k).
    + rewrite JsonFacts.dict_set_fresh.
      * rewrite IH; now rewrite <- List.app_assoc.
      * rewrite map_app in Hnd. apply NoDup_remove_2 in Hnd.
        intros Hin. apply Hnd, in_or_app. now left.
    + apply IH. rewrite map_app in *. now apply NoDup_remove_1 in Hnd.
Qed.

Lemma filter_all (d : dict) : filter (fun _ : string * value => true) d = d.
Proof. induction d as [|kv d IH]; simpl; [reflexivity | now rewrite IH]. Qed.





Lemma mapM_returns {A B} (f : A -> result B) (l : list A) :
  returns (mapM f l) <-> Forall (fun x => returns (f x)) l.
Proof.
  induction l as [|x l IH]; simpl.
  - split; [constructor | intros _; now eexists].
  - split.
    + intros [ys H]. destruct (f x) as [y|e] eqn:Ex; [|discriminate].
      destruct (mapM f l) as [ys'|e]; [|discriminate].
      constructor; [rewrite Ex; now eexists | apply IH; now eexists].
    + intros H. inversion H as [|? ? [y Hy] Hl]; subst.
      apply IH in Hl as [ys Hys]. rewrite Hy, Hys. now eexists.
Qed.

Lemma mapM_Forall {A B} (f : A -> result B) (P : B -> Prop) (l : list A) (ys : list B) :
  (forall x y, f x = Ret y -> P y) -> mapM f l = Ret ys -> Forall P ys.
Proof.
  intros Hf. revert ys. induction l as [|x l IH]; simpl; intros ys H.
  - injection H as <-. constructor.
  - destruct (f x) as [y|e] eqn:Ex; [|discriminate].
    destruct (mapM f l) as [ys'|e]; [|discriminate].
    injection H as <-. constructor; eauto.
Qed.

Lemma sorter_num (a : args.t) (item : string * value) :
  args.num a = true ->
  sorter a item = (v <- sort_value a item ;; z <- py_int v ;; Ret (KInt z))%exc.
Proof. intros Hnum. unfold sorter. now rewrite Hnum. Qed.

Lemma sorter_num_returns (a : args.t) (item : string * value) :
  args.num a = true -> (returns (sorter a item) <-> int_sort_value a item).
Proof.
  intros Hnum. rewrite sorter_num by assumption. unfold int_sort_value, returns.
  destruct (sort_value a item) as [v|e]; cbn [bind].
  - destruct (py_int v) as [z|e] eqn:Ez; cbn [bind].
    + split; intros _; [exists v, z; split; [reflexivity | exact Ez] | eexists; reflexivity].
    + split; [intros [k H]; discriminate | intros (v' & z & H1 & H2); congruence].
  - split; [intros [k H]; discriminate | intros (v' & z & H1 & H2); discriminate].
Qed.

Lemma sorted_num_returns (a : args.t) (wishlist : dict) :
  args.num a = true ->
  (returns (sorted a wishlist) <-> Forall (int_sort_value a) wishlist).
Proof.
  intros Hnum. unfold sorted. split.
  - intros [out H]. destruct (mapM (sorter a) wishlist) as [keys|e] eqn:E; [|discriminate].
    assert (Hret : returns (mapM (sorter a) wishlist)) by (rewrite E; now eexists).
    apply mapM_returns in Hret. revert Hret. apply Forall_impl.
    intros item. now apply sorter_num_returns.
  - intros Hall.
    assert (Hret : returns (mapM (sorter a) wishlist)).
    { apply mapM_returns. revert Hall. apply Forall_impl.
      intros item. now apply sorter_num_returns. }
    destruct Hret as [keys Hkeys]. rewrite Hkeys. cbn [bind].
    assert (Hint : forallb is_int_key keys = true).
    { apply forallb_forall. apply Forall_forall.
      apply (mapM_Forall (sorter a) _ wishlist keys); [|exact Hkeys].
      intros x y. rewrite sorter_num by assumption.
      destruct (sort_value a x) as [v|]; [|discriminate]. cbn [bind].
      destruct (py_int v); [|discriminate]. cbn [bind]. now intros [= <-]. }
    rewrite Hint. now eexists.
Qed.

(** C10 (amended): in CSV mode with [--num] the key of every item is
    [int] of its sort value, so [sorted] returns exactly when [int]
    accepts the sort value of every item, and the output stage returns
    only then.  A wishlist with one sort value that is not numeric fails
    with [ValueError] under [--num], where without [--num] it would have
    gone on to the comparison of the keys. *)
Theorem numeric_sort_converts_every_value
    (csv_writerow : string -> string -> list value -> result string)
    (a : args.t) (wishlist : dict) (w : world) :
  args.num a = true -> args.csv a = true ->
  (returns (sorted a wishlist) <-> Forall (int_sort_value a) wishlist)
  /\ (fst (write_output csv_writerow a wishlist w) = Ret tt ->
      Forall (int_sort_value a) wishlist)
  /\ sorted csv_num_args added_wishlist = Raise ValueError
  /\ fst (write_output csv_writerow csv_num_args added_wishlist w) = Raise ValueError
  /\ mapM (sorter csv_args) added_wishlist = Ret [KInt 1700000000; KStr "abc"].
Proof.
  intros Hnum Hcsv. split; [now apply sorted_num_returns|].
  split; [|repeat split; reflexivity].
  unfold write_output, io_bind, io_lift. rewrite Hcsv. cbn [negb].
  intros H. apply sorted_num_returns; [assumption|].
  destruct (sorted a wishlist) as [items|e]; [now eexists | discriminate].
Qed.

Lemma numeric_sort_converts_every_value_witness :
  (returns (sorted csv_num_args added_wishlist) <-> Forall (int_sort_value csv_num_args) added_wishlist)
  /\ (fst (write_output (fun _ _ _ => Ret EmptyString) csv_num_args added_wishlist empty_world) = Ret tt ->
      Forall (int_sort_value csv_num_args) added_wishlist)
  /\ sorted csv_num_args added_wishlist = Raise ValueError
  /\ fst (write_output (fun _ _ _ => Ret EmptyString) csv_num_args added_wishlist empty_world)
     = Raise ValueError
  /\ mapM (sorter csv_args) added_wishlist = Ret [KInt 1700000000; KStr "abc"].
Proof.
  apply (numeric_sort_converts_every_value (fun _ _ _ => Ret EmptyString)
           csv_num_args added_wishlist empty_world); reflexivity.
Defined.

(** C10 as stated fails: the sort value [-5], a string that is neither an
    integer nor made of digits only, is converted and the sort succeeds. *)
Lemma signed_string_sorts_numerically :
  sort_value csv_num_args ("10", VDict [("added", VStr "-5")]) = Ret (VStr "-5")
  /\ int_or_digits (VStr "-5") = false
  /\ sorted csv_num_args signed_wishlist = Ret signed_wishlist
  /\ write_output (fun _ _ row => Ret (Py.join "," (map py_str row) ++ nl))
       csv_num_args signed_wishlist empty_world
     = (Ret tt, {| files := []; stdout := "10" ++ nl; stderr := EmptyString |}).
Proof. repeat split; reflexivity. Qed.

(** ** The streams and the files of a run *)

Section Stages.

Variable R : world -> world -> Prop.
Hypothesis R_refl : forall w, R w w.
Hypothesis R_trans : forall w1 w2 w3, R w1 w2 -> R w2 w3 -> R w1 w3.

Lemma always_ret {A} (x : A) : always R (io_ret x).
Proof. intros w. apply R_refl. Qed.

Lemma always_raise {A} (e : exn) : always R (@io_raise A e).
Proof. intros w. apply R_refl. Qed.

Lemma always_lift {A} (m : result A) : always R (io_lift m).
Proof. intros w. apply R_refl. Qed.

Lemma always_bind {A B} (m : io A) (k : A -> io B) :
  always R m -> (forall x, always R (k x)) -> always R (io_bind m k).
Proof.
  intros Hm Hk w. unfold io_bind. specialize (Hm w).
  destruct (m w) as [[x|e] w1]; cbn [snd] in *.
  - eapply R_trans; [exact Hm | apply Hk].
  - exact Hm.
Qed.

Lemma always_on_return {A} (m : io A) : always R m -> on_return R m.
Proof. intros H w x w' E. specialize (H w). now rewrite E in H. Qed.

Lemma on_return_bind {A B} (m : io A) (k : A -> io B) :
  on_return R m -> (forall x, on_return R (k x)) -> on_return R (io_bind m k).
Proof.
  intros Hm Hk w y w' E. unfold io_bind in E.
  destruct (m w) as [[x|e] w1] eqn:Em; [|discriminate].
  eapply R_trans; [eapply Hm, Em | eapply Hk, E].
Qed.

Lemma on_return_raise {A} (e : exn) : on_return R (@io_raise A e).
Proof. intros w x w' E. discriminate. Qed.

Lemma always_urlopen (net : network) (req : Request) : always R (urlopen net req).
Proof. unfold urlopen. destruct (net req); intros w; apply R_refl. Qed.

Lemma always_read_file (path : string) : always R (read_file path).
Proof. intros w. unfold read_file. destruct (file_lookup _ _); apply R_refl. Qed.

End Stages.

Section ProgramStages.

Variable net : network.
Variable help_text : string.
Variable csv_writerow : string -> string -> list value -> result string.
Variable a : args.t.

Variable R : world -> world -> Prop.
Hypothesis R_refl : forall w, R w w.
Hypothesis R_trans : forall w1 w2 w3, R w1 w2 -> R w2 w3 -> R w1 w3.
Hypothesis R_progress : forall msg, always R (progress a msg).

Lemma always_fetch_prices (todo : list (list string)) :
  forall count wishlist, always R (fetch_prices net a count todo wishlist).
Proof.
  induction todo as [|batch todo IH]; intros count wishlist; cbn [fetch_prices].
  - now apply always_ret.
  - apply always_bind; [assumption|apply R_progress|intros _].
    apply always_bind; [assumption|now apply always_urlopen|intros body].
    destruct (Json.loads body) as [json_obj|]; [|now apply always_raise].
    apply always_bind; [assumption|now apply always_lift|intros response].
    apply always_bind; [assumption|now apply always_lift|intros wishlist'].
    apply IH.
Qed.

Lemma always_get_prices (wishlist : value) : always R (get_prices net a wishlist).
Proof.
  unfold get_prices.
  apply always_bind; [assumption|now apply always_lift|intros [|]].
  - apply always_bind; [assumption|now apply always_lift|intros items].
    apply always_bind; [assumption|apply always_fetch_prices|intros items'].
    now apply always_ret.
  - now apply always_ret.
Qed.

Lemma always_load_filter_lists (names : list string) :
  always R (load_filter_lists net a names).
Proof.
  induction names as [|tl names IH]; cbn [load_filter_lists].
  - now apply always_ret.
  - apply always_bind; [assumption|apply R_progress|intros _].
    apply always_bind; [assumption|now apply always_urlopen|intros body].
    apply always_bind; [assumption|exact IH|intros rest].
    now apply always_ret.
Qed.

Lemma always_load_snapshot (path : string) : always R (load_snapshot path).
Proof.
  unfold load_snapshot.
  apply always_bind; [assumption|now apply always_read_file|intros text].
  destruct (Json.loads text); [now apply always_ret | now apply always_raise].
Qed.

Lemma integer_on_return (val : option string) (name : string) (max : option Z) :
  on_return R (integer val name max).
Proof.
  intros w x w' E.
  destruct (integer_returns_or_exits val name max w) as [[v Hv]|Hv];
    rewrite Hv in E; [|discriminate].
  injection E as _ <-. apply R_refl.
Qed.

Lemma resolve_numbers_on_return : on_return R (resolve_numbers a).
Proof.
  unfold resolve_numbers, wanted_discount, wanted_price, wanted_deck_rating.
  apply on_return_bind; [assumption|apply integer_on_return|intros wd].
  apply on_return_bind; [assumption|apply integer_on_return|intros wp].
  apply on_return_bind; [assumption|apply integer_on_return|intros wk].
  apply always_on_return, always_ret; assumption.
Qed.

Lemma fetch_loop_on_return (fuel : nat) :
  forall page wishlist w d w',
    fetch_loop net a fuel page wishlist w = Some (Ret d, w') -> R w w'.
Proof.
  induction fuel as [|fuel IH]; intros page wishlist w d w' E; [discriminate|].
  cbn [fetch_loop] in E.
  pose proof (R_progress ("Fetching wishlist page " ++ Py.str_of_int (page + 1 + 1) ++ nl) w)
    as Hp.
  destruct (net (page_request a (page + 1))) as [body|code|]; [|discriminate..].
  destruct (Json.loads body) as [[| | | | |[|kv items]]|]; try discriminate;
    try (injection E as _ <-; exact Hp).
  eapply R_trans; [exact Hp | eapply IH, E].
Qed.

Lemma get_wishlist_on_return (fuel : nat) (w w' : world) (wishlist : value) :
  get_wishlist net help_text a fuel w = Some (Ret wishlist, w') -> R w w'.
Proof.
  unfold get_wishlist. destruct (given (args.load a)).
  - intros E. injection E as E. pose proof (always_load_snapshot (the_str (args.load a)) w) as H.
    now rewrite E in H.
  - destruct (negb (given (args.userid a))).
    + unfold io_bind, pe, io_raise. discriminate.
    + destruct (fetch_loop net a fuel (-1) [] w) as [[[d|e] w1]|] eqn:E; try discriminate.
      intros [= _ <-]. eapply fetch_loop_on_return, E.
Qed.

Lemma process_split (numbers : Z * Z * Z) (wishlist : value) (w w' : world)
    (r : result unit) :
  (forall wl, always R (save_snapshot a wl)) ->
  process net csv_writerow a numbers wishlist w = (r, w') ->
  (exists e, r = Raise e /\ R w w')
  \/ (exists filtered w1, R w w1 /\ write_output csv_writerow a filtered w1 = (r, w')).
Proof.
  intros R_save. destruct numbers as [[wd wp] wk]. unfold process, io_bind, io_lift.
  pose proof (always_get_prices wishlist w) as H1.
  destruct (get_prices net a wishlist w) as [[wl1|e] w1]; cbn [snd] in H1;
    [|intros [= <- <-]; left; eauto].
  pose proof (R_save wl1 w1) as H2.
  destruct (save_snapshot a wl1 w1) as [[[]|e] w2]; cbn [snd] in H2;
    [|intros [= <- <-]; left; eauto].
  pose proof (always_load_filter_lists (to_load a) w2) as H3.
  destruct (load_filter_lists net a (to_load a) w2) as [[lists|e] w3]; cbn [snd] in H3;
    [|intros [= <- <-]; left; eauto 6].
  assert (H : R w w3) by eauto.
  destruct (py_items wl1) as [items|e]; [|intros [= <- <-]; left; eauto].
  destruct (filter_wishlist a wd wp wk lists items) as [filtered|e];
    [|intros [= <- <-]; left; eauto].
  intros E. right. eauto.
Qed.

(** What [pe] writes does not matter to [R]. *)
Hypothesis R_pe : forall msg, always R (pe msg).

Lemma always_integer (val : option string) (name : string) (max : option Z) :
  always R (integer val name max).
Proof.
  intros w.
  destruct (integer_returns_or_exits val name max w) as [[v Hv]|Hv]; rewrite Hv.
  - apply R_refl.
  - apply (R_pe (integer_err name max ++ nl) w).
Qed.

Lemma always_resolve_numbers : always R (resolve_numbers a).
Proof.
  unfold resolve_numbers, wanted_discount, wanted_price, wanted_deck_rating.
  apply always_bind; [assumption|apply always_integer|intros wd].
  apply always_bind; [assumption|apply always_integer|intros wp].
  apply always_bind; [assumption|apply always_integer|intros wk].
  now apply always_ret.
Qed.

Lemma fetch_loop_always (fuel : nat) :
  forall page wishlist w r w',
    fetch_loop net a fuel page wishlist w = Some (r, w') -> R w w'.
Proof.
  induction fuel as [|fuel IH]; intros page wishlist w r w' E; [discriminate|].
  cbn [fetch_loop] in E.
  pose proof (R_progress ("Fetching wishlist page " ++ Py.str_of_int (page + 1 + 1) ++ nl) w)
    as Hp.
  destruct (net (page_request a (page + 1))) as [body|code|].
  - destruct (Json.loads body) as [[| | | | |[|kv items]]|];
      try (injection E as _ <-; exact Hp).
    eapply R_trans; [exact Hp | eapply IH, E].
  - injection E as _ <-. eapply R_trans; [exact Hp|].
    rewrite fetch_failed_spec. cbn [snd]. apply (R_pe (fetch_hint a)).
  - injection E as _ <-. exact Hp.
Qed.

Lemma get_wishlist_always (fuel : nat) (w w' : world) (r : result value) :
  get_wishlist net help_text a fuel w = Some (r, w') -> R w w'.
Proof.
  unfold get_wishlist. destruct (given (args.load a)).
  - intros E. injection E as E. pose proof (always_load_snapshot (the_str (args.load a)) w) as H.
    now rewrite E in H.
  - destruct (negb (given (args.userid a))).
    + intros E.
      assert (Hmsg : always R (pe ("Missing <userid> or --load" ++ nl ++ nl) ;;;
                            pe help_text ;;; @io_raise value (SystemExit 1))%io).
      { apply always_bind; [assumption|apply R_pe|intros _].
        apply always_bind; [assumption|apply R_pe|intros _].
        now apply always_raise. }
      specialize (Hmsg w). injection E as _ <-. exact Hmsg.
    + destruct (fetch_loop net a fuel (-1) [] w) as [[[d|e] w1]|] eqn:E; try discriminate;
        intros [= _ <-]; eapply fetch_loop_always, E.
Qed.

End ProgramStages.

(** ** The three streams *)

Lemma same_stdout_refl w : same_stdout w w.
Proof. reflexivity. Qed.
Lemma same_stdout_trans w1 w2 w3 : same_stdout w1 w2 -> same_stdout w2 w3 -> same_stdout w1 w3.
Proof. unfold same_stdout. congruence. Qed.
Lemma same_stderr_refl w : same_stderr w w.
Proof. reflexivity. Qed.
Lemma same_stderr_trans w1 w2 w3 : same_stderr w1 w2 -> same_stderr w2 w3 -> same_stderr w1 w3.
Proof. unfold same_stderr. congruence. Qed.
Lemma same_files_refl w : same_files w w.
Proof. reflexivity. Qed.
Lemma same_files_trans w1 w2 w3 : same_files w1 w2 -> same_files w2 w3 -> same_files w1 w3.
Proof. unfold same_files. congruence. Qed.

Lemma pe_same_stdout (msg : string) : always same_stdout (pe msg).
Proof. intros w. reflexivity. Qed.
Lemma pe_same_files (msg : string) : always same_files (pe msg).
Proof. intros w. reflexivity. Qed.

Lemma progress_same_stdout (a : args.t) (msg : string) : always same_stdout (progress a msg).
Proof. intros w. rewrite progress_spec. reflexivity. Qed.
Lemma progress_same_files (a : args.t) (msg : string) : always same_files (progress a msg).
Proof. intros w. rewrite progress_spec. reflexivity. Qed.
Lemma progress_quiet (a : args.t) (msg : string) :
  args.quiet a = true -> always same_stderr (progress a msg).
Proof.
  intros Hq w. rewrite progress_spec, Hq. cbn [snd]. now rewrite with_stderr_nil.
Qed.

Lemma save_same_stdout (a : args.t) (wl : value) : always same_stdout (save_snapshot a wl).
Proof. intros w. unfold save_snapshot. now destruct (given (args.save a)). Qed.
Lemma save_same_stderr (a : args.t) (wl : value) : always same_stderr (save_snapshot a wl).
Proof. intros w. unfold save_snapshot. now destruct (given (args.save a)). Qed.

Lemma csv_rows_streams
    (csv_writerow : string -> string -> list value -> result string) (a : args.t)
    (todo : dict) (w : world) :
  stderr (snd (csv_rows csv_writerow a todo w)) = stderr w
  /\ files (snd (csv_rows csv_writerow a todo w)) = files w.
Proof.
  revert w. induction todo as [|[g f] todo IH]; intros w; cbn [csv_rows].
  - split; reflexivity.
  - unfold io_bind, io_lift.
    destruct (mapM (csv_field g f) (csv_fields a)) as [row|e]; [|split; reflexivity].
    destruct (csv_writerow (args.separator a) (args.quote a) row) as [line|e];
      [|split; reflexivity].
    cbn [write_stdout]. destruct (IH {| files := files w; stdout := stdout w ++ line;
                                        stderr := stderr w |}) as [H1 H2].
    split; assumption.
Qed.

Lemma write_output_streams
    (csv_writerow : string -> string -> list value -> result string) (a : args.t)
    (wishlist : dict) (w : world) :
  stderr (snd (write_output csv_writerow a wishlist w)) = stderr w
  /\ files (snd (write_output csv_writerow a wishlist w)) = files w.
Proof.
  unfold write_output, io_bind, io_lift. destruct (args.csv a); cbn [negb].
  - destruct (sorted a wishlist) as [items|e]; [apply csv_rows_streams | split; reflexivity].
  - destruct (json_output a wishlist) as [output|e]; split; reflexivity.
Qed.

(** X1: in JSON mode nothing reaches standard output before the run is over:
    a run that fails has printed nothing, a run that succeeds has printed
    one JSON document and a line end. *)
Theorem json_mode_prints_at_the_end
    (net : network) (help_text : string)
    (csv_writerow : string -> string -> list value -> result string)
    (a : args.t) (fuel : nat) (w w' : world) (r : result unit) :
  args.csv a = false ->
  main net help_text csv_writerow a fuel w = Some (r, w') ->
  match r with
  | Raise _ => stdout w' = stdout w
  | Ret _ => exists output, stdout w' = stdout w ++ JsonPretty.dumps (VDict output) ++ nl
  end.
Proof.
  intros Hcsv. unfold main.
  pose proof (always_resolve_numbers a same_stdout same_stdout_refl same_stdout_trans
                pe_same_stdout w) as H1.
  destruct (resolve_numbers a w) as [[numbers|e] w1]; cbn [snd] in H1;
    [|intros [= <- <-]; exact H1].
  destruct (get_wishlist net help_text a fuel w1) as [[[wishlist|e] w2]|] eqn:E2;
    [| |discriminate].
  2:{ intros [= <- <-].
      eapply same_stdout_trans; [exact H1|].
      eapply (get_wishlist_always net help_text a same_stdout same_stdout_refl
                same_stdout_trans (progress_same_stdout a) pe_same_stdout), E2. }
  assert (H2 : same_stdout w w2).
  { eapply same_stdout_trans; [exact H1|].
    eapply (get_wishlist_always net help_text a same_stdout same_stdout_refl
              same_stdout_trans (progress_same_stdout a) pe_same_stdout), E2. }
  intros [= E].
  apply (process_split net csv_writerow a same_stdout same_stdout_refl same_stdout_trans
           (progress_same_stdout a)) in E; [|apply save_same_stdout].
  destruct E as [(e & -> & H3)|(filtered & w3 & H3 & E)].
  - eapply same_stdout_trans; eassumption.
  - assert (H4 : same_stdout w w3) by (eapply same_stdout_trans; eassumption).
    unfold write_output, io_bind, io_lift in E. rewrite Hcsv in E. cbn [negb] in E.
    destruct (json_output a filtered) as [output|e].
    + injection E as <- <-. exists output. cbn [stdout]. now rewrite H4.
    + injection E as <- <-. exact H4.
Qed.

Lemma json_mode_prints_at_the_end_witness :
  exists output,
    stdout {| files := files foo_world;
              stdout := JsonPretty.dumps (VDict foo_output) ++ nl;
              stderr := EmptyString |}
    = stdout foo_world ++ JsonPretty.dumps (VDict output) ++ nl.
Proof.
  apply (json_mode_prints_at_the_end (fun _ => HttpFail 404) EmptyString
           (fun _ _ _ => Ret EmptyString) name_link_args 0 foo_world _ (Ret tt));
    reflexivity.
Defined.

Lemma other_files_refl path w : other_files path w w.
Proof. intros p _. reflexivity. Qed.
Lemma other_files_trans path w1 w2 w3 :
  other_files path w1 w2 -> other_files path w2 w3 -> other_files path w1 w3.
Proof. intros H1 H2 p Hp. rewrite H2, H1; auto. Qed.

Lemma file_lookup_store_other (fs : list (string * string)) (path content p : string) :
  p <> path -> file_lookup (file_store fs path content) p = file_lookup fs p.
Proof.
  intros Hp. induction fs as [|[q c] fs IH]; simpl.
  - destruct (String.eqb_spec p path); [contradiction | reflexivity].
  - destruct (String.eqb_spec path q) as [->|Hne]; simpl.
    + destruct (String.eqb_spec p q); [contradiction | reflexivity].
    + destruct (String.eqb_spec p q); [reflexivity | exact IH].
Qed.

Lemma same_files_other path w w' : same_files w w' -> other_files path w w'.
Proof. intros H p _. now rewrite H. Qed.

Lemma save_other_files (a : args.t) (wl : value) :
  always (other_files (the_str (args.save a))) (save_snapshot a wl).
Proof.
  intros w. unfold save_snapshot. destruct (given (args.save a)).
  - intros p Hp. cbn. now apply file_lookup_store_other.
  - apply other_files_refl.
Qed.

Lemma save_not_given (a : args.t) (wl : value) :
  given (args.save a) = false -> always same_files (save_snapshot a wl).
Proof. intros H w. unfold save_snapshot. now rewrite H. Qed.

Section Files.

Variable net : network.
Variable help_text : string.
Variable csv_writerow : string -> string -> list value -> result string.
Variable a : args.t.

Variable R : world -> world -> Prop.
Hypothesis R_refl : forall w, R w w.
Hypothesis R_trans : forall w1 w2 w3, R w1 w2 -> R w2 w3 -> R w1 w3.
Hypothesis R_files : forall w w', same_files w w' -> R w w'.
Hypothesis R_save : forall wl, always R (save_snapshot a wl).

Lemma main_files (fuel : nat) (w w' : world) (r : result unit) :
  main net help_text csv_writerow a fuel w = Some (r, w') -> R w w'.
Proof.
  assert (Hpe : forall msg, always R (pe msg)) by (intros msg w0; now apply R_files).
  assert (Hpr : forall msg, always R (progress a msg)).
  { intros msg w0. apply R_files. apply progress_same_files. }
  unfold main.
  pose proof (always_resolve_numbers a R R_refl R_trans Hpe w) as H1.
  destruct (resolve_numbers a w) as [[numbers|e] w1]; cbn [snd] in H1;
    [|intros [= <- <-]; exact H1].
  destruct (get_wishlist net help_text a fuel w1) as [[rw w2]|] eqn:E2; [|discriminate].
  assert (H2 : R w w2).
  { eapply R_trans; [exact H1|].
    eapply (get_wishlist_always net help_text a R R_refl R_trans Hpr Hpe), E2. }
  destruct rw as [wishlist|e]; [|intros [= <- <-]; exact H2].
  intros [= E].
  apply (process_split net csv_writerow a R R_refl R_trans Hpr) in E; [|exact R_save].
  destruct E as [(e & -> & H3)|(filtered & w3 & H3 & E)].
  - eapply R_trans; eassumption.
  - eapply R_trans; [exact H2|]. eapply R_trans; [exact H3|].
    apply R_files. unfold same_files.
    pose proof (write_output_streams csv_writerow a filtered w3) as [_ Hf].
    now rewrite E in Hf.
Qed.

End Files.

(** X2: the only file a run writes is the one named by [--save]: without
    [--save] the files are as they were, with it every other path is. *)
Theorem only_save_writes_files
    (net : network) (help_text : string)
    (csv_writerow : string -> string -> list value -> result string)
    (a : args.t) (fuel : nat) (w w' : world) (r : result unit) :
  main net help_text csv_writerow a fuel w = Some (r, w') ->
  (given (args.save a) = false -> files w' = files w)
  /\ (forall p, p <> the_str (args.save a) ->
                file_lookup (files w') p = file_lookup (files w) p).
Proof.
  intros E. split.
  - intros Hsave.
    apply (main_files net help_text csv_writerow a same_files same_files_refl
             same_files_trans (fun _ _ H => H)
             (fun wl => save_not_given a wl Hsave) fuel w w' r E).
  - apply (main_files net help_text csv_writerow a (other_files (the_str (args.save a)))
             (other_files_refl _) (other_files_trans _) (same_files_other _)
             (save_other_files a) fuel w w' r E).
Qed.

Lemma only_save_writes_files_witness :
  (given (args.save save_args) = false -> files saved_world = files empty_world)
  /\ (forall p, p <> the_str (args.save save_args) ->
                file_lookup (files saved_world) p = file_lookup (files empty_world) p).
Proof.
  apply (only_save_writes_files ended_net EmptyString no_writer save_args 3
           empty_world saved_world (Ret tt)).
  vm_compute. reflexivity.
Defined.

(** X3: with [--quiet] a run that succeeds has written nothing to the error
    stream. *)
Theorem quiet_success_is_silent
    (net : network) (help_text : string)
    (csv_writerow : string -> string -> list value -> result string)
    (a : args.t) (fuel : nat) (w w' : world) :
  args.quiet a = true ->
  main net help_text csv_writerow a fuel w = Some (Ret tt, w') ->
  stderr w' = stderr w.
Proof.
  intros Hq. unfold main.
  destruct (resolve_numbers a w) as [[numbers|e] w1] eqn:E1; [|discriminate].
  apply (resolve_numbers_on_return a same_stderr same_stderr_refl same_stderr_trans) in E1.
  destruct (get_wishlist net help_text a fuel w1) as [[[wishlist|e] w2]|] eqn:E2;
    try discriminate.
  apply (get_wishlist_on_return net help_text a same_stderr same_stderr_refl
           same_stderr_trans (fun msg => progress_quiet a msg Hq)) in E2.
  intros [= E].
  apply (process_split net csv_writerow a same_stderr same_stderr_refl same_stderr_trans
           (fun msg => progress_quiet a msg Hq)) in E; [|apply save_same_stderr].
  destruct E as [(e & He & _)|(filtered & w3 & H3 & E)]; [discriminate|].
  pose proof (write_output_streams csv_writerow a filtered w3) as [Hs _].
  rewrite E in Hs. cbn [snd] in Hs. unfold same_stderr in *. congruence.
Qed.

Lemma quiet_success_is_silent_witness : stderr quiet_world = stderr empty_world.
Proof.
  apply (quiet_success_is_silent ended_net EmptyString no_writer quiet_args 3
           empty_world quiet_world).
  - reflexivity.
  - vm_compute. reflexivity.
Defined.

(** ** Dictionaries *)

Lemma dict_keys_set (d : dict) (k : string) (v : value) :
  dict_keys (dict_set d k v)
  = if dict_has d k then dict_keys d else (dict_keys d ++ [k])%list.
Proof.
  unfold dict_keys, dict_has. induction d as [|[k' v'] d IH]; simpl; [reflexivity|].
  destruct (String.eqb_spec k k') as [->|Hne]; simpl; [reflexivity|].
  rewrite IH. now destruct (dict_get d k).
Qed.

Lemma dict_has_in_keys (d : dict) (k : string) :
  dict_has d k = true <-> In k (dict_keys d).
Proof.
  unfold dict_has, dict_keys. induction d as [|[k' v'] d IH]; simpl.
  - split; [discriminate | tauto].
  - destruct (String.eqb_spec k k') as [->|Hne].
    + split; auto.
    + rewrite IH. split; [auto | intros [E|H]; [congruence | exact H]].
Qed.

Lemma NoDup_keys_set (d : dict) (k : string) (v : value) :
  NoDup (dict_keys d) -> NoDup (dict_keys (dict_set d k v)).
Proof.
  intros Hnd. rewrite dict_keys_set. destruct (dict_has d k) eqn:E; [assumption|].
  apply NoDup_app; [assumption | repeat constructor; simpl; tauto |].
  intros x Hin [<-|[]]. apply dict_has_in_keys in Hin. congruence.
Qed.

Lemma NoDup_keys_update (pairs d : dict) :
  NoDup (dict_keys d) -> NoDup (dict_keys (dict_update d pairs)).
Proof.
  unfold dict_update. revert d. induction pairs as [|[k v] pairs IH]; intros d Hnd; simpl.
  - assumption.
  - apply IH. now apply NoDup_keys_set.
Qed.

Lemma dict_get_app (d1 d2 : dict) (k : string) :
  dict_get (d1 ++ d2)%list k
  = match dict_get d1 k with Some v => Some v | None => dict_get d2 k end.
Proof.
  induction d1 as [|[k' v'] d1 IH]; simpl; [reflexivity|].
  now destruct (String.eqb k k').
Qed.

(** ** Merging pages (lines 236-237) *)

Lemma dict_keys_set_prefix (d : dict) (k : string) (v : value) :
  exists extra, dict_keys (dict_set d k v) = (dict_keys d ++ extra)%list.
Proof.
  rewrite dict_keys_set. destruct (dict_has d k).
  - exists []. now rewrite List.app_nil_r.
  - now exists [k].
Qed.

Lemma dict_update_keys_prefix (pairs d : dict) :
  exists extra, dict_keys (dict_update d pairs) = (dict_keys d ++ extra)%list.
Proof.
  unfold dict_update. revert d.
  induction pairs as [|[k0 v0] pairs IH]; intros d; cbn [fold_left fst snd].
  - exists []. now rewrite List.app_nil_r.
  - destruct (IH (dict_set d k0 v0)) as [extra Hkeys].
    destruct (dict_keys_set_prefix d k0 v0) as [extra0 E0].
    exists (extra0 ++ extra)%list. now rewrite Hkeys, E0, List.app_assoc.
Qed.

(** X4: merging the items of a page into the wishlist: an id the page repeats
    gets the entry of the page (the last one, should the items repeat it),
    every other id keeps its entry; the ids already there keep their
    places and new ids follow them. *)
Theorem merge_overwrites_by_key (pairs d : dict) :
  (forall k,
      dict_get (dict_update d pairs) k
      = match dict_get (List.rev pairs) k with
        | Some v => Some v
        | None => dict_get d k
        end)
  /\ exists extra, dict_keys (dict_update d pairs) = (dict_keys d ++ extra)%list.
Proof.
  split; [|apply dict_update_keys_prefix].
  unfold dict_update. revert d.
  induction pairs as [|[k0 v0] pairs IH]; intros d k; cbn [fold_left fst snd List.rev].
  - reflexivity.
  - rewrite IH, dict_get_app, dict_get_set. cbn [dict_get].
    destruct (dict_get (List.rev pairs) k); [reflexivity|].
    now destruct (String.eqb k k0).
Qed.

(** ** The fetched wishlist *)

Section Fetched.

Variable net : network.
Variable a : args.t.

Lemma fetch_loop_NoDup (fuel : nat) :
  forall page acc w d w',
    NoDup (dict_keys acc) ->
    fetch_loop net a fuel page acc w = Some (Ret d, w') ->
    NoDup (dict_keys d).
Proof.
  induction fuel as [|fuel IH]; intros page acc w d w' Hnd E; [discriminate|].
  cbn [fetch_loop] in E.
  destruct (net (page_request a (page + 1))) as [body|code|]; [|discriminate..].
  destruct (Json.loads body) as [[| | | | |[|kv items]]|]; try discriminate;
    try (injection E as <- _; exact Hnd).
  eapply IH; [|exact E]. now apply NoDup_keys_update.
Qed.

(** X5: the loop never ends by itself: as long as every page answers with a
    non-empty mapping it asks for the next one, whatever the fuel. *)
Theorem fetch_loop_has_no_page_limit (fuel : nat) :
  (forall page, exists body kv items,
      net (page_request a page) = HttpBody body
      /\ Json.loads body = Some (VDict (kv :: items))) ->
  forall page acc w, fetch_loop net a fuel page acc w = None.
Proof.
  intros Hnet. induction fuel as [|fuel IH]; intros page acc w; [reflexivity|].
  cbn [fetch_loop]. destruct (Hnet (page + 1)) as (body & kv & items & -> & ->).
  apply IH.
Qed.

End Fetched.

Lemma fetch_loop_has_no_page_limit_witness :
  fetch_loop endless_net fetch_args 5 (-1) [] empty_world = None.
Proof.
  apply (fetch_loop_has_no_page_limit endless_net fetch_args 5).
  intros page. exists (Json.dumps (VDict first_page)), ("10", VDict [("name", VStr "Foo")]), [].
  split; reflexivity.
Defined.

(** X6: in fetch mode the wishlist that comes back is a mapping with distinct
    ids, whatever the pages held. *)
Theorem fetched_wishlist_has_distinct_ids
    (net : network) (help_text : string) (a : args.t) (fuel : nat)
    (w w' : world) (wishlist : value) :
  given (args.load a) = false ->
  get_wishlist net help_text a fuel w = Some (Ret wishlist, w') ->
  exists d, wishlist = VDict d /\ NoDup (dict_keys d).
Proof.
  intros Hload. unfold get_wishlist. rewrite Hload.
  destruct (negb (given (args.userid a))); [discriminate|].
  destruct (fetch_loop net a fuel (-1) [] w) as [[[d|e] w1]|] eqn:E; try discriminate.
  intros [= <- _]. exists d. split; [reflexivity|].
  eapply fetch_loop_NoDup; [|exact E]. constructor.
Qed.

Lemma fetched_wishlist_has_distinct_ids_witness :
  exists d, VDict first_page = VDict d /\ NoDup (dict_keys d).
Proof.
  apply (fetched_wishlist_has_distinct_ids ended_net EmptyString fetch_args 3
           empty_world fetched_world (VDict first_page)).
  - reflexivity.
  - vm_compute. reflexivity.
Defined.

(** ** The filtered wishlist *)

Lemma filter_loop_NoDup
    (a : args.t) (wd wp wk : Z) (lists : list (list string)) (todo : dict) :
  forall filtered out,
    NoDup (dict_keys filtered) ->
    filter_loop a wd wp wk lists todo filtered = Ret out ->
    NoDup (dict_keys out).
Proof.
  induction todo as [|[g f] todo IH]; intros filtered out Hnd E; cbn [filter_loop] in E.
  - now injection E as <-.
  - destruct (filter_game a wd wp wk lists g f) as [[|]|e]; [| |discriminate].
    + eapply IH; [|exact E]. now apply NoDup_keys_set.
    + eapply IH; eassumption.
Qed.

Section FilterFacts.

Variable a : args.t.
Variables wd wp wk : Z.
Variable lists : list (list string).

Lemma list_filter_false (gameid : string) (l : list (list string)) :
  fold_left (fun acc filter_list => acc && Py.str_in gameid filter_list) l false = false.
Proof. induction l as [|x l IH]; simpl; auto. Qed.

Lemma list_filter_true (gameid : string) (l : list (list string)) (g : bool) :
  fold_left (fun acc filter_list => acc && Py.str_in gameid filter_list) l g = true ->
  g = true /\ Forall (fun filter_list => In gameid filter_list) l.
Proof.
  revert g. induction l as [|x l IH]; simpl; intros g H.
  - split; [assumption | constructor].
  - apply IH in H as [H1 H2]. apply andb_true_iff in H1 as [Hg Hx].
    split; [assumption|]. constructor; [now apply str_in_In | assumption].
Qed.

Lemma flag_filter_false (flag : bool) (key : string) (want : bool) (fields : value) (b : bool) :
  flag_filter flag key want fields false = Ret b -> b = false.
Proof.
  unfold flag_filter. destruct flag; [|congruence].
  destruct (py_get fields key (VBool false)) as [v|e]; cbn [bind]; [|discriminate].
  destruct (Bool.eqb (truthy v) want); congruence.
Qed.

Lemma flag_filters_opposite (f1 f2 : bool) (key : string) (fields : value) (g b1 b2 : bool) :
  f1 && f2 = true ->
  flag_filter f1 key true fields g = Ret b1 ->
  flag_filter f2 key false fields b1 = Ret b2 ->
  b2 = false.
Proof.
  intros Hf. apply andb_true_iff in Hf as [-> ->]. unfold flag_filter.
  destruct (py_get fields key (VBool false)) as [v|e]; cbn [bind]; [|discriminate].
  destruct (truthy v); cbn [Bool.eqb]; congruence.
Qed.

Lemma flag_filters_opposite' (f1 f2 : bool) (key : string) (fields : value) (g b1 b2 : bool) :
  f1 && f2 = true ->
  flag_filter f1 key false fields g = Ret b1 ->
  flag_filter f2 key true fields b1 = Ret b2 ->
  b2 = false.
Proof.
  intros Hf. apply andb_true_iff in Hf as [-> ->]. unfold flag_filter.
  destruct (py_get fields key (VBool false)) as [v|e]; cbn [bind]; [|discriminate].
  destruct (truthy v); cbn [Bool.eqb]; congruence.
Qed.

Lemma tag_filter_false (fields : value) : tag_filter a fields false = Ret false.
Proof. reflexivity. Qed.

Lemma number_filter_false (flag : option string) (key : string) (ge : bool) (wanted : Z)
    (fields : value) :
  number_filter flag key ge wanted fields false = Ret false.
Proof. reflexivity. Qed.

Lemma boolean_filters_opposite (fields : value) (b : bool) :
  opposite_flags a = true -> boolean_filters a fields = Ret b -> b = false.
Proof.
  unfold opposite_flags, boolean_filters. intros Hopp.
  destruct (platform_filter a fields) as [g0|]; cbn [bind]; [|discriminate].
  destruct (type_filter a fields g0) as [g1|]; cbn [bind]; [|discriminate].
  destruct (flag_filter (args.free a) "is_free_game" true fields g1) as [g2|] eqn:E2;
    cbn [bind]; [|discriminate].
  destruct (flag_filter (args.no_free a) "is_free_game" false fields g2) as [g3|] eqn:E3;
    cbn [bind]; [|discriminate].
  destruct (flag_filter (args.released a) "prerelease" false fields g3) as [g4|] eqn:E4;
    cbn [bind]; [|discriminate].
  destruct (flag_filter (args.no_released a) "prerelease" true fields g4) as [g5|] eqn:E5;
    cbn [bind]; [|discriminate].
  destruct (flag_filter (args.early a) "early_access" true fields g5) as [g6|] eqn:E6;
    cbn [bind]; [|discriminate].
  intros E7.
  apply orb_true_iff in Hopp as [Hopp|Hopp]; [apply orb_true_iff in Hopp as [Hopp|Hopp]|].
  - assert (g3 = false) by (eapply flag_filters_opposite; eassumption). subst g3.
    apply flag_filter_false in E4. subst g4.
    apply flag_filter_false in E5. subst g5.
    apply flag_filter_false in E6. subst g6.
    now apply flag_filter_false in E7.
  - assert (g5 = false) by (eapply flag_filters_opposite'; eassumption). subst g5.
    apply flag_filter_false in E6. subst g6.
    now apply flag_filter_false in E7.
  - eapply flag_filters_opposite; eassumption.
Qed.

Lemma filter_game_opposite (gameid : string) (fields : value) (b : bool) :
  opposite_flags a = true ->
  filter_game a wd wp wk lists gameid fields = Ret b -> b = false.
Proof.
  intros Hopp. unfold filter_game.
  destruct (boolean_filters a fields) as [g|] eqn:E; cbn [bind]; [|discriminate].
  apply boolean_filters_opposite in E; [|assumption]. subst g.
  rewrite tag_filter_false. cbn [bind].
  repeat (rewrite number_filter_false; cbn [bind]).
  unfold list_filter. rewrite list_filter_false. congruence.
Qed.

Lemma filter_loop_keeps (P : string -> Prop) (todo : dict) :
  (forall g f, filter_game a wd wp wk lists g f = Ret true -> P g) ->
  forall filtered out,
    Forall P (dict_keys filtered) ->
    filter_loop a wd wp wk lists todo filtered = Ret out ->
    Forall P (dict_keys out).
Proof.
  intros HP. induction todo as [|[g f] todo IH]; intros filtered out Hacc E;
    cbn [filter_loop] in E.
  - now injection E as <-.
  - destruct (filter_game a wd wp wk lists g f) as [[|]|e] eqn:Eg; [| |discriminate].
    + eapply IH; [|exact E]. rewrite dict_keys_set.
      destruct (dict_has filtered g); [assumption|].
      apply Forall_app. split; [assumption|]. constructor; [eauto | constructor].
    + eapply IH; eassumption.
Qed.

End FilterFacts.

(** X7: opposite flags leave nothing: with [--free] and [--no-free] together
    (or [--released] and [--no-released], or [--early] and [--no-early])
    the filter stage, when it succeeds, returns the empty wishlist. *)
Theorem opposite_flags_keep_nothing
    (a : args.t) (wd wp wk : Z) (lists : list (list string)) (wishlist out : dict) :
  opposite_flags a = true ->
  filter_wishlist a wd wp wk lists wishlist = Ret out ->
  out = [].
Proof.
  intros Hopp E.
  assert (H : Forall (fun _ => False) (dict_keys out)).
  { refine (filter_loop_keeps a wd wp wk lists (fun _ => False) wishlist _ []
              out (Forall_nil _) E).
    intros g f Hg. apply filter_game_opposite in Hg; [discriminate | assumption]. }
  destruct out as [|[k v] out]; [reflexivity|]. now inversion H.
Qed.

Lemma opposite_flags_keep_nothing_witness :
  filter_wishlist free_no_free_args 0 0 0 [] two_games = Ret []
  /\ @nil (string * value) = [].
Proof.
  split; [reflexivity|].
  apply (opposite_flags_keep_nothing free_no_free_args 0 0 0 [] two_games []).
  - reflexivity.
  - vm_compute. reflexivity.
Defined.

(** X8: a game survives the filter stage only if its id is in every curated
    list that was loaded. *)
Theorem survivors_are_in_every_list
    (a : args.t) (wd wp wk : Z) (lists : list (list string)) (wishlist out : dict) :
  filter_wishlist a wd wp wk lists wishlist = Ret out ->
  forall gameid filter_list,
    In gameid (dict_keys out) -> In filter_list lists -> In gameid filter_list.
Proof.
  intros E gameid filter_list Hin Hl.
  assert (H : Forall (fun g => Forall (fun l => In g l) lists) (dict_keys out)).
  { refine (filter_loop_keeps a wd wp wk lists _ wishlist _ [] out (Forall_nil _) E).
    intros g f Hg. unfold filter_game in Hg.
    destruct (boolean_filters a f) as [g0|]; cbn [bind] in Hg; [|discriminate].
    destruct (tag_filter a f g0) as [g1|]; cbn [bind] in Hg; [|discriminate].
    destruct (number_filter _ _ _ _ f g1) as [g2|]; cbn [bind] in Hg; [|discriminate].
    destruct (number_filter _ _ _ _ f g2) as [g3|]; cbn [bind] in Hg; [|discriminate].
    destruct (number_filter _ _ _ _ f g3) as [g4|]; cbn [bind] in Hg; [|discriminate].
    injection Hg as Hg. now apply list_filter_true in Hg. }
  rewrite Forall_forall in H. specialize (H gameid Hin).
  rewrite Forall_forall in H. now apply H.
Qed.

Lemma survivors_are_in_every_list_witness :
  filter_wishlist args.default 0 0 0 [["10"; "30"]] two_games = Ret one_game
  /\ In "10" ["10"; "30"].
Proof.
  split; [reflexivity|].
  apply (survivors_are_in_every_list args.default 0 0 0 [["10"; "30"]] two_games one_game).
  - vm_compute. reflexivity.
  - simpl. auto.
  - simpl. auto.
Defined.

Lemma kept_without_options (a : args.t) (wd wp wk : Z) (kv : string * value) :
  no_filter_options a = true -> kept a wd wp wk [] kv = true.
Proof.
  unfold no_filter_options. intros Hno.
  repeat (apply andb_true_iff in Hno as [Hno ?]).
  repeat match goal with H : negb _ = true |- _ => apply negb_true_iff in H end.
  destruct kv as [g f]. unfold kept, filter_game, boolean_filters,
    platform_filter, type_filter, flag_filter, tag_filter, number_filter, list_filter.
  cbn [fst snd].
  repeat match goal with H : _ = false |- _ => rewrite H; clear H end.
  reflexivity.
Qed.

(** X9: without any filter option the filter stage returns the wishlist as it
    is, whatever the entries are. *)
Theorem no_filter_is_identity
    (a : args.t) (wd wp wk : Z) (wishlist : dict) :
  no_filter_options a = true ->
  NoDup (dict_keys wishlist) ->
  filter_wishlist a wd wp wk [] wishlist = Ret wishlist.
Proof.
  intros Hno Hnd. unfold filter_wishlist. rewrite filter_loop_all_kept.
  - reflexivity.
  - exact Hnd.
  - apply Forall_forall. intros kv _. now apply kept_without_options.
Qed.

Lemma no_filter_is_identity_witness :
  filter_wishlist args.default 0 0 0 [] two_games = Ret two_games.
Proof.
  apply (no_filter_is_identity args.default 0 0 0 two_games).
  - reflexivity.
  - simpl. repeat constructor; simpl; intuition discriminate.
Defined.

(** X10: the filter stage returns a wishlist with distinct ids. *)
Theorem filtered_wishlist_has_distinct_ids
    (a : args.t) (wd wp wk : Z) (lists : list (list string)) (wishlist out : dict) :
  filter_wishlist a wd wp wk lists wishlist = Ret out -> NoDup (dict_keys out).
Proof. intros E. exact (filter_loop_NoDup a wd wp wk lists wishlist [] out (NoDup_nil _) E). Qed.

Lemma filtered_wishlist_has_distinct_ids_witness : NoDup (dict_keys one_game).
Proof.
  apply (filtered_wishlist_has_distinct_ids game_price_args 0 1500 0 [] two_games one_game).
  vm_compute. reflexivity.
Defined.

(** ** [clean_str] *)

Lemma lower_pairs_stable :
  forallb (fun p => negb (snd p =? 304)%N
                    && match PyStr.assoc (snd p) PyStr.lower_pairs with
                       | None => true
                       | Some _ => false
                       end)
          PyStr.lower_pairs = true.
Proof. vm_compute. reflexivity. Qed.

(** Lower-casing twice is lower-casing once. *)
Lemma lower_lower (c c' : N) :
  c <> 304%N -> PyStr.lower c = [c'] -> c' <> 304%N /\ PyStr.lower c' = [c'].
Proof.
  intros Hc. unfold PyStr.lower at 1. destruct (N.eqb_spec c 304); [contradiction|].
  destruct (PyStr.assoc c PyStr.lower_pairs) as [d|] eqn:E; intros [= <-].
  - apply PyStrFacts.assoc_In in E.
    pose proof lower_pairs_stable as H. rewrite forallb_forall in H.
    specialize (H _ E). cbn [snd] in H. apply andb_true_iff in H as [Hd Hnone].
    apply negb_true_iff, N.eqb_neq in Hd. split; [assumption|].
    unfold PyStr.lower. destruct (N.eqb_spec d 304); [contradiction|].
    now destruct (PyStr.assoc d PyStr.lower_pairs).
  - split; [assumption|]. unfold PyStr.lower.
    destruct (N.eqb_spec c 304); [contradiction|]. now rewrite E.
Qed.

(** X11: on a tag without U+0130, [clean_str] returns alphabetic characters
    only and no more of them than the tag has, and what it returns is left
    unchanged by [clean_str] and by lower-casing.  On U+0130 itself none of
    this holds: the result is longer than the tag, holds the combining dot
    and is cleaned to [i]. *)
Theorem clean_str_is_a_normal_form (s : PyStr.t) :
  ~ In 304%N s ->
  (forallb PyStr.isalpha (PyStr.clean_str s) = true
   /\ (List.length (PyStr.clean_str s) <= List.length s)%nat
   /\ PyStr.clean_str (PyStr.clean_str s) = PyStr.clean_str s
   /\ flat_map PyStr.lower (PyStr.clean_str s) = PyStr.clean_str s)
  /\ PyStr.clean_str [304%N] = [105%N; 775%N]
  /\ PyStr.isalpha 775%N = false
  /\ PyStr.clean_str [105%N; 775%N] = [105%N].
Proof.
  intros Hs. split; [|vm_compute; repeat split].
  unfold PyStr.clean_str. induction s as [|c s IH]; [repeat split; constructor|].
  assert (Hc : c <> 304%N) by (intros ->; apply Hs; now left).
  destruct IH as (Halpha & Hlen & Hfix & Hlow); [intros H; apply Hs; now right|].
  cbn [flat_map]. destruct (PyStr.isalpha c) eqn:Ec.
  - destruct (PyStrFacts.lower_single c Hc) as (c' & E & Hc'). rewrite E.
    destruct (lower_lower c c' Hc E) as [Hc'304 E'].
    rewrite Ec in Hc'. cbn [List.app forallb flat_map List.length].
    rewrite Hc', E', Halpha, Hfix, Hlow. repeat split. cbn [List.app]. lia.
  - cbn [List.app List.length]. repeat split; try assumption. lia.
Qed.

Lemma clean_str_is_a_normal_form_witness :
  (forallb PyStr.isalpha (PyStr.clean_str (PyStr.of_string "Role-Playing")) = true
   /\ (List.length (PyStr.clean_str (PyStr.of_string "Role-Playing"))
       <= List.length (PyStr.of_string "Role-Playing"))%nat
   /\ PyStr.clean_str (PyStr.clean_str (PyStr.of_string "Role-Playing"))
      = PyStr.clean_str (PyStr.of_string "Role-Playing")
   /\ flat_map PyStr.lower (PyStr.clean_str (PyStr.of_string "Role-Playing"))
      = PyStr.clean_str (PyStr.of_string "Role-Playing"))
  /\ PyStr.clean_str [304%N] = [105%N; 775%N]
  /\ PyStr.isalpha 775%N = false
  /\ PyStr.clean_str [105%N; 775%N] = [105%N].
Proof.
  apply (clean_str_is_a_normal_form (PyStr.of_string "Role-Playing")).
  vm_compute. intuition discriminate.
Defined.

(** ** The JSON output *)

Lemma json_loop_entries (a : args.t) (todo : dict) :
  forall output out,
    NoDup (dict_keys output ++ dict_keys todo)%list ->
    json_loop a todo output = Ret out ->
    exists tail,
      out = (output ++ tail)%list
      /\ Forall2 (fun kv okv =>
                    fst okv = fst kv
                    /\ exists o, snd okv = VDict o
                                 /\ json_fields a (fst kv) (snd kv) = Ret o) todo tail.
Proof.
  induction todo as [|[g f] todo IH]; intros output out Hnd E; cbn [json_loop] in E.
  - injection E as <-. exists []. split; [now rewrite List.app_nil_r | constructor].
  - destruct (json_fields a g f) as [o|e] eqn:Ef; [|discriminate].
    rewrite JsonFacts.dict_set_fresh in E.
    + apply IH in E.
      2:{ unfold dict_keys in *. rewrite map_app, <- List.app_assoc. exact Hnd. }
      destruct E as (tail & -> & Htail).
      exists ((g, VDict o) :: tail). split; [now rewrite <- List.app_assoc|].
      constructor; [|exact Htail]. split; [reflexivity|]. exists o. now split.
    + apply NoDup_remove_2 in Hnd.
      intros Hin. apply Hnd, in_or_app. now left.
Qed.

(** X12: the JSON output has one entry for every game of the filtered
    wishlist, in the same order and under the same id, and the entry is
    the projection of the fields of that game. *)
Theorem json_output_entry_by_entry (a : args.t) (wishlist out : dict) :
  NoDup (dict_keys wishlist) ->
  json_output a wishlist = Ret out ->
  Forall2 (fun kv okv =>
             fst okv = fst kv
             /\ exists o, snd okv = VDict o
                          /\ json_fields a (fst kv) (snd kv) = Ret o) wishlist out.
Proof.
  intros Hnd E. apply json_loop_entries in E; [|exact Hnd].
  now destruct E as (tail & -> & H).
Qed.

Lemma json_output_entry_by_entry_witness :
  Forall2
    (fun kv okv : string * value =>
       fst okv = fst kv
       /\ exists o, snd okv = VDict o /\ json_fields name_link_args (fst kv) (snd kv) = Ret o)
    foo_wishlist foo_output.
Proof.
  apply (json_output_entry_by_entry name_link_args foo_wishlist foo_output).
  - simpl. repeat constructor; simpl; intuition discriminate.
  - vm_compute. reflexivity.
Defined.

(** ** The numeric options *)

Lemma integer_bound (val : option string) (name : string) (m : Z) (w w' : world) (v : Z) :
  0 < m -> integer val name (Some m) w = (Ret v, w') -> v <= m.
Proof.
  unfold integer. intros Hm. destruct val as [s|]; [|intros [= <- _]; lia].
  destruct (Py.int_of_str s) as [x|]; [|discriminate].
  unfold max_given. destruct (Z.eqb_spec m 0) as [->|Hne]; [lia|]. cbn [negb orb].
  destruct (Z.leb_spec x m); [intros [= <- _]; assumption | discriminate].
Qed.

(** X13: when the three numeric options are accepted nothing has been written,
    the discount is at most 100 and the deck rating at most 3; an option
    that was not given counts as 0. *)
Theorem resolved_numbers_are_bounded
    (a : args.t) (w w' : world) (wd wp wk : Z) :
  resolve_numbers a w = (Ret (wd, wp, wk), w') ->
  w' = w /\ wd <= 100 /\ wk <= 3
  /\ (args.discount a = None -> wd = 0)
  /\ (args.price a = None -> wp = 0)
  /\ (args.deck a = None -> wk = 0).
Proof.
  unfold resolve_numbers, wanted_discount, wanted_price, wanted_deck_rating, io_bind.
  destruct (integer_returns_or_exits (args.discount a) "Discount" (Some 100) w)
    as [[d Hd]|Hd]; rewrite Hd; [|discriminate].
  destruct (integer_returns_or_exits (args.price a) "Price" None w)
    as [[p Hp]|Hp]; rewrite Hp; [|discriminate].
  destruct (integer_returns_or_exits (args.deck a) "Steam Deck rating" (Some 3) w)
    as [[k Hk]|Hk]; rewrite Hk; [|discriminate].
  intros [= <- <- <- <-].
  split; [reflexivity|]. split; [eapply integer_bound; [|exact Hd]; lia|].
  split; [eapply integer_bound; [|exact Hk]; lia|].
  repeat split; intros E.
  - rewrite E in Hd. now injection Hd.
  - rewrite E in Hp. now injection Hp.
  - rewrite E in Hk. now injection Hk.
Qed.

Lemma resolved_numbers_are_bounded_witness :
  empty_world = empty_world
  /\ 50 <= 100 /\ 0 <= 3
  /\ (args.discount discount_price_args = None -> 50 = 0)
  /\ (args.price discount_price_args = None -> 1999 = 0)
  /\ (args.deck discount_price_args = None -> 0 = 0).
Proof.
  apply (resolved_numbers_are_bounded discount_price_args empty_world empty_world 50 1999 0).
  vm_compute. reflexivity.
Defined.

(** ** Loading and fetching *)

(** X14: without [--load] and without a user id the run ends with status 1
    after the notice and the help text on the error stream; no request is
    made and nothing is printed. *)
Theorem missing_userid_exits
    (net : network) (help_text : string)
    (csv_writerow : string -> string -> list value -> result string)
    (a : args.t) (numbers : Z * Z * Z) (fuel : nat) (w : world) :
  given (args.load a) = false -> given (args.userid a) = false ->
  resolve_numbers a w = (Ret numbers, w) ->
  main net help_text csv_writerow a fuel w
  = Some (Raise (SystemExit 1),
          with_stderr w ("Missing <userid> or --load" ++ nl ++ nl ++ help_text)).
Proof.
  intros Hload Huser Hnum. unfold main, get_wishlist. rewrite Hnum, Hload, Huser.
  cbn [negb]. unfold io_bind. rewrite !pe_spec, with_stderr_app.
  now rewrite !str_app_assoc.
Qed.

Lemma missing_userid_exits_witness :
  main no_net EmptyString no_writer args.default 0 empty_world
  = Some (Raise (SystemExit 1),
          with_stderr empty_world
            ("Missing <userid> or --load" ++ nl ++ nl ++ EmptyString)).
Proof.
  apply (missing_userid_exits no_net EmptyString no_writer args.default (0, 0, 0) 0
           empty_world).
  - reflexivity.
  - reflexivity.
  - vm_compute. reflexivity.
Defined.

(** X15: with [--load] and no file of that name the run ends with the
    [FileNotFoundError] of [open]: no request has been made and the script
    has written nothing, to either stream or to a file, when the exception
    leaves it. *)
Theorem missing_snapshot_is_fatal
    (net : network) (help_text : string)
    (csv_writerow : string -> string -> list value -> result string)
    (a : args.t) (path : string) (numbers : Z * Z * Z) (fuel : nat) (w : world) :
  args.load a = Some path -> Py.nonempty path = true ->
  resolve_numbers a w = (Ret numbers, w) ->
  file_lookup (files w) path = None ->
  main net help_text csv_writerow a fuel w = Some (Raise FileNotFoundError, w).
Proof.
  intros Hload Hpath Hnum Hfile. unfold main, get_wishlist, given.
  rewrite Hnum, Hload, Hpath. cbn [the_str]. unfold load_snapshot, io_bind, read_file.
  now rewrite Hfile.
Qed.

Lemma missing_snapshot_is_fatal_witness :
  main no_net EmptyString no_writer load_args 0 empty_world
  = Some (Raise FileNotFoundError, empty_world).
Proof.
  apply (missing_snapshot_is_fatal no_net EmptyString no_writer load_args
           "wishlist.json" (0, 0, 0) 0 empty_world).
  - reflexivity.
  - reflexivity.
  - vm_compute. reflexivity.
  - reflexivity.
Defined.

(** ** What [json.loads] returns *)

Lemma All_dict_set (P : value -> Prop) (d : dict) (k : string) (v : value) :
  All (fun kv => P (snd kv)) d -> P v -> All (fun kv => P (snd kv)) (dict_set d k v).
Proof.
  induction d as [|[k' v'] d IH]; simpl; intros Hd Hv; [tauto|].
  destruct (String.eqb k k'); simpl; tauto.
Qed.

Lemma All_dict_update (P : value -> Prop) (pairs d : dict) :
  All (fun kv => P (snd kv)) d -> All (fun kv => P (snd kv)) pairs ->
  All (fun kv => P (snd kv)) (dict_update d pairs).
Proof.
  unfold dict_update. revert d. induction pairs as [|[k v] pairs IH]; intros d Hd Hp; simpl.
  - assumption.
  - destruct Hp as [Hv Hp]. apply IH; [|assumption]. now apply All_dict_set.
Qed.

Lemma wf_dict_of_pairs (pairs : dict) :
  All (fun kv => wf_value (snd kv)) pairs -> wf_value (VDict (dict_update [] pairs)).
Proof.
  intros H. split.
  - apply (NoDup_keys_update pairs []). constructor.
  - apply All_dict_update; [exact I | assumption].
Qed.

Lemma scan_wf (fuel : nat) :
  (forall s v rest, Json.scan_once fuel s = Some (v, rest) -> wf_value v)
  /\ (forall s xs rest, Json.scan_array fuel s = Some (xs, rest) -> All wf_value xs)
  /\ (forall s pairs rest, Json.scan_object fuel s = Some (pairs, rest) ->
        All (fun kv => wf_value (snd kv)) pairs).
Proof.
  induction fuel as [|fuel (IH1 & IH2 & IH3)]; [repeat split; discriminate|].
  split; [|split].
  - intros s v rest. cbn [Json.scan_once]. destruct s as [|c r]; [discriminate|].
    destruct (Py.code c =? 34)%N.
    { destruct (Json.scanstring r) as [[body rest']|]; [|discriminate].
      intros [= <- _]. exact I. }
    destruct (Py.code c =? 123)%N.
    { destruct (Json.skip_ws r) as [|c1 r1]; [discriminate|].
      destruct (Py.code c1 =? 125)%N; [intros [= <- _]; split; [constructor | exact I]|].
      destruct (Json.scan_object fuel (String c1 r1)) as [[pairs rest']|] eqn:E; [|discriminate].
      intros [= <- _]. apply wf_dict_of_pairs. eapply IH3, E. }
    destruct (Py.code c =? 91)%N.
    { destruct (Json.skip_ws r) as [|c1 r1]; [discriminate|].
      destruct (Py.code c1 =? 93)%N; [intros [= <- _]; exact I|].
      destruct (Json.scan_array fuel (String c1 r1)) as [[xs rest']|] eqn:E; [|discriminate].
      intros [= <- _]. eapply IH2, E. }
    destruct (Py.code c =? 110)%N.
    { destruct (Json.expect "ull" r); [|discriminate]. intros [= <- _]. exact I. }
    destruct (Py.code c =? 116)%N.
    { destruct (Json.expect "rue" r); [|discriminate]. intros [= <- _]. exact I. }
    destruct (Py.code c =? 102)%N.
    { destruct (Json.expect "alse" r); [|discriminate]. intros [= <- _]. exact I. }
    destruct (Py.code c =? 45)%N.
    { destruct (Json.scan_nat r) as [[n rest']|]; [|discriminate]. intros [= <- _]. exact I. }
    destruct (Json.scan_nat (String c r)) as [[n rest']|]; [|discriminate].
    intros [= <- _]. exact I.
  - intros s xs rest. cbn [Json.scan_array].
    destruct (Json.scan_once fuel s) as [[x rest1]|] eqn:E1; [|discriminate].
    apply IH1 in E1.
    destruct (Json.skip_ws rest1) as [|c r]; [discriminate|].
    destruct (Py.code c =? 93)%N; [intros [= <- _]; split; [assumption | exact I]|].
    destruct (Py.code c =? 44)%N; [|discriminate].
    destruct (Json.scan_array fuel (Json.skip_ws r)) as [[xs' rest2]|] eqn:E2; [|discriminate].
    intros [= <- _]. split; [assumption | eapply IH2, E2].
  - intros s pairs rest. cbn [Json.scan_object]. destruct s as [|c r]; [discriminate|].
    destruct (Py.code c =? 34)%N; [|discriminate].
    destruct (Json.scanstring r) as [[k rest1]|]; [|discriminate].
    destruct (Json.skip_ws rest1) as [|c1 r1]; [discriminate|].
    destruct (Py.code c1 =? 58)%N; [|discriminate].
    destruct (Json.scan_once fuel (Json.skip_ws r1)) as [[x rest2]|] eqn:E1; [|discriminate].
    apply IH1 in E1.
    destruct (Json.skip_ws rest2) as [|c2 r2]; [discriminate|].
    destruct (Py.code c2 =? 125)%N; [intros [= <- _]; split; [assumption | exact I]|].
    destruct (Py.code c2 =? 44)%N; [|discriminate].
    destruct (Json.scan_object fuel (Json.skip_ws r2)) as [[ps rest3]|] eqn:E2; [|discriminate].
    intros [= <- _]. split; [assumption | eapply IH3, E2].
Qed.

Lemma loads_wf (text : string) (v : value) : Json.loads text = Some v -> wf_value v.
Proof.
  unfold Json.loads.
  destruct (Json.scan_once _ _) as [[v' rest]|] eqn:E; [|discriminate].
  destruct (Json.skip_ws rest); [|discriminate]. intros [= <-].
  eapply (proj1 (scan_wf _)), E.
Qed.

(** ** A run that only loads *)

Lemma json_fields_all (a : args.t) (gameid : string) (fields : dict) :
  wanted_fields a = None -> NoDup (dict_keys fields) ->
  json_fields a gameid (VDict fields) = Ret fields.
Proof.
  intros Hw Hnd. unfold json_fields. cbn [py_items bind]. rewrite Hw.
  cbn [given_list negb orb andb].
  rewrite (fold_left_dict_set_filter (fun _ => true)) by exact Hnd.
  cbn [List.app]. now rewrite filter_all.
Qed.

Lemma json_loop_all (a : args.t) (todo : dict) :
  wanted_fields a = None ->
  forall output,
    NoDup (dict_keys (output ++ todo)%list) ->
    All (fun kv => wf_value (snd kv)) todo ->
    Forall (fun kv => exists f, snd kv = VDict f) todo ->
    json_loop a todo output = Ret (output ++ todo)%list.
Proof.
  intros Hw. induction todo as [|[g f] todo IH]; intros output Hnd Hwf Hmaps;
    cbn [json_loop].
  - now rewrite List.app_nil_r.
  - inversion Hmaps as [|? ? [fields Hf] Hrest]; subst. cbn [snd] in Hf. subst f.
    destruct Hwf as [[Hkeys _] Hwf].
    rewrite json_fields_all by assumption.
    rewrite JsonFacts.dict_set_fresh.
    + rewrite IH; [now rewrite <- List.app_assoc | now rewrite <- List.app_assoc | assumption..].
    + unfold dict_keys in Hnd. rewrite map_app in Hnd. apply NoDup_remove_2 in Hnd.
      intros Hin. apply Hnd, in_or_app. now left.
Qed.

(** X17: a run with [--load] and without [--prices], [--csv], [--fields] or a
    filter prints the snapshot: when the file holds a mapping whose
    entries are mappings, the run succeeds, standard output receives that
    mapping, pretty-printed, and a line end, and nothing else changes. *)
Theorem load_only_prints_the_snapshot
    (net : network) (help_text : string)
    (csv_writerow : string -> string -> list value -> result string)
    (a : args.t) (path text : string) (wishlist : dict) (numbers : Z * Z * Z)
    (fuel : nat) (w : world) :
  args.load a = Some path -> Py.nonempty path = true ->
  given (args.cc a) = false -> given (args.save a) = false ->
  args.csv a = false -> given (args.fields a) = false ->
  no_filter_options a = true ->
  resolve_numbers a w = (Ret numbers, w) ->
  file_lookup (files w) path = Some text ->
  Json.loads text = Some (VDict wishlist) ->
  Forall (fun kv => exists f, snd kv = VDict f) wishlist ->
  main net help_text csv_writerow a fuel w
  = Some (Ret tt,
          {| files := files w;
             stdout := stdout w ++ JsonPretty.dumps (VDict wishlist) ++ nl;
             stderr := stderr w |}).
Proof.
  intros Hload Hpath Hcc Hsave Hcsv Hfields Hno Hnum Hfile Htext Hmaps.
  pose proof (loads_wf text _ Htext) as [Hnd Hwf].
  unfold main. rewrite Hnum. unfold get_wishlist, given in *. rewrite Hload, Hpath.
  cbn [the_str]. unfold load_snapshot, io_bind, read_file. rewrite Hfile, Htext.
  unfold io_ret. destruct numbers as [[wd wp] wk].
  unfold process, get_prices, price_guard, io_bind, io_lift, given. rewrite Hcc.
  cbn [negb]. unfold save_snapshot, given. rewrite Hsave. unfold io_ret.
  assert (Hlists : to_load a = []).
  { unfold no_filter_options in Hno. repeat (apply andb_true_iff in Hno as [Hno ?]).
    repeat match goal with H : negb _ = true |- _ => apply negb_true_iff in H end.
    unfold to_load.
    repeat match goal with H : _ = false |- _ => rewrite H; clear H end. reflexivity. }
  rewrite Hlists. cbn [load_filter_lists io_ret py_items].
  assert (Hkept : filter_wishlist a wd wp wk [] wishlist = Ret wishlist).
  { unfold filter_wishlist. rewrite filter_loop_all_kept; [reflexivity | exact Hnd |].
    apply Forall_forall. intros kv _. now apply kept_without_options. }
  rewrite Hkept.
  unfold write_output, io_bind, io_lift. rewrite Hcsv. cbn [negb].
  unfold json_output. rewrite json_loop_all; try assumption.
  - reflexivity.
  - unfold wanted_fields, given. now rewrite Hfields.
Qed.

Lemma load_only_prints_the_snapshot_witness :
  main no_net EmptyString no_writer load_args 0 foo_world
  = Some (Ret tt,
          {| files := files foo_world;
             stdout := stdout foo_world ++ JsonPretty.dumps (VDict foo_wishlist) ++ nl;
             stderr := stderr foo_world |}).
Proof.
  apply (load_only_prints_the_snapshot no_net EmptyString no_writer load_args
           "wishlist.json" (Json.dumps (VDict foo_wishlist)) foo_wishlist (0, 0, 0) 0
           foo_world); try reflexivity.
  repeat constructor. simpl. eexists. reflexivity.
Defined.

(** ** The snapshot *)




(** ** Sorting *)

Lemma insert_sorted_perm {A} (x : sort_key * A) (l : list (sort_key * A)) :
  Permutation (insert_sorted x l) (x :: l).
Proof.
  induction l as [|y l IH]; simpl; [reflexivity|].
  destruct (key_lt (fst y) (fst x)); [|reflexivity].
  rewrite IH. apply perm_swap.
Qed.

Lemma stable_sort_perm {A} (l : list (sort_key * A)) : Permutation (stable_sort l) l.
Proof.
  unfold stable_sort. induction l as [|x l IH]; simpl; [reflexivity|].
  rewrite insert_sorted_perm. now constructor.
Qed.

Lemma string_ltb_asym (s1 s2 : string) : String.ltb s1 s2 = true -> String.ltb s2 s1 = false.
Proof.
  unfold String.ltb. rewrite (String.compare_antisym s2 s1).
  destruct (String.compare s1 s2); simpl; congruence.
Qed.

Lemma key_lt_asym (k1 k2 : sort_key) : key_lt k1 k2 = true -> key_lt k2 k1 = false.
Proof.
  destruct k1, k2; simpl; try congruence.
  - intros H. apply Z.ltb_lt in H. apply Z.ltb_ge. lia.
  - apply string_ltb_asym.
Qed.

Lemma insert_sorted_hd {A} (y x : sort_key * A) (l : list (sort_key * A)) :
  ascending y x -> HdRel ascending y l -> HdRel ascending y (insert_sorted x l).
Proof.
  intros Hyx Hl. destruct l as [|z l]; simpl; [now constructor|].
  destruct (key_lt (fst z) (fst x)); constructor; [now inversion Hl | assumption].
Qed.

Lemma insert_sorted_sorted {A} (x : sort_key * A) (l : list (sort_key * A)) :
  Sorted ascending l -> Sorted ascending (insert_sorted x l).
Proof.
  induction 1 as [|y l Hl IH Hhd]; simpl; [repeat constructor|].
  destruct (key_lt (fst y) (fst x)) eqn:E.
  - constructor; [assumption|]. apply insert_sorted_hd; [|assumption].
    unfold ascending. now apply key_lt_asym.
  - constructor; [now constructor|]. now constructor.
Qed.

Lemma stable_sort_sorted {A} (l : list (sort_key * A)) : Sorted ascending (stable_sort l).
Proof.
  unfold stable_sort. induction l as [|x l IH]; simpl; [constructor|].
  now apply insert_sorted_sorted.
Qed.

Lemma Sorted_snoc {A} (R : A -> A -> Prop) (l : list A) (x : A) :
  Sorted R l -> HdRel (fun p q => R q p) x (List.rev l) -> Sorted R (l ++ [x]).
Proof.
  induction 1 as [|y l Hl IH Hhd]; simpl; intros Hx; [repeat constructor|].
  destruct l as [|z l].
  - simpl in *. inversion Hx; subst. repeat constructor. assumption.
  - constructor.
    + apply IH. simpl in *.
      destruct (List.rev l ++ [z])%list eqn:E.
      * destruct (List.rev l); discriminate.
      * simpl in Hx. inversion Hx; subst. now constructor.
    + simpl. constructor. now inversion Hhd.
Qed.

Lemma Sorted_rev {A} (R : A -> A -> Prop) (l : list A) :
  Sorted R l -> Sorted (fun p q => R q p) (List.rev l).
Proof.
  induction 1 as [|y l Hl IH Hhd]; simpl; [constructor|].
  apply Sorted_snoc; [assumption|]. rewrite List.rev_involutive.
  destruct Hhd; constructor; assumption.
Qed.

Lemma Sorted_map {A B} (R : A -> A -> Prop) (R' : B -> B -> Prop) (P : A -> Prop)
    (f : A -> B) (l : list A) :
  (forall p q, P p -> P q -> R p q -> R' (f p) (f q)) ->
  Forall P l -> Sorted R l -> Sorted R' (map f l).
Proof.
  intros HR HP Hs. induction Hs as [|y l Hl IH Hhd]; simpl; [constructor|].
  inversion HP as [|? ? Py Pl]; subst. constructor; [auto|].
  destruct Hhd as [|z l' Hyz]; simpl; constructor.
  inversion Pl; subst. auto.
Qed.

Lemma mapM_length {A B} (f : A -> result B) (l : list A) (ys : list B) :
  mapM f l = Ret ys -> List.length ys = List.length l.
Proof.
  revert ys. induction l as [|x l IH]; simpl; intros ys H.
  - now injection H as <-.
  - destruct (f x); [|discriminate]. destruct (mapM f l) as [ys'|]; [|discriminate].
    injection H as <-. simpl. now rewrite (IH ys').
Qed.

Lemma mapM_combine {A B} (f : A -> result B) (l : list A) (ys : list B) :
  mapM f l = Ret ys -> Forall (fun p => f (snd p) = Ret (fst p)) (combine ys l).
Proof.
  revert ys. induction l as [|x l IH]; simpl; intros ys H.
  - injection H as <-. constructor.
  - destruct (f x) as [y|] eqn:E; [|discriminate].
    destruct (mapM f l) as [ys'|]; [|discriminate].
    injection H as <-. simpl. constructor; [exact E | now apply IH].
Qed.

Lemma map_snd_combine {A B} (xs : list A) (ys : list B) :
  List.length xs = List.length ys -> map snd (combine xs ys) = ys.
Proof.
  revert ys. induction xs as [|x xs IH]; intros [|y ys]; simpl; try discriminate; auto.
  intros [= H]. now rewrite IH.
Qed.

(** What [sorted] returns in terms of the keyed list it sorts. *)
Lemma sorted_ret (a : args.t) (items out : dict) :
  sorted a items = Ret out ->
  exists keys,
    mapM (sorter a) items = Ret keys
    /\ out = map snd (if args.reverse a
                      then List.rev (stable_sort (List.rev (combine keys items)))
                      else stable_sort (combine keys items)).
Proof.
  unfold sorted. destruct (mapM (sorter a) items) as [keys|] eqn:E; cbn [bind]; [|discriminate].
  destruct (_ || _); [|discriminate]. intros [= <-]. now exists keys.
Qed.

(** X19: [sorted] rearranges: its result holds the items it was given, each as
    often as it was there. *)
Theorem sorted_is_a_permutation (a : args.t) (items out : dict) :
  sorted a items = Ret out -> Permutation out items.
Proof.
  intros H. apply sorted_ret in H as (keys & Hkeys & ->).
  pose proof (map_snd_combine keys items (mapM_length _ _ _ Hkeys)) as Hsnd.
  set (keyed := combine keys items) in *.
  apply (Permutation_trans (l' := map snd keyed)); [|now rewrite Hsnd].
  apply Permutation_map. destruct (args.reverse a).
  - rewrite <- Permutation_rev, stable_sort_perm. symmetry. apply Permutation_rev.
  - apply stable_sort_perm.
Qed.

Lemma sorted_is_a_permutation_witness : Permutation sorted_wishlist unsorted_wishlist.
Proof.
  apply (sorted_is_a_permutation csv_args unsorted_wishlist sorted_wishlist).
  vm_compute. reflexivity.
Defined.

(** X20: [sorted] orders by key: of two neighbours of the result the second
    never has the smaller key, and with [--reverse] never the greater
    one. *)
Theorem sorted_is_ordered_by_key (a : args.t) (items out : dict) :
  sorted a items = Ret out ->
  Sorted (fun i j =>
            forall ki kj, sorter a i = Ret ki -> sorter a j = Ret kj ->
                          if args.reverse a then key_lt ki kj = false
                          else key_lt kj ki = false) out.
Proof.
  intros H. apply sorted_ret in H as (keys & Hkeys & ->).
  pose proof (mapM_combine _ _ _ Hkeys) as Hall.
  assert (Hmap : forall (R : sort_key * (string * value) -> _ -> Prop) l,
             (forall p q, R p q ->
                          if args.reverse a then key_lt (fst p) (fst q) = false
                          else key_lt (fst q) (fst p) = false) ->
             Forall (fun p => sorter a (snd p) = Ret (fst p)) l ->
             Sorted R l ->
             Sorted (fun i j =>
                       forall ki kj, sorter a i = Ret ki -> sorter a j = Ret kj ->
                                     if args.reverse a then key_lt ki kj = false
                                     else key_lt kj ki = false) (map snd l)).
  { intros R l HR HP Hs.
    apply (Sorted_map R _ (fun p => sorter a (snd p) = Ret (fst p)) snd l); try assumption.
    intros p q Hp Hq Hpq ki kj Hi Hj.
    rewrite Hp in Hi. rewrite Hq in Hj. injection Hi as <-. injection Hj as <-.
    now apply HR. }
  destruct (args.reverse a) eqn:Hrev.
  - apply (Hmap (fun p q => ascending q p)).
    + intros p q Hpq. exact Hpq.
    + apply Forall_forall. intros p Hp. rewrite Forall_forall in Hall. apply Hall.
      apply in_rev in Hp.
      apply (Permutation_in _ (stable_sort_perm _)) in Hp. now apply in_rev in Hp.
    + apply (Sorted_rev ascending). apply stable_sort_sorted.
  - apply (Hmap ascending).
    + intros p q Hpq. exact Hpq.
    + apply Forall_forall. intros p Hp. rewrite Forall_forall in Hall. apply Hall.
      now apply (Permutation_in _ (stable_sort_perm _)) in Hp.
    + apply stable_sort_sorted.
Qed.

Lemma sorted_is_ordered_by_key_witness :
  Sorted (fun i j =>
            forall ki kj, sorter csv_args i = Ret ki -> sorter csv_args j = Ret kj ->
                          if args.reverse csv_args then key_lt ki kj = false
                          else key_lt kj ki = false) sorted_wishlist.
Proof.
  apply (sorted_is_ordered_by_key csv_args unsorted_wishlist sorted_wishlist).
  vm_compute. reflexivity.
Defined.

(** ** Price batches *)

Lemma batches_spec (fuel : nat) :
  forall gameids,
    (List.length gameids <= fuel)%nat ->
    List.concat (batches fuel gameids) = gameids
    /\ Forall (fun batch => (0 < List.length batch <= BATCH_SIZE)%nat) (batches fuel gameids)
    /\ Forall (fun batch => List.length batch = BATCH_SIZE) (removelast (batches fuel gameids)).
Proof.
  induction fuel as [|fuel IH]; intros gameids Hlen.
  - destruct gameids; [|simpl in Hlen; lia]. simpl. repeat split; constructor.
  - destruct gameids as [|g gameids]; [simpl; repeat split; constructor|].
    cbn [batches].
    set (l := g :: gameids) in *.
    assert (Hl : (0 < List.length l)%nat) by (subst l; simpl; lia).
    assert (Hskip : (List.length (skipn BATCH_SIZE l) <= fuel)%nat).
    { rewrite length_skipn. unfold BATCH_SIZE. lia. }
    destruct (IH _ Hskip) as (Hcat & Hbound & Hfull). repeat split.
    + cbn [List.concat]. rewrite Hcat. apply firstn_skipn.
    + constructor; [|exact Hbound]. rewrite length_firstn. unfold BATCH_SIZE. lia.
    + destruct (batches fuel (skipn BATCH_SIZE l)) as [|b bs] eqn:E.
      * constructor.
      * change (removelast (firstn BATCH_SIZE l :: b :: bs))
          with (firstn BATCH_SIZE l :: removelast (b :: bs)).
        constructor; [|exact Hfull].
        rewrite length_firstn.
        assert (Hne : (0 < List.length (skipn BATCH_SIZE l))%nat).
        { destruct (skipn BATCH_SIZE l) eqn:E'; [|simpl; lia].
          destruct fuel; discriminate. }
        rewrite length_skipn in Hne. lia.
Qed.

(** X21: the batches of the price stage cut the list of ids into consecutive
    pieces: put together they are the list again, none is empty, none has
    more than 100 ids, and all but the last have exactly 100. *)
Theorem batches_partition_the_ids (gameids : list string) :
  List.concat (batches (List.length gameids) gameids) = gameids
  /\ Forall (fun batch => (0 < List.length batch <= 100)%nat)
       (batches (List.length gameids) gameids)
  /\ Forall (fun batch => List.length batch = 100%nat)
       (removelast (batches (List.length gameids) gameids)).
Proof. exact (batches_spec (List.length gameids) gameids (le_n _)). Qed.

(** ** Price updates *)

Lemma extends_refl (e : dict) : extends e e.
Proof. exists []. now rewrite List.app_nil_r. Qed.

Lemma extends_trans (e1 e2 e3 : dict) : extends e1 e2 -> extends e2 e3 -> extends e1 e3.
Proof.
  intros [x1 H1] [x2 H2]. exists (x1 ++ x2)%list. now rewrite H2, H1, List.app_assoc.
Qed.

Lemma extends_has (e e' : dict) (k : string) :
  extends e e' -> dict_has e k = true -> dict_has e' k = true.
Proof.
  intros [extra H] Hk. apply dict_has_in_keys. rewrite H. apply in_or_app. left.
  now apply dict_has_in_keys.
Qed.

Lemma dict_has_set (d : dict) (k : string) (v : value) : dict_has (dict_set d k v) k = true.
Proof. unfold dict_has. now rewrite dict_get_set, String.eqb_refl. Qed.

Lemma dict_keys_set_present (d : dict) (k : string) (v v' : value) :
  dict_get d k = Some v -> dict_keys (dict_set d k v') = dict_keys d.
Proof. intros H. rewrite dict_keys_set. unfold dict_has. now rewrite H. Qed.

(** What one update does when it returns. *)
Lemma price_update_ret (wishlist wishlist' : dict) (gameid : string) (obj : value) :
  price_update wishlist gameid obj = Ret wishlist' ->
  exists e e',
    dict_get wishlist gameid = Some (VDict e)
    /\ wishlist' = dict_set wishlist gameid (VDict e')
    /\ extends e e'
    /\ dict_has e' "_price" = true.
Proof.
  unfold price_update. destruct (dict_get wishlist gameid) as [[| | | | |e]|] eqn:Hg;
    try discriminate.
  intros H. exists e.
  assert (H1 : extends e (dict_set e "_price" (VStr "fetched")))
    by apply dict_keys_set_prefix.
  assert (H2 : dict_has (dict_set e "_price" (VStr "fetched")) "_price" = true)
    by apply dict_has_set.
  destruct (py_in "data" obj) as [[|]|]; cbn [bind] in H; try discriminate.
  - destruct (py_getitem obj "data") as [data|]; cbn [bind] in H; [|discriminate].
    destruct (py_in "price_overview" data) as [[|]|]; cbn [bind] in H; try discriminate.
    + destruct (py_getitem data "price_overview") as [overview|]; cbn [bind] in H;
        [|discriminate].
      destruct (py_items overview) as [pairs|]; cbn [bind] in H; [|discriminate].
      injection H as <-. eexists. split; [reflexivity|]. split; [reflexivity|].
      assert (H3 : extends (dict_set e "_price" (VStr "fetched"))
                     (dict_update (dict_set e "_price" (VStr "fetched")) pairs))
        by apply dict_update_keys_prefix.
      split; [eapply extends_trans; eassumption|]. eapply extends_has; eassumption.
    + injection H as <-. eexists. repeat split; try reflexivity; assumption.
  - injection H as <-. eexists. repeat split; try reflexivity; assumption.
Qed.

(** What the updates of one response do when they all return. *)
Lemma price_updates_spec (response : dict) :
  forall wishlist wishlist',
    price_updates wishlist response = Ret wishlist' ->
    dict_keys wishlist' = dict_keys wishlist
    /\ (forall g, In g (dict_keys response) -> In g (dict_keys wishlist))
    /\ (forall g, ~ In g (dict_keys response) -> dict_get wishlist' g = dict_get wishlist g)
    /\ (forall g e, dict_get wishlist g = Some (VDict e) ->
                    exists e', dict_get wishlist' g = Some (VDict e') /\ extends e e')
    /\ (forall g, In g (dict_keys response) ->
                  exists e', dict_get wishlist' g = Some (VDict e')
                             /\ dict_has e' "_price" = true).
Proof.
  induction response as [|[g0 obj] response IH]; intros wishlist wishlist' H.
  - injection H as <-. split; [reflexivity|]. split; [intros g []|].
    split; [reflexivity|]. split; [|intros g []].
    intros g e Hg. exists e. split; [assumption | apply extends_refl].
  - cbn [price_updates] in H.
    destruct (price_update wishlist g0 obj) as [wl1|] eqn:E; [|discriminate].
    apply price_update_ret in E as (e0 & e0' & Hg0 & -> & Hext & Hmark).
    destruct (IH _ _ H) as (Hkeys & Hin & Hout & Hfields & Hmarks).
    assert (Hk1 : dict_keys (dict_set wishlist g0 (VDict e0')) = dict_keys wishlist)
      by (eapply dict_keys_set_present; eassumption).
    assert (Hstep : forall g e, dict_get wishlist g = Some (VDict e) ->
              exists e1, dict_get (dict_set wishlist g0 (VDict e0')) g = Some (VDict e1)
                         /\ extends e e1).
    { intros g e Hg. rewrite dict_get_set. destruct (String.eqb g g0) eqn:Eg.
      - apply String.eqb_eq in Eg. subst g. rewrite Hg0 in Hg. injection Hg as <-.
        now exists e0'.
      - exists e. split; [assumption | apply extends_refl]. }
    cbn [dict_keys map fst]. repeat split.
    + now rewrite Hkeys.
    + intros g [<-|Hg].
      * eapply dict_get_in_keys. eassumption.
      * fold (dict_keys response) in Hg. rewrite <- Hk1. now apply Hin.
    + intros g Hg. rewrite Hout by (intros Hg'; apply Hg; now right).
      rewrite dict_get_set. destruct (String.eqb g g0) eqn:Eg; [|reflexivity].
      apply String.eqb_eq in Eg. subst g. exfalso. apply Hg. now left.
    + intros g e Hg. destruct (Hstep g e Hg) as (e1 & Hg1 & Hext1).
      destruct (Hfields g e1 Hg1) as (e' & Hg' & Hext').
      exists e'. split; [assumption | eapply extends_trans; eassumption].
    + intros g Hg.
      destruct (in_dec string_dec g (dict_keys response)) as [Hlater|Hlater].
      * now apply Hmarks.
      * destruct Hg as [<-|Hg]; [|contradiction].
        assert (Hg1 : dict_get (dict_set wishlist g0 (VDict e0')) g0 = Some (VDict e0'))
          by now rewrite dict_get_set, String.eqb_refl.
        destruct (Hfields g0 e0' Hg1) as (e' & Hg' & Hext').
        exists e'. split; [assumption | eapply extends_has; eassumption].
Qed.

(** X22: the price updates of one response change entries only: the ids and
    their order stay, entries the response does not name stay as they
    are, every entry keeps its fields in their places, and every entry the
    response names ends with the [_price] marker. *)
Theorem price_updates_change_entries_only (wishlist wishlist' response : dict) :
  price_updates wishlist response = Ret wishlist' ->
  dict_keys wishlist' = dict_keys wishlist
  /\ (forall g, ~ In g (dict_keys response) -> dict_get wishlist' g = dict_get wishlist g)
  /\ (forall g e, dict_get wishlist g = Some (VDict e) ->
                  exists e', dict_get wishlist' g = Some (VDict e') /\ extends e e')
  /\ (forall g, In g (dict_keys response) ->
                exists e', dict_get wishlist' g = Some (VDict e')
                           /\ dict_has e' "_price" = true).
Proof. intros H. apply price_updates_spec in H. tauto. Qed.

Lemma price_updates_change_entries_only_witness :
  dict_keys priced_games = dict_keys two_games
  /\ (forall g, ~ In g (dict_keys price_response) ->
                dict_get priced_games g = dict_get two_games g)
  /\ (forall g e, dict_get two_games g = Some (VDict e) ->
                  exists e', dict_get priced_games g = Some (VDict e') /\ extends e e')
  /\ (forall g, In g (dict_keys price_response) ->
                exists e', dict_get priced_games g = Some (VDict e')
                           /\ dict_has e' "_price" = true).
Proof.
  apply (price_updates_change_entries_only two_games priced_games price_response).
  vm_compute. reflexivity.
Defined.

(** X23: a response that names an id the wishlist does not have stops the
    price updates with an error: they never add a game. *)
Theorem price_for_unknown_game_is_fatal (wishlist response : dict) (gameid : string) :
  In gameid (dict_keys response) ->
  ~ In gameid (dict_keys wishlist) ->
  exists e, price_updates wishlist response = Raise e.
Proof.
  intros Hin Hout. destruct (price_updates wishlist response) as [wl'|e] eqn:E.
  - apply price_updates_spec in E as (_ & Hsub & _). exfalso. now apply Hout, Hsub.
  - now exists e.
Qed.

Lemma price_for_unknown_game_is_fatal_witness :
  exists e, price_updates two_games unknown_response = Raise e.
Proof.
  apply (price_for_unknown_game_is_fatal two_games unknown_response "99").
  - simpl. auto.
  - simpl. intuition discriminate.
Defined.

(** X24: once the response has named the first game of the wishlist, a run that
    loads the updated wishlist with [--prices] fetches prices again only
    with [--refresh]. *)
Theorem fetched_marker_skips_the_price_stage
    (a : args.t) (wishlist' response : dict)
    (gameid : string) (entry : value) (rest : dict) :
  given (args.cc a) = true ->
  given (args.load a) = true ->
  In gameid (dict_keys response) ->
  price_updates ((gameid, entry) :: rest) response = Ret wishlist' ->
  price_guard a (VDict wishlist') = Ret (args.refresh a).
Proof.
  intros Hcc Hload Hin H.
  apply price_updates_spec in H as (Hkeys & _ & _ & _ & Hmarks).
  destruct (Hmarks gameid Hin) as (e' & Hg & Hmark).
  destruct wishlist' as [|[g1 v1] rest']; [discriminate|].
  cbn [dict_keys map fst] in Hkeys. injection Hkeys as -> _.
  cbn [dict_get] in Hg. rewrite String.eqb_refl in Hg. injection Hg as ->.
  unfold price_guard. rewrite Hcc, Hload. cbn [negb py_items bind dict_values map snd py_in].
  now rewrite Hmark.
Qed.

Lemma fetched_marker_skips_the_price_stage_witness :
  price_guard load_prices_args (VDict priced_games) = Ret (args.refresh load_prices_args).
Proof.
  apply (fetched_marker_skips_the_price_stage load_prices_args priced_games price_response
           "10" (VDict [("type", VStr "game"); ("is_free_game", VBool false);
                        ("final", VInt 999)])
           [("20", VDict [("type", VStr "dlc"); ("is_free_game", VBool true);
                          ("final", VInt 0)])]).
  - reflexivity.
  - reflexivity.
  - simpl. auto.
  - vm_compute. reflexivity.
Defined.
